(** * Awesomation: device model, Z-Wave normalizer, push fanout, account link

    A shallow embedding of the App Engine side of the hub
    ([src/appengine/model.py], [devices/zwave.py], [user.py], [account.py],
    [main.py]) and the properties of its specification that can be settled
    on it.

    Python objects that the code mutates (the datastore, the device at hand,
    the request-scoped event buffer) live in an explicit world record that is
    threaded through a state-and-exception monad; the world survives a raised
    exception, as a Python heap does. *)

From stdpp Require Import gmap strings list fin_maps pretty.

Open Scope Z_scope.

(** ** Python values, exceptions and the state/exception monad *)

Module Py.

(** JSON scalars as they reach the handlers.  Floats and nested containers
    are left out of the model. *)
Inductive pyval :=
| PNone
| PBool (b : bool)
| PInt (z : Z)
| PStr (s : string).

#[global] Instance pyval_eq_dec : EqDecision pyval.
Proof. solve_decision. Defined.

(** The exceptions the modelled code can raise.  [HTTPException c] is what
    [flask.abort(c)] raises. *)
Inductive exn :=
| KeyError (k : string)
| AttributeError
| TypeError
| ValueError
| AssertionError
| BadValueError
| DatastoreError
| HTTPError
| HTTPException (code : Z).

#[global] Instance exn_eq_dec : EqDecision exn.
Proof. solve_decision. Defined.

Inductive result (A : Type) :=
| Ok (a : A)
| Raise (e : exn).
Arguments Ok {A} a.
Arguments Raise {A} e.

Definition M (S A : Type) : Type := S → result A * S.

Definition ret {S A} (a : A) : M S A := λ s, (Ok a, s).

Definition bind {S A B} (m : M S A) (k : A → M S B) : M S B :=
  λ s, match m s with
       | (Ok a, s') => k a s'
       | (Raise e, s') => (Raise e, s')
       end.

Definition raise {S A} (e : exn) : M S A := λ s, (Raise e, s).
Definition gets {S A} (f : S → A) : M S A := λ s, (Ok (f s), s).
Definition modify {S} (f : S → S) : M S unit := λ s, (Ok tt, f s).

(** A pure computation that may raise, run inside the monad. *)
Definition lift {S A} (r : result A) : M S A := λ s, (r, s).

(** [flask.abort(code)] *)
Definition abort {S A} (code : Z) : M S A := raise (HTTPException code).

(** [d[k]] on a dict: [KeyError] when the key is missing. *)
Definition getitem {S A} (d : gmap string A) (k : string) : M S A :=
  match d !! k with
  | Some v => ret v
  | None => raise (KeyError k)
  end.

(** ['%s' % v] *)
Definition py_str (v : pyval) : string :=
  match v with
  | PNone => "None"
  | PBool true => "True"
  | PBool false => "False"
  | PInt z => pretty z
  | PStr s => s
  end.

(** The error names of the specification, as the code raises them. *)
Definition InvalidRequest : exn := HTTPException 400.
Definition UnknownCommand : exn := HTTPException 400.
Definition NotFoundError : exn := HTTPException 404.

End Py.

Export Py.

#[global] Instance M_ret {S} : MRet (M S) := @ret S.
#[global] Instance M_bind {S} : MBind (M S) := λ A B k m, bind m k.

(** ** [model.py]: rooms, devices and command dispatch *)

Module Model.

(** An ndb entity id is a string or an integer. *)
Abbreviation entity_id := (string + Z)%type.

Record Key := mkKey { kind : string; id : entity_id }.

#[global] Instance Key_eq_dec : EqDecision Key.
Proof. solve_decision. Defined.

Module Room.
Record t := mk {
  key : Key;
  owner : string;
  name : option string;
  devices : list Key
}.
Definition set_devices (l : list Key) (r : t) : t :=
  {| key := key r; owner := owner r; name := name r; devices := l |}.
End Room.

Module Device.
(** [last_update] is the time of the last [put], which ndb sets
    ([auto_now]); the code here only ever asks whether it is set, so it is
    a flag.  [state] is the property of a [Switch]; a plain [Device] does
    not have it. *)
Record t := mk {
  key : Key;
  owner : string;
  name : option string;
  last_update : bool;
  room : option Key;
  state : option bool
}.
Definition set_room (k : option Key) (d : t) : t :=
  {| key := key d; owner := owner d; name := name d;
     last_update := last_update d; room := k; state := state d |}.
Definition set_last_update (b : bool) (d : t) : t :=
  {| key := key d; owner := owner d; name := name d;
     last_update := b; room := room d; state := state d |}.
End Device.

(** The methods a [Device] (or [Switch]) class defines in the source. *)
Inductive method :=
| to_dict
| handle_event_m
| handle_command_m
| set_room_m
| turn_on
| turn_off.

(** A function object: its body and the [is_command] attribute, which only
    the [Command] decorator sets. *)
Record pyfunc := mkFunc { im_func : method; is_command : option bool }.

Definition def (m : method) : pyfunc :=
  {| im_func := m; is_command := None |}.

(** [def Command(func): func.is_command = True; return func] *)
Definition Command (func : pyfunc) : pyfunc :=
  {| im_func := im_func func; is_command := Some true |}.

(** What [getattr(self, name, None)] can give back: a method written in
    [model.py], some other object that is not [None] (the value of a
    property, or something inherited from ndb), or [None]. *)
Inductive attr :=
| AFunc (f : pyfunc)
| AObj
| ANone.

Inductive effect :=
| LogInfo (msg : string)
| LogError (msg : string)
| Invoke (m : method) (kwargs : gmap string pyval)
| PutRoom (r : Room.t)
| PutDevice (d : Device.t).

(** The device the request works on, the datastore, and what the request
    did so far (oldest first). *)
Record World := mkWorld {
  self : Device.t;
  rooms : gmap entity_id Room.t;
  devices : gmap entity_id Device.t;
  trace : list effect
}.

Definition emit (e : effect) : M World unit :=
  modify (λ w, {| self := self w; rooms := rooms w; devices := devices w;
                  trace := trace w ++ [e] |}).

Definition set_self (d : Device.t) : M World unit :=
  modify (λ w, {| self := d; rooms := rooms w; devices := devices w;
                  trace := trace w |}).

(** [room.put()] *)
Definition Room_put (r : Room.t) : M World unit :=
  modify (λ w, {| self := self w;
                  rooms := <[id (Room.key r) := r]> (rooms w);
                  devices := devices w; trace := trace w |});;
  emit (PutRoom r).

(** [self.put()]; ndb sets [last_update] on the way. *)
Definition Device_put : M World unit :=
  d ← gets self;
  let d := Device.set_last_update true d in
  set_self d;;
  modify (λ w, {| self := self w; rooms := rooms w;
                  devices := <[id (Device.key d) := d]> (devices w);
                  trace := trace w |});;
  emit (PutDevice d).

(** The id a Python value denotes; [None] is no id. *)
Definition as_id (v : pyval) : option entity_id :=
  match v with
  | PStr s => Some (inl s)
  | PInt z => Some (inr z)
  | PBool b => Some (inr (Z.b2z b))
  | PNone => None
  end.

(** The Python value of an id. *)
Definition of_id (i : entity_id) : pyval :=
  match i with inl s => PStr s | inr z => PInt z end.

(** [Room.get_by_id(room_id)]: the stored room, or [None]. *)
Definition Room_get_by_id (room_id : pyval) : M World (option Room.t) :=
  match as_id room_id with
  | Some i => gets (λ w, rooms w !! i)
  | None => raise DatastoreError
  end.

(** [Device.set_room] *)
Definition set_room (room_id : pyval) : M World unit :=
  room ← Room_get_by_id room_id;
  match room with
  | None => abort 404
  | Some room =>
      d ← gets self;
      let room := Room.set_devices (Room.devices room ++ [Device.key d]) room in
      Room_put room;;
      set_self (Device.set_room (Some (Room.key room)) d);;
      Device_put
  end.

(** Calling a method with the remaining entries of the envelope as keyword
    arguments: they have to be the
    method's parameters exactly, else Python raises [TypeError]. *)
Definition exactly (kwargs : gmap string pyval) (k : string) : option pyval :=
  match kwargs !! k with
  | Some v => if decide (delete k kwargs = ∅) then Some v else None
  | None => None
  end.

Definition invoke (m : method) (kwargs : gmap string pyval) : M World unit :=
  emit (Invoke m kwargs);;
  match m with
  | set_room_m =>
      match exactly kwargs "room_id" with
      | Some v => set_room v
      | None => raise TypeError
      end
  | turn_on | turn_off | to_dict =>
      if decide (kwargs = ∅) then mret tt else raise TypeError
  | handle_event_m =>
      match exactly kwargs "event" with
      | Some _ => mret tt
      | None => raise TypeError
      end
  | handle_command_m =>
      (* the argument is a scalar here: [command.pop] does not exist *)
      match exactly kwargs "command" with
      | Some _ => emit (LogInfo "%s");; raise AttributeError
      | None => raise TypeError
      end
  end.

(** A class: the properties of its entities, the methods that [model.py]
    defines for it, and the names of what it inherits from ndb's
    [PolyModel] and from [object] ([put], [populate], [class_],
    [__class__], ...) with a value other than [None].  ndb is not part of
    these sources, so the inherited names are a parameter of the class
    tables below.  Nothing that is inherited carries [is_command]: only
    [Command] sets it. *)
Record class := mk_class {
  properties : list string;
  methods : list (string * pyfunc);
  inherited : string → bool
}.

(** The persisted mutations and the handler calls of a trace, in order. *)
Definition puts (t : list effect) : list effect :=
  omap (λ e, match e with PutRoom _ | PutDevice _ => Some e | _ => None end) t.

Definition invocations (t : list effect) : list method :=
  omap (λ e, match e with Invoke m _ => Some m | _ => None end) t.

(** The world with more effects at the end of its trace. *)
Definition log_to (w : World) (es : list effect) : World :=
  mkWorld (self w) (rooms w) (devices w) (trace w ++ es).

(** [class Device(Base)]; [key] is the key ndb gives every entity and
    [to_dict] the method of [Base]. *)
Definition Device_class (ndb : string → bool) : class :=
  {| properties := ["key"; "owner"; "name"; "last_update"; "room"];
     methods :=
       [ ("to_dict", def to_dict);
         ("handle_event", def handle_event_m);
         ("handle_command", def handle_command_m);
         ("set_room", Command (def set_room_m)) ];
     inherited := ndb |}.

(** [class Switch(Device)] *)
Definition Switch_class (ndb : string → bool) : class :=
  {| properties := properties (Device_class ndb) ++ ["state"];
     methods :=
       [ ("turn_on", Command (def turn_on));
         ("turn_off", Command (def turn_off)) ]
       ++ methods (Device_class ndb);
     inherited := ndb |}.

Fixpoint lookup_method (l : list (string * pyfunc)) (name : string)
  : option pyfunc :=
  match l with
  | [] => None
  | (n, f) :: l' => if decide (n = name) then Some f else lookup_method l' name
  end.

(** The method [model.py] defines under [name] for the class. *)
Definition class_lookup (cls : class) (name : string) : option pyfunc :=
  lookup_method (methods cls) name.

Definition of_option {A} (o : option A) : attr :=
  match o with Some _ => AObj | None => ANone end.

(** The value of a property of the device. *)
Definition property_value (d : Device.t) (n : string) : attr :=
  if decide (n = "key") then AObj
  else if decide (n = "owner") then AObj
  else if decide (n = "name") then of_option (Device.name d)
  else if decide (n = "last_update") then
    (if Device.last_update d then AObj else ANone)
  else if decide (n = "room") then of_option (Device.room d)
  else if decide (n = "state") then of_option (Device.state d)
  else ANone.

(** [getattr(self, name, None)]: the properties of the entity first, then
    the methods of its class, then what it inherits, then the default. *)
Definition getattr (cls : class) (d : Device.t) (name : pyval) : result attr :=
  match name with
  | PStr n =>
      if decide (n ∈ properties cls) then Ok (property_value d n)
      else match class_lookup cls n with
           | Some f => Ok (AFunc f)
           | None => Ok (if inherited cls n then AObj else ANone)
           end
  | _ => Raise TypeError
  end.

(** Names that ndb provides, for the examples. *)
Definition ndb_sample (n : string) : bool :=
  bool_decide (n ∈ ["put"; "populate"; "query"; "get_by_id"; "class_"]).

(** [Device.handle_command].  [command.pop('command', None)] takes the name
    out of the envelope, whose other entries are the keyword arguments. *)
Definition handle_command (cls : class) (command : gmap string pyval)
  : M World unit :=
  emit (LogInfo "%s");;
  let func_name := default PNone (command !! "command") in
  let command := delete "command" command in
  d ← gets self;
  func ← lift (getattr cls d func_name);
  let reject : M World unit :=
    emit (LogError "Command %s does not exist or is not a command");;
    abort 400 in
  match func with
  | ANone => reject
  | AObj => raise AttributeError                (* [func.is_command] *)
  | AFunc f =>
      match is_command f with
      | None => raise AttributeError            (* [func.is_command] *)
      | Some true => invoke (im_func f) command
      | Some false => reject
      end
  end.

End Model.

(** Pure computations that may raise. *)
#[global] Instance result_ret : MRet result := @Ok.
#[global] Instance result_bind : MBind result := λ A B k r,
  match r with Ok a => k a | Raise e => Raise e end.

(** ** [devices/zwave.py]: driver registry and notification normalizer *)

Module ZWave.

(** *** Driver registry *)

(** A driver class: its name and what [get_capabilities] returns on its
    instances (drivers are stateless). *)
Record DriverClass := mkDriver {
  __name__ : string;
  get_capabilities : list string
}.

(** [class Driver(object)]: the fallback, with no capability. *)
Definition Driver : DriverClass :=
  {| __name__ := "Driver"; get_capabilities := [] |}.

(** ['%s-%s-%s' % (manufacturer_id, product_type, product_id)] *)
Definition driver_key (manufacturer_id product_type product_id : pyval)
  : string :=
  py_str manufacturer_id +:+ "-" +:+ py_str product_type +:+ "-"
    +:+ py_str product_id.

Definition register (manufacturer_id product_type product_id : pyval)
    (cls : DriverClass) (ZWAVE_DRIVERS : gmap string DriverClass)
  : gmap string DriverClass :=
  <[driver_key manufacturer_id product_type product_id := cls]> ZWAVE_DRIVERS.

Definition get_driver (manufacturer_id product_type product_id : pyval)
    (ZWAVE_DRIVERS : gmap string DriverClass) : DriverClass :=
  default Driver
    (ZWAVE_DRIVERS !! driver_key manufacturer_id product_type product_id).

(** *** Entities *)

Record CommandClassValue := mkCCV {
  command_class : option string;
  index : option Z;
  value : pyval;
  read_only : option bool;
  units : option string;
  genre : option string;
  label : option string;
  value_id : option Z;
  type : option string
}.

Record ZWaveDevice := mkDevice {
  zwave_node_id : option Z;
  zwave_home_id : option Z;
  zwave_command_class_values : list CommandClassValue;
  zwave_node_type : option string;
  zwave_node_name : option string;
  zwave_manufacturer_name : option string;
  zwave_manufacturer_id : option string;
  zwave_product_name : option string;
  zwave_product_type : option string;
  zwave_product_id : option string;
  state : option bool;
  room : option string;
  _driver : option DriverClass
}.

Definition set_node_id (v : option Z) (d : ZWaveDevice) : ZWaveDevice :=
  mkDevice v (zwave_home_id d) (zwave_command_class_values d)
    (zwave_node_type d) (zwave_node_name d) (zwave_manufacturer_name d)
    (zwave_manufacturer_id d) (zwave_product_name d) (zwave_product_type d)
    (zwave_product_id d) (state d) (room d) (_driver d).

Definition set_home_id (v : option Z) (d : ZWaveDevice) : ZWaveDevice :=
  mkDevice (zwave_node_id d) v (zwave_command_class_values d)
    (zwave_node_type d) (zwave_node_name d) (zwave_manufacturer_name d)
    (zwave_manufacturer_id d) (zwave_product_name d) (zwave_product_type d)
    (zwave_product_id d) (state d) (room d) (_driver d).

Definition set_values (l : list CommandClassValue) (d : ZWaveDevice)
  : ZWaveDevice :=
  mkDevice (zwave_node_id d) (zwave_home_id d) l
    (zwave_node_type d) (zwave_node_name d) (zwave_manufacturer_name d)
    (zwave_manufacturer_id d) (zwave_product_name d) (zwave_product_type d)
    (zwave_product_id d) (state d) (room d) (_driver d).

Definition set_node_type (v : option string) (d : ZWaveDevice) : ZWaveDevice :=
  mkDevice (zwave_node_id d) (zwave_home_id d) (zwave_command_class_values d)
    v (zwave_node_name d) (zwave_manufacturer_name d)
    (zwave_manufacturer_id d) (zwave_product_name d) (zwave_product_type d)
    (zwave_product_id d) (state d) (room d) (_driver d).

Definition set_node_name (v : option string) (d : ZWaveDevice) : ZWaveDevice :=
  mkDevice (zwave_node_id d) (zwave_home_id d) (zwave_command_class_values d)
    (zwave_node_type d) v (zwave_manufacturer_name d)
    (zwave_manufacturer_id d) (zwave_product_name d) (zwave_product_type d)
    (zwave_product_id d) (state d) (room d) (_driver d).

Definition set_manufacturer_name (v : option string) (d : ZWaveDevice)
  : ZWaveDevice :=
  mkDevice (zwave_node_id d) (zwave_home_id d) (zwave_command_class_values d)
    (zwave_node_type d) (zwave_node_name d) v
    (zwave_manufacturer_id d) (zwave_product_name d) (zwave_product_type d)
    (zwave_product_id d) (state d) (room d) (_driver d).

Definition set_manufacturer_id (v : option string) (d : ZWaveDevice)
  : ZWaveDevice :=
  mkDevice (zwave_node_id d) (zwave_home_id d) (zwave_command_class_values d)
    (zwave_node_type d) (zwave_node_name d) (zwave_manufacturer_name d)
    v (zwave_product_name d) (zwave_product_type d)
    (zwave_product_id d) (state d) (room d) (_driver d).

Definition set_product_name (v : option string) (d : ZWaveDevice)
  : ZWaveDevice :=
  mkDevice (zwave_node_id d) (zwave_home_id d) (zwave_command_class_values d)
    (zwave_node_type d) (zwave_node_name d) (zwave_manufacturer_name d)
    (zwave_manufacturer_id d) v (zwave_product_type d)
    (zwave_product_id d) (state d) (room d) (_driver d).

Definition set_product_type (v : option string) (d : ZWaveDevice)
  : ZWaveDevice :=
  mkDevice (zwave_node_id d) (zwave_home_id d) (zwave_command_class_values d)
    (zwave_node_type d) (zwave_node_name d) (zwave_manufacturer_name d)
    (zwave_manufacturer_id d) (zwave_product_name d) v
    (zwave_product_id d) (state d) (room d) (_driver d).

Definition set_product_id (v : option string) (d : ZWaveDevice)
  : ZWaveDevice :=
  mkDevice (zwave_node_id d) (zwave_home_id d) (zwave_command_class_values d)
    (zwave_node_type d) (zwave_node_name d) (zwave_manufacturer_name d)
    (zwave_manufacturer_id d) (zwave_product_name d) (zwave_product_type d)
    v (state d) (room d) (_driver d).

Definition set_driver (v : option DriverClass) (d : ZWaveDevice)
  : ZWaveDevice :=
  mkDevice (zwave_node_id d) (zwave_home_id d) (zwave_command_class_values d)
    (zwave_node_type d) (zwave_node_name d) (zwave_manufacturer_name d)
    (zwave_manufacturer_id d) (zwave_product_name d) (zwave_product_type d)
    (zwave_product_id d) (state d) (room d) v.

(** *** ndb property validation

    Assigning [None] clears a property; any other value has to be of the
    property's type. *)

Definition validate_string (v : pyval) : result (option string) :=
  match v with
  | PNone => Ok None
  | PStr s => Ok (Some s)
  | _ => Raise BadValueError
  end.

(** A Python [bool] is an [int]. *)
Definition validate_integer (v : pyval) : result (option Z) :=
  match v with
  | PNone => Ok None
  | PInt z => Ok (Some z)
  | PBool b => Ok (Some (Z.b2z b))
  | _ => Raise BadValueError
  end.

Definition validate_boolean (v : pyval) : result (option bool) :=
  match v with
  | PNone => Ok None
  | PBool b => Ok (Some b)
  | _ => Raise BadValueError
  end.

Definition property_names : list string :=
  ["command_class"; "index"; "value"; "read_only"; "units"; "genre";
   "label"; "value_id"; "type"].

Definition assign {A} (validate : pyval → result (option A))
    (new : option pyval) (old : option A) : result (option A) :=
  match new with
  | Some v => validate v
  | None => Ok old
  end.

(** [ccv.populate(kwargs...)]: every keyword has to name a property and
    carry a value of its type.  The properties are set in the order of
    their declaration here.  Python follows the order of the dict, which is
    not modelled: it decides which exception is seen when several entries
    are bad, and which properties are already set on the entry when one is;
    here a [populate] that raises leaves the entry as it was. *)
Definition populate (kwargs : gmap string pyval) (c : CommandClassValue)
  : result CommandClassValue :=
  if decide (dom kwargs ⊆ list_to_set (C := gset string) property_names) then
    cc ← assign validate_string (kwargs !! "command_class") (command_class c);
    ix ← assign validate_integer (kwargs !! "index") (index c);
    ro ← assign validate_boolean (kwargs !! "read_only") (read_only c);
    un ← assign validate_string (kwargs !! "units") (units c);
    ge ← assign validate_string (kwargs !! "genre") (genre c);
    la ← assign validate_string (kwargs !! "label") (label c);
    vi ← assign validate_integer (kwargs !! "value_id") (value_id c);
    ty ← assign validate_string (kwargs !! "type") (type c);
    Ok (mkCCV cc ix (default (value c) (kwargs !! "value")) ro un ge la vi ty)
  else Raise AttributeError.

(** [CommandClassValue(command_class=command_class, index=index)] *)
Definition new_ccv (command_class index : pyval) : result CommandClassValue :=
  cc ← validate_string command_class;
  ix ← validate_integer index;
  Ok (mkCCV cc ix PNone None None None None None None).

(** *** World *)

Inductive effect :=
| Log (fmt : string) (args : list string)
| SetLights (room_id : string) (state : pyval).

(** The device at hand, the driver registry, the ids of the rooms in the
    datastore, and what the call did so far (oldest first). *)
Record World := mkWorld {
  dev : ZWaveDevice;
  ZWAVE_DRIVERS : gmap string DriverClass;
  rooms : gset string;
  trace : list effect
}.

Definition emit (e : effect) : M World unit :=
  modify (λ w, mkWorld (dev w) (ZWAVE_DRIVERS w) (rooms w) (trace w ++ [e])).

Definition update_dev (f : ZWaveDevice → ZWaveDevice) : M World unit :=
  modify (λ w, mkWorld (f (dev w)) (ZWAVE_DRIVERS w) (rooms w) (trace w)).

Definition of_str (o : option string) : pyval :=
  match o with Some s => PStr s | None => PNone end.

(** The registry key of a device. *)
Definition device_key (d : ZWaveDevice) : string :=
  driver_key (of_str (zwave_manufacturer_id d)) (of_str (zwave_product_type d))
    (of_str (zwave_product_id d)).

(** *** [ZWaveDevice.driver] *)
Definition driver : M World DriverClass :=
  d ← gets dev;
  match _driver d with
  | Some drv => mret drv
  | None =>
      let key := device_key d in
      found ← gets (λ w, ZWAVE_DRIVERS w !! key);
      (* the arguments of [logging.info] are evaluated first, and
         [_driver.__name__] does not exist on [None] *)
      name ← match found with
             | Some cls => mret (__name__ cls)
             | None => raise AttributeError
             end;
      emit (Log "ZWave driver for %s = %s" [key; name]);;
      match found with
      | None => mret Driver
      | Some cls => update_dev (set_driver (Some cls));; mret cls
      end
  end.

(** [ZWaveDevice.get_capabilities] *)
Definition device_get_capabilities : M World (list string) :=
  drv ← driver; mret (get_capabilities drv).

(** *** [ZWaveDevice._command_class_value]

    The entry is returned by reference: here, by its position in the
    device's list. *)

Definition cc_eq (stored : option string) (v : pyval) : bool :=
  bool_decide (of_str stored = v).

(** [ccv.index == index]; [True == 1] and [False == 0] in Python. *)
Definition index_eq (stored : option Z) (v : pyval) : bool :=
  match stored, v with
  | Some z, PInt z' => bool_decide (z = z')
  | Some z, PBool b => bool_decide (z = Z.b2z b)
  | None, PNone => true
  | _, _ => false
  end.

Definition ccv_matches (command_class index : pyval) (c : CommandClassValue)
  : bool :=
  cc_eq (ZWave.command_class c) command_class && index_eq (ZWave.index c) index.

Fixpoint find_ccv (command_class index : pyval) (l : list CommandClassValue)
  : option nat :=
  match l with
  | [] => None
  | c :: l' =>
      if ccv_matches command_class index c then Some 0%nat
      else S <$> find_ccv command_class index l'
  end.

Definition _command_class_value (command_class index : pyval) : M World nat :=
  l ← gets (zwave_command_class_values ∘ dev);
  match find_ccv command_class index l with
  | Some i => mret i
  | None =>
      ccv ← lift (new_ccv command_class index);
      update_dev (set_values (l ++ [ccv]));;
      mret (length l)
  end.

(** [ccv.populate(...)] on the entry at position [i]. *)
Definition populate_at (i : nat) (kwargs : gmap string pyval) : M World unit :=
  l ← gets (zwave_command_class_values ∘ dev);
  match l !! i with
  | Some ccv =>
      ccv' ← lift (populate kwargs ccv);
      update_dev (set_values (<[i := ccv']> l))
  | None => mret tt
  end.

(** *** [ZWaveDevice.lights]

    [room.Room.set_lights] is not part of these sources: the call is
    recorded as an effect on the room. *)
Definition lights (state : pyval) : M World unit :=
  d ← gets dev;
  match room d with
  | None => mret tt
  | Some r =>
      if decide (r = "") then mret tt
      else
        room_obj ← gets (λ w, bool_decide (r ∈ rooms w));
        if room_obj : bool then emit (SetLights r state) else mret tt
  end.

(** *** [ZWaveDevice.handle_event] *)

(** A notification: its scalar entries and, apart, the [valueId] dict. *)
Record Event := mkEvent {
  fields : gmap string pyval;
  valueId : option (gmap string pyval)
}.

(** [d.pop(k)]: the entry is taken out of the dict itself. *)
Definition pop (k : string) : M (gmap string pyval) pyval :=
  λ d, match d !! k with
       | Some v => (Ok v, delete k d)
       | None => (Raise (KeyError k), d)
       end.

(** [del d[k]] *)
Definition del (k : string) : M (gmap string pyval) unit :=
  λ d, match d !! k with
       | Some _ => (Ok tt, delete k d)
       | None => (Raise (KeyError k), d)
       end.

(** [d[k] = v] *)
Definition setitem (k : string) (v : pyval) : M (gmap string pyval) unit :=
  modify (<[k := v]>).

(** What [handle_event] does to the [valueId] dict before it looks for the
    entry: the key is taken out, two entries are renamed and three are
    dropped, all on the dict of the notification itself.  What is left in
    it is given to [populate]. *)
Definition extract_value : M (gmap string pyval) (pyval * pyval) :=
  command_class ← pop "commandClass";
  index ← pop "index";
  ro ← pop "readOnly";
  setitem "read_only" ro;;
  vid ← pop "id";
  setitem "value_id" vid;;
  del "homeId";;
  del "nodeId";;
  del "instance";;
  mret (command_class, index).

(** A call of [handle_event] works on the world and on the notification it
    is handed. *)
Definition on_world {A} (m : M World A) : M (World * Event) A :=
  λ s, let '(r, w') := m s.1 in (r, (w', s.2)).

(** [value = event['valueId']], and what is done to [value]. *)
Definition on_valueId {A} (m : M (gmap string pyval) A)
  : M (World * Event) A :=
  λ s, match valueId s.2 with
       | Some v =>
           let '(r, v') := m v in (r, (s.1, mkEvent (fields s.2) (Some v')))
       | None => (Raise (KeyError "valueId"), s)
       end.

(** The three parts of [handle_event] are given names here: the mesh
    identifiers set from any notification, the [ValueAdded]/[ValueChanged]
    branch and the [NodeInfoUpdate] branch. *)

Definition update_mesh_ids (event : Event) : M World unit :=
  match fields event !! "homeId" with
  | Some v => h ← lift (validate_integer v); update_dev (set_home_id h)
  | None => mret tt
  end;;
  match fields event !! "nodeId" with
  | Some v => n ← lift (validate_integer v); update_dev (set_node_id n)
  | None => mret tt
  end.

Definition value_branch : M (World * Event) unit :=
  '(command_class, index) ← on_valueId extract_value;
  i ← on_world (_command_class_value command_class index);
  value ← gets (λ s, default ∅ (valueId s.2));
  on_world (populate_at i value);;
  node ← gets (λ s, zwave_node_id (dev s.1));
  on_world (emit (Log "%s.%s[%d] <- %s"
                    [py_str (from_option PInt PNone node);
                     py_str command_class; py_str index]));;
  if decide (command_class = PStr "COMMAND_CLASS_SENSOR_BINARY") then
    v ← getitem value "value";
    on_world (lights v)
  else mret tt.

(** Each field is read from the notification and assigned before the next
    one is read. *)
Definition node_info_branch (event : Event) : M World unit :=
  node_type ← getitem (fields event) "node_type";
  v ← lift (validate_string node_type);
  update_dev (set_node_type v);;
  node_name ← getitem (fields event) "node_name";
  v ← lift (validate_string node_name);
  update_dev (set_node_name v);;
  manufacturer_name ← getitem (fields event) "manufacturer_name";
  v ← lift (validate_string manufacturer_name);
  update_dev (set_manufacturer_name v);;
  manufacturer_id ← getitem (fields event) "manufacturer_id";
  v ← lift (validate_string manufacturer_id);
  update_dev (set_manufacturer_id v);;
  product_name ← getitem (fields event) "product_name";
  v ← lift (validate_string product_name);
  update_dev (set_product_name v);;
  product_type ← getitem (fields event) "product_type";
  v ← lift (validate_string product_type);
  update_dev (set_product_type v);;
  product_id ← getitem (fields event) "product_id";
  v ← lift (validate_string product_id);
  update_dev (set_product_id v).

(** [ZWaveDevice.handle_event], on the world and the notification object:
    the [valueId] dict of a value notification is consumed by the call.
    The method starts with the [handle_event] of its base class,
    [device.Device], which is not part of these sources; like the
    [handle_event] of [Device] in [model.py], it is taken to do nothing. *)
Definition handle_event_in_place : M (World * Event) unit :=
  event ← gets snd;
  notification_type ← getitem (fields event) "notificationType";
  on_world (update_mesh_ids event);;
  if decide (notification_type ∈ [PStr "ValueAdded"; PStr "ValueChanged"])
  then value_branch
  else if decide (notification_type = PStr "NodeInfoUpdate")
  then on_world (node_info_branch event)
  else on_world (emit (Log "Unknown event: %s" [])).

(** [handle_event] on a notification of its own, one that nothing else
    refers to (as when it is parsed from a request and handled once): what
    the call does to the world. *)
Definition handle_event (event : Event) : M World unit :=
  λ w, let '(r, s) := handle_event_in_place (w, event) in (r, s.1).

(** *** Well-formed value notifications *)

(** The entry keyed on [(command_class, index)]. *)
Definition has_key (cc : string) (ix : Z) (c : CommandClassValue) : Prop :=
  command_class c = Some cc ∧ index c = Some ix.

#[global] Instance has_key_dec cc ix c : Decision (has_key cc ix c).
Proof. unfold has_key. apply _. Defined.

Definition key_count (cc : string) (ix : Z) (l : list CommandClassValue)
  : nat :=
  length (filter (has_key cc ix) l).

(** The value fields of an entry, as Python values. *)
Definition value_fields : list string :=
  ["value"; "read_only"; "units"; "genre"; "label"; "value_id"; "type"].

Definition get_property (name : string) (c : CommandClassValue) : pyval :=
  if decide (name = "value") then value c
  else if decide (name = "read_only") then from_option PBool PNone (read_only c)
  else if decide (name = "units") then of_str (units c)
  else if decide (name = "genre") then of_str (genre c)
  else if decide (name = "label") then of_str (label c)
  else if decide (name = "value_id") then from_option PInt PNone (value_id c)
  else if decide (name = "type") then of_str (type c)
  else PNone.

Definition has_type (name : string) (v : pyval) : bool :=
  if decide (name = "value") then true
  else if decide (name = "read_only")
    then match v with PNone | PBool _ => true | _ => false end
  else if decide (name = "value_id")
    then match v with PNone | PInt _ => true | _ => false end
  else match v with PNone | PStr _ => true | _ => false end.

(** Keyword arguments that only name value fields, each with a value of
    the field's type. *)
Definition valid_kwargs (kwargs : gmap string pyval) : Prop :=
  dom kwargs ⊆ list_to_set (C := gset string) value_fields
  ∧ map_Forall (λ k v, has_type k v = true) kwargs.

#[global] Instance valid_kwargs_dec kwargs : Decision (valid_kwargs kwargs).
Proof. unfold valid_kwargs. apply _. Defined.

Definition absent_or_int (o : option pyval) : Prop :=
  match o with
  | None | Some (PInt _) => True
  | Some _ => False
  end.

(** [e] is a [ValueChanged] notification for [(cc, ix)] whose value fields,
    once the key is taken out, are [kwargs]. *)
Definition value_changed (e : Event) (cc : string) (ix : Z)
    (kwargs : gmap string pyval) : Prop :=
  fields e !! "notificationType" = Some (PStr "ValueChanged")
  ∧ absent_or_int (fields e !! "homeId")
  ∧ absent_or_int (fields e !! "nodeId")
  ∧ (∃ v, valueId e = Some v
        ∧ extract_value v = (Ok (PStr cc, PInt ix), kwargs))
  ∧ valid_kwargs kwargs
  ∧ (cc = "COMMAND_CLASS_SENSOR_BINARY" → is_Some (kwargs !! "value")).

(** *** Upsert, as a relation on the list of entries *)

Definition fresh_ccv (cc : string) (ix : Z) : CommandClassValue :=
  mkCCV (Some cc) (Some ix) PNone None None None None None None.

(** [l'] is [l] after the entry keyed on [(cc, ix)] was found or appended,
    and populated with [kwargs]. *)
Definition upserted (cc : string) (ix : Z) (kwargs : gmap string pyval)
    (l l' : list CommandClassValue) : Prop :=
  match find_ccv (PStr cc) (PInt ix) l with
  | Some i => ∃ c c', l !! i = Some c ∧ populate kwargs c = Ok c'
                      ∧ l' = <[i := c']> l
  | None => ∃ c', populate kwargs (fresh_ccv cc ix) = Ok c' ∧ l' = l ++ [c']
  end.

Definition add_trace (w : World) (es : list effect) : World :=
  mkWorld (dev w) (ZWAVE_DRIVERS w) (rooms w) (trace w ++ es).

(** What [lights] does, from the room of the device and the rooms that
    exist. *)
Definition lights_effects (room : option string) (known : gset string)
    (state : pyval) : list effect :=
  match room with
  | Some r =>
      if decide (r = "") then []
      else if bool_decide (r ∈ known) then [SetLights r state] else []
  | None => []
  end.

(** The log line of the value branch. *)
Definition value_log (w : World) (cc : string) (ix : Z) : effect :=
  Log "%s.%s[%d] <- %s"
    [py_str (from_option PInt PNone (zwave_node_id (dev w))); cc; pretty ix].

(** *** Sample notifications *)

Definition SENSOR_BINARY : string := "COMMAND_CLASS_SENSOR_BINARY".

(** The payload of the specification's end-to-end scenario. *)
Definition scenario_payload : Event :=
  mkEvent {[ "notificationType" := PStr "ValueChanged" ]}
    (Some {[ "commandClass" := PStr SENSOR_BINARY; "index" := PInt 0;
             "id" := PInt 1; "readOnly" := PBool true;
             "value" := PBool true ]}).

(** The same with the three entries of a mesh [valueId] that the
    normalizer deletes. *)
Definition mesh_payload (value home node instance : pyval) : Event :=
  mkEvent {[ "notificationType" := PStr "ValueChanged" ]}
    (Some {[ "commandClass" := PStr SENSOR_BINARY; "index" := PInt 0;
             "id" := PInt 1; "readOnly" := PBool true;
             "value" := value; "homeId" := home; "nodeId" := node;
             "instance" := instance ]}).

(** A mesh payload whose [valueId] also names the [command_class] property
    of an entry. *)
Definition rekeying_payload : Event :=
  mkEvent {[ "notificationType" := PStr "ValueChanged" ]}
    (Some {[ "commandClass" := PStr SENSOR_BINARY; "index" := PInt 0;
             "id" := PInt 1; "readOnly" := PBool true;
             "value" := PBool true; "homeId" := PInt 7; "nodeId" := PInt 3;
             "instance" := PInt 1;
             "command_class" := PStr "COMMAND_CLASS_BASIC" ]}).

Definition mesh_kwargs (value : pyval) : gmap string pyval :=
  {[ "value" := value; "read_only" := PBool true; "value_id" := PInt 1 ]}.

(** A new device, placed in [room] or nowhere. *)
Definition a_device (room : option string) : ZWaveDevice :=
  mkDevice None None [] None None None None None None None None room None.

(** A device that lists the key of [mesh_payload] twice. *)
Definition twice_listed : ZWaveDevice :=
  set_values [fresh_ccv SENSOR_BINARY 0; fresh_ccv SENSOR_BINARY 0]
    (a_device None).

End ZWave.

(** [for x in l: body(x)] *)
Fixpoint for_each {S A} (l : list A) (body : A → M S unit) : M S unit :=
  match l with
  | [] => mret tt
  | x :: l' => body x;; for_each l' body
  end.

(** ** [user.py]: the request-scoped event buffer and its flush *)

Module User.
Section Fanout.

(** An event is the dict of keyword arguments given to [send_event];
    [encode] is the JSON encoder the pusher client is built with. *)
Context {payload : Type}.
Variable encode : payload → string.

(** The JSON text of a batch, and its length. *)
Definition json_batch (batch : list payload) : string :=
  "[" +:+ String.concat "," (encode <$> batch) +:+ "]".

Definition serialized_size (batch : list payload) : Z :=
  Z.of_nat (String.length (json_batch batch)).

(** Modelled from the spec: [common/utils.limit_json_batch] is not part of
    these sources.  The specification asks for sub-batches no larger than
    the size limit, in insertion order; this one fills each sub-batch as
    long as the next event still fits.  An event that is too large on its
    own is delivered alone. *)
Fixpoint fill (max_size : Z) (batch events : list payload)
  : list (list payload) :=
  match events with
  | [] => match batch with [] => [] | _ => [batch] end
  | e :: events' =>
      if decide (serialized_size (batch ++ [e]) ≤ max_size)
      then fill max_size (batch ++ [e]) events'
      else match batch with
           | [] => [e] :: fill max_size [] events'
           | _ => batch :: fill max_size [e] events'
           end
  end.

(** Modelled from the spec: [common/utils.limit_json_batch], starting from
    an empty sub-batch. *)
Definition limit_json_batch (events : list payload) (max_size : Z)
  : list (list payload) :=
  fill max_size [] events.

Inductive effect :=
| Log (fmt : string) (args : list string)
| Push (channel_id : string) (batch : list payload).

(** [flask.g.user_events], what [building.get_id()] answers (the building
    of the current namespace), and what was logged and pushed so far. *)
Record World := mkWorld {
  user_events : option (list (string * payload));
  building : string;
  trace : list effect
}.

Definition emit (e : effect) : M World unit :=
  modify (λ w, mkWorld (user_events w) (building w) (trace w ++ [e])).

Definition set_user_events (b : option (list (string * payload)))
  : M World unit :=
  modify (λ w, mkWorld b (building w) (trace w)).

(** [send_event]: the buffer is one list object, created on first use and
    appended to in place. *)
Definition send_event (kwargs : payload) : M World unit :=
  batch ← gets user_events;
  let batch := default [] batch in
  building_id ← gets building;
  set_user_events (Some (batch ++ [(building_id, kwargs)])).

(** [assert _building_id == building_id] *)
Definition check (building_id : string) (ev : string * payload)
  : M World unit :=
  if decide (ev.1 = building_id) then mret tt else raise AssertionError.

(** The body of the delivery loop. *)
Definition deliver (channel_id : string) (batch : list payload)
  : M World unit :=
  emit (Log "Sending %d events to user on channel %s"
          [pretty (length batch); channel_id]);;
  emit (Push channel_id batch).

(** [push_events] *)
Definition push_events : M World unit :=
  events ← gets user_events;
  set_user_events None;;
  match events with
  | None => mret tt
  | Some events =>
      building_id ← gets building;
      let channel_id := "private-" +:+ building_id in
      for_each events (check building_id);;
      let events := snd <$> events in
      for_each (limit_json_batch events 8000) (deliver channel_id)
  end.

(** The delivery calls of a trace, in order. *)
Definition deliveries (t : list effect) : list (string * list payload) :=
  omap (λ e, match e with
             | Push c b => Some (c, b)
             | Log _ _ => None
             end) t.

Definition add_trace (w : World) (es : list effect) : World :=
  mkWorld (user_events w) (building w) (trace w ++ es).

End Fanout.

(** *** Sample events: dicts of one string entry, and their JSON text *)

Definition quote : string :=
  String (Stdlib.Strings.Ascii.ascii_of_nat 34) EmptyString.

Definition sample_encode (ev : string * string) : string :=
  "{" +:+ quote +:+ ev.1 +:+ quote +:+ ": " +:+ quote +:+ ev.2 +:+ quote
    +:+ "}".

(** A text of [n] characters. *)
Fixpoint letters (n : nat) : string :=
  match n with
  | O => ""
  | S n => "x" +:+ letters n
  end.

End User.

(** ** [account.py]: token exchange and the OAuth callback *)

Module Account.

(** A URL pattern used with the [%] operator and a dict: literal text and
    [%(name)s] fields. *)
Inductive segment :=
| Lit (s : string)
| Field (name : string).

Fixpoint format (template : list segment) (parameters : gmap string pyval)
  : result string :=
  match template with
  | [] => Ok ""
  | Lit s :: t => rest ← format t parameters; Ok (s +:+ rest)
  | Field n :: t =>
      match parameters !! n with
      | Some v => rest ← format t parameters; Ok (py_str v +:+ rest)
      | None => Raise (KeyError n)
      end
  end.

(** What [urllib2.urlopen] meets: a 2xx answer or an [HTTPError], each with
    a body that [json.load] parses into an object, or not. *)
Inductive body :=
| Malformed
| Object (o : gmap string pyval).

Inductive response :=
| Success (b : body)
| Failure (b : body).

Section Exchange.

(** Python floats: only [time.time() + expires_in] is needed. *)
Context {timestamp : Type}.
Variable float_add : timestamp → Z → timestamp.

(** The token endpoint, as a function of the url and the posted data. *)
Variable urlopen : string → string → response.

Record Account := mkAccount {
  id : string;
  class_ : string;
  auth_code : option string;
  access_token : option string;
  expires : option timestamp;
  refresh_token : option string;
  owner : string
}.

Definition set_auth_code (v : option string) (a : Account) : Account :=
  mkAccount (id a) (class_ a) v (access_token a) (expires a)
    (refresh_token a) (owner a).
Definition set_access_token (v : option string) (a : Account) : Account :=
  mkAccount (id a) (class_ a) (auth_code a) v (expires a)
    (refresh_token a) (owner a).
Definition set_expires (v : option timestamp) (a : Account) : Account :=
  mkAccount (id a) (class_ a) (auth_code a) (access_token a) v
    (refresh_token a) (owner a).
Definition set_refresh_token (v : option string) (a : Account) : Account :=
  mkAccount (id a) (class_ a) (auth_code a) (access_token a) (expires a)
    v (owner a).

Inductive effect :=
| Log (fmt : string) (args : list string)
| UrlOpen (url data : string)
| Put (a : Account).

(** The datastore, the clock, and what the request did so far. *)
Record Env := mkEnv {
  accounts : gmap string Account;
  clock : timestamp;
  trace : list effect
}.

(** A method runs on its account object and the environment. *)
Definition World : Type := Account * Env.

Definition emit (e : effect) : M World unit :=
  modify (λ w, (w.1, mkEnv (accounts w.2) (clock w.2) (trace w.2 ++ [e]))).

Definition update_self (f : Account → Account) : M World unit :=
  modify (λ w, (f w.1, w.2)).

(** What an account type provides: the class attributes and the two
    methods it may override. *)
Record AccountClass := mkClass {
  CLIENT_ID : option string;
  CLIENT_SECRET : option string;
  ACCESS_TOKEN_URL : option (list segment);
  AUTH_URL : option (list segment);
  _get_refresh_data : Account → string;
  refresh_devices : M World unit
}.

(** [class Account(model.Base)] itself. *)
Definition Account_class : AccountClass :=
  {| CLIENT_ID := None; CLIENT_SECRET := None; ACCESS_TOKEN_URL := None;
     AUTH_URL := None; _get_refresh_data := λ _, "";
     refresh_devices := mret tt |}.

Definition of_str (o : option string) : pyval :=
  match o with Some s => PStr s | None => PNone end.

(** The dict [refresh_access_token] formats the url with. *)
Definition parameters (cls : AccountClass) (self : Account)
  : gmap string pyval :=
  {[ "client_id" := of_str (CLIENT_ID cls);
     "auth_code" := of_str (auth_code self);
     "client_secret" := of_str (CLIENT_SECRET cls);
     "grant_type" := PStr "authorization_code" ]}.

Definition validate_string (v : pyval) : result (option string) :=
  match v with
  | PNone => Ok None
  | PStr s => Ok (Some s)
  | _ => Raise BadValueError
  end.

(** [json.load] *)
Definition json_load (b : body) : M World (gmap string pyval) :=
  match b with
  | Object o => mret o
  | Malformed => raise ValueError
  end.

(** [Account.refresh_access_token] *)
Definition refresh_access_token (cls : AccountClass) : M World unit :=
  self ← gets fst;
  url ← match ACCESS_TOKEN_URL cls with
        | Some template => lift (format template (parameters cls self))
        | None => raise TypeError
        end;
  let data := _get_refresh_data cls self in
  emit (Log "url: %s, data: %s" [url; data]);;
  emit (UrlOpen url data);;
  result ← match urlopen url data with
           | Success b =>
               result ← json_load b;
               emit (Log "result: %s" []);;
               mret result
           | Failure b =>
               json_load b;;
               emit (Log "%s" []);;
               raise HTTPError
           end;
  token ← getitem result "access_token";
  token ← lift (validate_string token);
  update_self (set_access_token token);;
  now ← gets (λ w, clock w.2);
  expires_in ← getitem result "expires_in";
  match expires_in with
  | PInt z => update_self (set_expires (Some (float_add now z)))
  | PBool b => update_self (set_expires (Some (float_add now (Z.b2z b))))
  | _ => raise TypeError
  end;;
  refresh ← lift (validate_string (default PNone (result !! "refresh_token")));
  update_self (set_refresh_token refresh).

(** [account.put()] *)
Definition put : M World unit :=
  self ← gets fst;
  modify (λ w, (w.1, mkEnv (<[id self := self]> (accounts w.2)) (clock w.2)
                       (trace w.2)));;
  emit (Put self).

(** The polymorphic class of a stored account, by its class name. *)
Variable ACCOUNT_CLASSES : string → AccountClass.

(** Run a method on a freshly loaded object; the object itself is dropped
    when the request ends, whatever was done to it. *)
Definition on_object {A} (a : Account) (m : M World A) : M Env A :=
  λ env, let '(r, (_, env')) := m (a, env) in (r, env').

Definition log (fmt : string) (args : list string) : M Env unit :=
  modify (λ e, mkEnv (accounts e) (clock e) (trace e ++ [Log fmt args])).

(** [oauth_redirect_callback], on the query arguments of the request. *)
Definition oauth_redirect_callback (args : gmap string string)
  : M Env string :=
  match args !! "code", args !! "state" with
  | Some auth_code, Some state =>
      account ← gets (λ e, accounts e !! state);
      match account with
      | None => log "Account '%s' not found!" [state];; abort 400
      | Some account =>
          let cls := ACCOUNT_CLASSES (class_ account) in
          on_object account (
            update_self (set_auth_code (Some auth_code));;
            refresh_access_token cls;;
            refresh_devices cls;;
            put);;
          mret "OK"
      end
  | _, _ => log "No auth_code of state found!" [];; abort 400
  end.

(** The token requests and the datastore writes of a trace. *)
Definition exchanges (t : list effect) : list (string * string) :=
  omap (λ e, match e with
             | UrlOpen url data => Some (url, data)
             | _ => None
             end) t.

Definition stores (t : list effect) : list Account :=
  omap (λ e, match e with Put a => Some a | _ => None end) t.

End Exchange.



(** *** A sample account type

    It sets the class attributes and inherits [_get_refresh_data] and
    [refresh_devices] from [Account]. *)

Definition token_url : list segment :=
  [Lit "https://provider.example/token?client_id="; Field "client_id";
   Lit "&code="; Field "auth_code";
   Lit "&client_secret="; Field "client_secret";
   Lit "&grant_type="; Field "grant_type"].

Definition sample_class : AccountClass (timestamp := Z) :=
  mkClass (Some "id") (Some "secret") (Some token_url) None
    (_get_refresh_data Account_class) (refresh_devices Account_class).

Definition sample_url : string :=
  "https://provider.example/token?client_id=id&code=CODE&client_secret=secret&grant_type=authorization_code".

Definition sample_tokens : gmap string pyval :=
  {[ "access_token" := PStr "T1"; "expires_in" := PInt 3600 ]}.

(** The provider answers every request with [sample_tokens]. *)
Definition provider (url data : string) : response :=
  Success (Object sample_tokens).

Definition linked (refresh_token : option string) : Account :=
  mkAccount "s1" "Sample" (Some "CODE") (Some "T0") (Some 0) refresh_token
    "me".

Definition sample_env : Env :=
  mkEnv {[ "s1" := linked (Some "R1") ]} 1000 [].

End Account.

(** ** [user.py]: the signed-in person and the channel authorization *)

Module Person.

(** What [users.get_current_user()] returns: its [user_id()] and
    [email()]. *)
Module User.
Record t := mk { user_id : string; email : option string }.
End User.

(** [class Person(ndb.Model)]; its key name is the user id. *)
Record t := mkPerson { email : option string; buildings : list string }.

(** Who is signed in, the current namespace, and the stored persons. *)
Record World := mkWorld {
  current_user : option User.t;
  namespace : string;
  persons : gmap string t
}.

(** [namespace_manager.set_namespace] *)
Definition set_namespace (ns : string) : M World unit :=
  modify (λ w, mkWorld (current_user w) ns (persons w)).

(** [Person.get_or_insert(key_name, ...)]: the stored entity, or a new one
    made of the given values and stored. *)
Definition get_or_insert (key_name : string) (new : t) : M World t :=
  found ← gets (λ w, persons w !! key_name);
  match found with
  | Some person => mret person
  | None =>
      modify (λ w, mkWorld (current_user w) (namespace w)
                     (<[key_name := new]> (persons w)));;
      mret new
  end.

(** [get_person] *)
Definition get_person : M World t :=
  user ← gets current_user;
  match user with
  | None => raise AssertionError
  | Some user =>
      match User.email user with
      | None => raise AssertionError
      | Some email =>
          ns ← gets namespace;
          if decide (ns = "") then
            let user_id := User.user_id user in
            get_or_insert user_id (mkPerson (Some email) [user_id])
          else raise AssertionError
      end
  end.

(** [pusher_client_auth_callback], on the form of the request.  The pattern
    is a plain string, which has no [match] method: the call raises, and
    what follows it in the source (the membership test on the buildings of
    the person, the signature) is never reached. *)
Definition pusher_client_auth_callback (form : gmap string string)
  : M World string :=
  person ← get_person;
  let socket_id := form !! "socket_id" in
  let channel_name := form !! "channel_name" in
  raise AttributeError.

End Person.

(** ** [main.py]: the guard in front of every request *)

Module Main.
Import Person.

Record Request := mkRequest {
  headers : gmap string string;
  endpoint : option string;
  url : string
}.

Inductive reply :=
| Redirect (location : string).

Section Guard.

(** [pushrpc.authenticate] and [users.create_login_url] are not part of
    these sources. *)
Context {Proxy : Type}.
Variable authenticate : Request → option Proxy.
Variable create_login_url : string → string.

(** [before_request]: [None] lets the request through. *)
Definition before_request (request : Request) : M World (option reply) :=
  if decide (headers request !! "awesomation-proxy" = Some "true") then
    match authenticate request with
    | None => abort 401
    | Some _ => mret None
    end
  else if decide (endpoint request = Some "tasks.update") then
    if decide (headers request !! "X-AppEngine-Cron" = Some "true")
    then mret None
    else abort 401
  else
    user_object ← gets current_user;
    match user_object with
    | None => mret (Some (Redirect (create_login_url (url request))))
    | Some user => set_namespace (User.user_id user);; mret None
    end.

End Guard.
End Main.

(** ** [account.py]: the registry of account types and the start of the flow *)

Module Flow.
Import Account.

Inductive reply :=
| Redirect (location : string).

Section Start.
Context {timestamp : Type}.

(** [register(account_type)(cls)] *)
Definition register (account_type : string)
    (cls : AccountClass (timestamp := timestamp))
    (ACCOUNT_TYPES : gmap string AccountClass) : gmap string AccountClass :=
  <[account_type := cls]> ACCOUNT_TYPES.

(** [user.get_user()]: the [user] module defines [get_person] and
    [get_user_request] but no [get_user], so the attribute lookup raises. *)
Definition get_user : M (Env (timestamp := timestamp)) string :=
  raise AttributeError.

(** The key [uuid.uuid4()] draws. *)
Variable uuid4 : string.

(** The dict the authorization url is formatted with. *)
Definition auth_parameters (cls : AccountClass (timestamp := timestamp))
    (key : string) : gmap string pyval :=
  {[ "client_id" := of_str (CLIENT_ID cls); "state" := PStr key ]}.

(** [oauth_start_flow], on the query arguments of the request.  For a type
    that is not registered the source calls [flask.about], which does not
    exist.  The new account would be tagged with the type it was asked
    under. *)
Definition oauth_start_flow (ACCOUNT_TYPES : gmap string AccountClass)
    (args : gmap string string) : M Env reply :=
  match args !! "type" with
  | None => abort 400
  | Some account_type =>
      match ACCOUNT_TYPES !! account_type with
      | None => raise AttributeError
      | Some cls =>
          let key := uuid4 in
          owner ← get_user;
          let instance := mkAccount key account_type None None None None owner in
          on_object instance put;;
          match AUTH_URL cls with
          | Some template =>
              location ← lift (format template (auth_parameters cls key));
              mret (Redirect location)
          | None => raise TypeError
          end
      end
  end.

End Start.

End Flow.

(** ** Words for the statements about notifications *)

Module ZWaveTerms.
Import ZWave.

(** Whether a mesh identifier that a notification carries can be assigned
    to its integer property. *)
Definition id_ok (carried : option pyval) : bool :=
  match carried with
  | Some v => match validate_integer v with Ok _ => true | Raise _ => false end
  | None => true
  end.

(** A mesh identifier after a notification: the one it carries, or the old
    one. *)
Definition mesh_id (carried : option pyval) (old : option Z) : option Z :=
  match carried with
  | Some v => match validate_integer v with Ok z => z | Raise _ => old end
  | None => old
  end.

(** What a notification does to the device whatever its type. *)
Definition ids_updated (e : Event) (d d' : ZWaveDevice) : Prop :=
  zwave_home_id d' = mesh_id (fields e !! "homeId") (zwave_home_id d)
  ∧ zwave_node_id d' = mesh_id (fields e !! "nodeId") (zwave_node_id d).

(** The two devices have the same entries, state, room and driver. *)
Definition same_entries (d d' : ZWaveDevice) : Prop :=
  zwave_command_class_values d' = zwave_command_class_values d
  ∧ state d' = state d ∧ room d' = room d ∧ _driver d' = _driver d.

(** The descriptive fields of a device. *)
Definition description (d : ZWaveDevice) : list (option string) :=
  [zwave_node_type d; zwave_node_name d; zwave_manufacturer_name d;
   zwave_manufacturer_id d; zwave_product_name d; zwave_product_type d;
   zwave_product_id d].

(** The descriptive fields a [NodeInfoUpdate] carries, in the same order. *)
Definition node_info_keys : list string :=
  ["node_type"; "node_name"; "manufacturer_name"; "manufacturer_id";
   "product_name"; "product_type"; "product_id"].

(** [e] is a [NodeInfoUpdate] that carries the descriptive fields [info]. *)
Definition node_info (e : Event) (info : list (option string)) : Prop :=
  fields e !! "notificationType" = Some (PStr "NodeInfoUpdate")
  ∧ absent_or_int (fields e !! "homeId")
  ∧ absent_or_int (fields e !! "nodeId")
  ∧ length info = 7%nat
  ∧ (λ k, fields e !! k) <$> node_info_keys = (λ s, Some (of_str s)) <$> info.

(** The entries of a [valueId] that [handle_event] takes out or deletes. *)
Definition required_keys : list string :=
  ["commandClass"; "index"; "readOnly"; "id"; "homeId"; "nodeId"; "instance"].

(** [e] is of one of the two value types. *)
Definition value_type (e : Event) : Prop :=
  fields e !! "notificationType" = Some (PStr "ValueAdded")
  ∨ fields e !! "notificationType" = Some (PStr "ValueChanged").

(** A sample [NodeInfoUpdate]. *)
Definition sample_info (name : string) : Event :=
  mkEvent {[ "notificationType" := PStr "NodeInfoUpdate";
             "node_type" := PStr "Binary Sensor";
             "node_name" := PStr name;
             "manufacturer_name" := PStr "Aeon Labs";
             "manufacturer_id" := PStr "0086";
             "product_name" := PNone;
             "product_type" := PStr "0002";
             "product_id" := PStr "0005" ]} None.

End ZWaveTerms.

(** ** Words for the statements about the token exchange *)

Module AccountTerms.
Import Account.
Section Exchange.
Context {timestamp : Type}.
Variable float_add : timestamp → Z → timestamp.

(** The environment after one request to the token endpoint. *)
Definition requested (env : Env (timestamp := timestamp))
    (url data : string) (tail : list effect) : Env :=
  mkEnv (accounts env) (clock env)
    (trace env ++ [Log "url: %s, data: %s" [url; data]; UrlOpen url data]
       ++ tail).


End Exchange.
End AccountTerms.

(** * Proofs *)

Ltac unfold_monad :=
  unfold mbind, mret, M_bind, M_ret, result_bind, result_ret, bind, ret, gets,
    modify, raise, abort, lift in *.

Lemma run_bind {S A B} (m : M S A) (k : A → M S B) (s : S) :
  (m ≫= k) s =
    match m s with
    | (Ok a, s') => k a s'
    | (Raise e, s') => (Raise e, s')
    end.
Proof. reflexivity. Qed.

Module ModelFacts.
Import Model.

Lemma invocations_app t1 t2 :
  invocations (t1 ++ t2) = invocations t1 ++ invocations t2.
Proof. apply omap_app. Qed.

Lemma puts_app t1 t2 : puts (t1 ++ t2) = puts t1 ++ puts t2.
Proof. apply omap_app. Qed.

(** A name the device does not have is rejected with a 400, and nothing is
    called. *)
Lemma handle_command_absent cls command name w :
  command !! "command" = Some (PStr name) →
  getattr cls (self w) (PStr name) = Ok ANone →
  handle_command cls command w =
    (Raise UnknownCommand,
     log_to w [LogInfo "%s";
               LogError "Command %s does not exist or is not a command"]).
Proof.
  intros Hc Hg. unfold handle_command, emit. unfold_monad. simpl.
  rewrite Hc. simpl. simpl in Hg. rewrite Hg. simpl.
  unfold log_to. by rewrite <- app_assoc.
Qed.

(** A method without the [is_command] attribute: reading the attribute
    fails. *)
Lemma handle_command_unflagged cls command name f w :
  command !! "command" = Some (PStr name) →
  getattr cls (self w) (PStr name) = Ok (AFunc f) →
  is_command f = None →
  handle_command cls command w =
    (Raise AttributeError, log_to w [LogInfo "%s"]).
Proof.
  intros Hc Hg Hf. unfold handle_command, emit. unfold_monad. simpl.
  rewrite Hc. simpl. simpl in Hg. rewrite Hg. simpl. by rewrite Hf.
Qed.

Lemma handle_command_flagged cls command name f w :
  command !! "command" = Some (PStr name) →
  getattr cls (self w) (PStr name) = Ok (AFunc f) →
  is_command f = Some true →
  handle_command cls command w =
    invoke (im_func f) (delete "command" command) (log_to w [LogInfo "%s"]).
Proof.
  intros Hc Hg Hf. unfold handle_command, emit. unfold_monad. simpl.
  rewrite Hc. simpl. simpl in Hg. rewrite Hg. simpl. by rewrite Hf.
Qed.

(** C3, at the input where the code departs from it: dispatching the name
    of a method that [Device] has but that is not flagged as a command
    ([handle_event]) does not end in the [UnknownCommand] client error.
    Reading [is_command] on the plain method raises [AttributeError].  No
    handler is called. *)
Theorem handle_command_plain_method_raises (ndb : string → bool) (w : World) :
  let r := handle_command (Device_class ndb)
             {[ "command" := PStr "handle_event" ]} w in
  r.1 = Raise AttributeError
  ∧ r.1 ≠ Raise UnknownCommand
  ∧ invocations (trace r.2) = invocations (trace w).
Proof.
  intros r. subst r.
  rewrite (handle_command_unflagged (Device_class ndb) _ "handle_event"
             (def handle_event_m)); [| by vm_compute | done | done ].
  simpl. split; [done|]. split; [done|].
  rewrite invocations_app. simpl. by rewrite app_nil_r.
Qed.

Lemma as_id_of_id i : as_id (of_id i) = Some i.
Proof. by destruct i. Qed.

Lemma set_room_missing v i w :
  as_id v = Some i → rooms w !! i = None →
  set_room v w = (Raise NotFoundError, w).
Proof.
  intros Hv Hi. unfold set_room, Room_get_by_id. rewrite Hv.
  unfold_monad. simpl. by rewrite Hi.
Qed.

Lemma set_room_found v i room w :
  as_id v = Some i → rooms w !! i = Some room →
  let room' := Room.set_devices (Room.devices room ++ [Device.key (self w)]) room in
  let d' := Device.set_last_update true
              (Device.set_room (Some (Room.key room)) (self w)) in
  set_room v w =
    (Ok tt,
     mkWorld d' (<[id (Room.key room) := room']> (rooms w))
       (<[id (Device.key d') := d']> (devices w))
       (trace w ++ [PutRoom room'; PutDevice d'])).
Proof.
  intros Hv Hi. unfold set_room, Room_get_by_id. rewrite Hv.
  unfold Room_put, Device_put, set_self, emit. unfold_monad. simpl.
  rewrite Hi. simpl. by rewrite <- app_assoc.
Qed.

Lemma exactly_singleton (k : string) (v : pyval) :
  exactly {[ k := v ]} k = Some v.
Proof.
  unfold exactly. rewrite lookup_singleton_eq, delete_singleton_eq.
  by rewrite decide_True.
Qed.

Lemma dispatch_set_room_invoke ndb v w :
  handle_command (Device_class ndb)
    {[ "command" := PStr "set_room"; "room_id" := v ]} w =
  set_room v (log_to w [LogInfo "%s"; Invoke set_room_m {[ "room_id" := v ]}]).
Proof.
  rewrite (handle_command_flagged (Device_class ndb) _ "set_room"
             (Command (def set_room_m))); [| by vm_compute | done | done].
  replace (delete "command" _)
    with ({[ "room_id" := v ]} : gmap string pyval) by (by vm_compute).
  unfold invoke, emit. unfold_monad. simpl.
  rewrite exactly_singleton. unfold log_to. simpl. by rewrite <- app_assoc.
Qed.

(** C7, as amended: dispatching [set_room] with a string or integer id
    under which no room is stored fails with [NotFoundError] and leaves the
    device, every room and every stored device as they were, with nothing
    persisted.  With an id under which a room is stored it succeeds: the
    stored room becomes the room with the key of the device appended to its
    devices, the device becomes the device with its room set to the key of
    that room (and [last_update] set by the put), and the two are persisted
    one after the other, the room first. *)
Theorem dispatch_set_room (ndb : string → bool) (w : World) (i : entity_id) :
  let r := handle_command (Device_class ndb)
             {[ "command" := PStr "set_room"; "room_id" := of_id i ]} w in
  match rooms w !! i with
  | None =>
      r.1 = Raise NotFoundError
      ∧ self r.2 = self w ∧ rooms r.2 = rooms w ∧ devices r.2 = devices w
      ∧ puts (trace r.2) = puts (trace w)
  | Some room =>
      let d := self w in
      let room' :=
        Room.mk (Room.key room) (Room.owner room) (Room.name room)
          (Room.devices room ++ [Device.key d]) in
      let d' :=
        Device.mk (Device.key d) (Device.owner d) (Device.name d) true
          (Some (Room.key room)) (Device.state d) in
      r.1 = Ok tt
      ∧ rooms r.2 = <[id (Room.key room) := room']> (rooms w)
      ∧ self r.2 = d'
      ∧ devices r.2 = <[id (Device.key d) := d']> (devices w)
      ∧ puts (trace r.2) = puts (trace w) ++ [PutRoom room'; PutDevice d']
  end.
Proof.
  intros r. subst r. rewrite dispatch_set_room_invoke.
  destruct (rooms w !! i) as [room|] eqn:Hi.
  - rewrite (set_room_found _ i room); [| apply as_id_of_id | done].
    simpl. repeat split; try done.
    rewrite !puts_app. simpl. by rewrite app_nil_r.
  - rewrite (set_room_missing _ i); [| apply as_id_of_id | done].
    simpl. repeat split; try done.
    rewrite puts_app. simpl. by rewrite app_nil_r.
Qed.

(** C7, as stated: a [room_id] that is [None] (a JSON [null]) resolves to no
    room either, and the dispatch does not fail with [NotFoundError]:
    [Room.get_by_id] raises on the incomplete key before the test.  The
    device, the rooms and the stored devices are as before and nothing is
    persisted. *)
Lemma dispatch_set_room_null_id :
  let d := Device.mk (mkKey "Device" (inl "lamp")) "me" None true None None in
  let hall := Room.mk (mkKey "Room" (inl "hall")) "me" None [] in
  let w := mkWorld d {[ inl "hall" := hall ]} {[ inl "lamp" := d ]} [] in
  let r := handle_command (Device_class ndb_sample)
             {[ "command" := PStr "set_room"; "room_id" := PNone ]} w in
  r.1 = Raise DatastoreError
  ∧ r.1 ≠ Raise NotFoundError
  ∧ self r.2 = self w ∧ rooms r.2 = rooms w ∧ devices r.2 = devices w
  ∧ puts (trace r.2) = [].
Proof.
  intros d hall w r. subst r. rewrite dispatch_set_room_invoke.
  repeat split; done.
Qed.

(** C10: [set_room] appends the key of the device whether or not the room
    already lists it, so a successful call on a room that already refers
    to the device leaves the key twice in its devices. *)
Theorem set_room_duplicates_member (w : World) (i : entity_id) (room : Room.t) :
  rooms w !! i = Some room →
  Device.key (self w) ∈ Room.devices room →
  let r := set_room (of_id i) w in
  r.1 = Ok tt
  ∧ ∃ room', rooms r.2 !! id (Room.key room) = Some room'
      ∧ Room.devices room' = Room.devices room ++ [Device.key (self w)]
      ∧ ¬ NoDup (Room.devices room').
Proof.
  intros Hi Hin r. subst r.
  rewrite (set_room_found _ i room); [| apply as_id_of_id | done].
  simpl. split; [done|]. eexists. split; [apply lookup_insert_eq|].
  simpl. split; [done|].
  intros Hnd. apply NoDup_app in Hnd as (_ & Hdisj & _).
  apply (Hdisj _ Hin). by apply list_elem_of_singleton.
Qed.

Lemma set_room_duplicates_member_witness :
  let d := Device.mk (mkKey "Device" (inl "lamp")) "me" None true None None in
  let room := Room.mk (mkKey "Room" (inl "hall")) "me" None [Device.key d] in
  let w := mkWorld d {[ inl "hall" := room ]} ∅ [] in
  let r := set_room (PStr "hall") w in
  r.1 = Ok tt
  ∧ ∃ room', rooms r.2 !! inl "hall" = Some room'
      ∧ Room.devices room' = [Device.key d; Device.key d]
      ∧ ¬ NoDup (Room.devices room').
Proof.
  intros d room w.
  apply (set_room_duplicates_member w (inl "hall") room).
  - by vm_compute.
  - simpl. apply list_elem_of_singleton. reflexivity.
Defined.
End ModelFacts.

Module ZWaveFacts.
Import ZWave.

Lemma value_fields_are_properties :
  list_to_set (C := gset string) value_fields
    ⊆ list_to_set (C := gset string) property_names.
Proof. apply (bool_decide_unpack _). by vm_compute. Qed.

Lemma valid_kwargs_lookup kwargs name v :
  valid_kwargs kwargs → kwargs !! name = Some v →
  name ∈ value_fields ∧ has_type name v = true.
Proof.
  intros [Hdom Hty] Hl. split; [| by apply (Hty name)].
  apply (elem_of_list_to_set (C := gset string)), Hdom, elem_of_dom. eauto.
Qed.

Lemma valid_kwargs_not_field kwargs name :
  valid_kwargs kwargs → name ∉ value_fields → kwargs !! name = None.
Proof.
  intros Hv Hn. destruct (kwargs !! name) eqn:E; [| done].
  by destruct (valid_kwargs_lookup _ _ _ Hv E).
Qed.

Lemma assign_string kwargs name old :
  valid_kwargs kwargs →
  name ≠ "value" → name ≠ "read_only" → name ≠ "value_id" →
  ∃ x, assign validate_string (kwargs !! name) old = Ok x
       ∧ ∀ v, kwargs !! name = Some v → of_str x = v.
Proof.
  intros Hv H1 H2 H3. destruct (kwargs !! name) as [v|] eqn:E; simpl.
  - destruct (valid_kwargs_lookup _ _ _ Hv E) as [_ Ht].
    unfold has_type in Ht. rewrite !decide_False in Ht by done.
    destruct v; try done; eexists; (split; [done|]); by intros ? [= <-].
  - eexists. split; [done|]. done.
Qed.

Lemma assign_boolean kwargs old :
  valid_kwargs kwargs →
  ∃ x, assign validate_boolean (kwargs !! "read_only") old = Ok x
       ∧ ∀ v, kwargs !! "read_only" = Some v → from_option PBool PNone x = v.
Proof.
  intros Hv. destruct (kwargs !! "read_only") as [v|] eqn:E; simpl.
  - destruct (valid_kwargs_lookup _ _ _ Hv E) as [_ Ht].
    destruct v; try done; eexists; (split; [done|]); by intros ? [= <-].
  - eexists. split; [done|]. done.
Qed.

Lemma assign_integer kwargs old :
  valid_kwargs kwargs →
  ∃ x, assign validate_integer (kwargs !! "value_id") old = Ok x
       ∧ ∀ v, kwargs !! "value_id" = Some v → from_option PInt PNone x = v.
Proof.
  intros Hv. destruct (kwargs !! "value_id") as [v|] eqn:E; simpl.
  - destruct (valid_kwargs_lookup _ _ _ Hv E) as [_ Ht].
    destruct v; try done; eexists; (split; [done|]); by intros ? [= <-].
  - eexists. split; [done|]. done.
Qed.

(** On valid keyword arguments [populate] succeeds, keeps the key of the
    entry and leaves each given field with the given value. *)
Lemma populate_valid kwargs c :
  valid_kwargs kwargs →
  ∃ c', populate kwargs c = Ok c'
    ∧ command_class c' = command_class c
    ∧ index c' = index c
    ∧ ∀ name v, kwargs !! name = Some v → get_property name c' = v.
Proof.
  intros Hv. unfold populate.
  rewrite decide_True
    by (etrans; [apply Hv | apply value_fields_are_properties]).
  rewrite (valid_kwargs_not_field kwargs "command_class" Hv)
    by (apply (bool_decide_unpack _); by vm_compute).
  rewrite (valid_kwargs_not_field kwargs "index" Hv)
    by (apply (bool_decide_unpack _); by vm_compute).
  destruct (assign_boolean kwargs (read_only c) Hv) as (ro & -> & Hro).
  destruct (assign_string kwargs "units" (units c) Hv) as (un & -> & Hun);
    [done..|].
  destruct (assign_string kwargs "genre" (genre c) Hv) as (ge & -> & Hge);
    [done..|].
  destruct (assign_string kwargs "label" (label c) Hv) as (la & -> & Hla);
    [done..|].
  destruct (assign_integer kwargs (value_id c) Hv) as (vi & -> & Hvi).
  destruct (assign_string kwargs "type" (type c) Hv) as (ty & -> & Hty);
    [done..|].
  simpl. eexists. split; [done|]. simpl. split; [done|]. split; [done|].
  intros name v Hl.
  destruct (valid_kwargs_lookup _ _ _ Hv Hl) as [Hin _].
  unfold value_fields in Hin.
  repeat (apply elem_of_cons in Hin as [->|Hin]);
    [.. | by apply elem_of_nil in Hin]; unfold get_property; simpl; auto.
  by rewrite Hl.
Qed.

(** **** The linear scan *)

Lemma ccv_matches_has_key cc ix c :
  ccv_matches (PStr cc) (PInt ix) c = bool_decide (has_key cc ix c).
Proof.
  case_bool_decide as Hk.
  - destruct Hk as [Hc Hi]. unfold ccv_matches, cc_eq, index_eq.
    rewrite Hc, Hi. simpl. by rewrite !bool_decide_true.
  - apply not_true_is_false. intros Ht. apply Hk.
    apply andb_true_iff in Ht as [Ha Hb].
    unfold cc_eq in Ha. unfold index_eq in Hb.
    destruct c as [[s|] [z|] ? ? ? ? ? ? ?]; simpl in *; try done.
    apply bool_decide_eq_true in Ha, Hb. split; simpl; congruence.
Qed.

Lemma find_ccv_Some cc ix l i :
  find_ccv (PStr cc) (PInt ix) l = Some i →
  ∃ c, l !! i = Some c ∧ has_key cc ix c.
Proof.
  revert i. induction l as [|c l IH]; intros i; simpl; [done|].
  rewrite ccv_matches_has_key. case_bool_decide as Hk.
  - intros [= <-]. eauto.
  - destruct (find_ccv _ _ l) as [j|]; simpl; [|done].
    intros [= <-]. simpl. by apply IH.
Qed.

Lemma find_ccv_None cc ix l :
  find_ccv (PStr cc) (PInt ix) l = None → key_count cc ix l = 0%nat.
Proof.
  unfold key_count. induction l as [|c l IH]; simpl; [done|].
  rewrite ccv_matches_has_key, filter_cons. case_bool_decide as Hk; [done|].
  rewrite decide_False by done.
  destruct (find_ccv _ _ l); simpl; [done|]. auto.
Qed.

Lemma key_count_insert cc ix l i c c' :
  l !! i = Some c → has_key cc ix c → has_key cc ix c' →
  key_count cc ix (<[i := c']> l) = key_count cc ix l.
Proof.
  unfold key_count. revert i.
  induction l as [|x l IH]; intros [|i]; simpl; try done.
  - intros [= ->] Hc Hc'. rewrite !filter_cons.
    by rewrite !decide_True by done.
  - intros Hl Hc Hc'. rewrite !filter_cons.
    case_decide; simpl; by rewrite IH.
Qed.

Lemma key_count_lookup cc ix l i c :
  l !! i = Some c → has_key cc ix c → (1 ≤ key_count cc ix l)%nat.
Proof.
  unfold key_count. revert i.
  induction l as [|x l IH]; intros [|i]; simpl; try done.
  - intros [= ->] Hc. rewrite filter_cons, decide_True by done. simpl. lia.
  - intros Hl Hc. rewrite filter_cons.
    case_decide; simpl; specialize (IH _ Hl Hc); lia.
Qed.

Lemma key_count_snoc cc ix l c :
  has_key cc ix c →
  key_count cc ix (l ++ [c]) = S (key_count cc ix l).
Proof.
  intros Hc. unfold key_count.
  rewrite filter_app, length_app, filter_cons, decide_True by done.
  simpl. lia.
Qed.

(** **** Upsert *)

Lemma upserted_total cc ix kwargs l :
  valid_kwargs kwargs → ∃ l', upserted cc ix kwargs l l'.
Proof.
  intros Hv. unfold upserted.
  destruct (find_ccv _ _ l) as [i|] eqn:Hf.
  - destruct (find_ccv_Some _ _ _ _ Hf) as (c & Hl & _).
    destruct (populate_valid kwargs c Hv) as (c' & Hp & _). eauto 6.
  - destruct (populate_valid kwargs (fresh_ccv cc ix) Hv) as (c' & Hp & _).
    eauto.
Qed.

(** The existing entry is updated where it is. *)
Lemma upserted_present cc ix kwargs l l' :
  valid_kwargs kwargs → (1 ≤ key_count cc ix l)%nat →
  upserted cc ix kwargs l l' →
  ∃ i c c', l !! i = Some c ∧ has_key cc ix c
    ∧ l' = <[i := c']> l ∧ has_key cc ix c'
    ∧ ∀ name v, kwargs !! name = Some v → get_property name c' = v.
Proof.
  intros Hv Hn. unfold upserted.
  destruct (find_ccv _ _ l) as [i|] eqn:Hf.
  - intros (c & c' & Hl & Hp & ->).
    destruct (find_ccv_Some _ _ _ _ Hf) as (c0 & Hl0 & [Hk1 Hk2]).
    assert (c0 = c) as -> by congruence.
    destruct (populate_valid kwargs c Hv) as (c'' & Hp' & Hcc & Hix & Hfs).
    assert (c'' = c') as -> by congruence.
    exists i, c, c'. repeat split; try done; congruence.
  - apply find_ccv_None in Hf. intros _. exfalso. lia.
Qed.

(** A missing entry is appended. *)
Lemma upserted_absent cc ix kwargs l l' :
  valid_kwargs kwargs → key_count cc ix l = 0%nat →
  upserted cc ix kwargs l l' →
  ∃ c', l' = l ++ [c'] ∧ has_key cc ix c'
    ∧ ∀ name v, kwargs !! name = Some v → get_property name c' = v.
Proof.
  intros Hv Hn. unfold upserted.
  destruct (find_ccv _ _ l) as [i|] eqn:Hf.
  - destruct (find_ccv_Some _ _ _ _ Hf) as (c0 & Hl0 & Hk).
    pose proof (key_count_lookup _ _ _ _ _ Hl0 Hk). intros _. exfalso. lia.
  - intros (c' & Hp & ->).
    destruct (populate_valid kwargs (fresh_ccv cc ix) Hv)
      as (c'' & Hp' & Hcc & Hix & Hfs).
    assert (c'' = c') as -> by congruence.
    exists c'. repeat split; try done.
Qed.

Lemma upserted_count cc ix kwargs l l' :
  valid_kwargs kwargs → upserted cc ix kwargs l l' →
  key_count cc ix l' = Nat.max 1 (key_count cc ix l).
Proof.
  intros Hv Hu. destruct (key_count cc ix l) as [|n] eqn:Hn.
  - destruct (upserted_absent _ _ _ _ _ Hv Hn Hu) as (c' & -> & Hk & _).
    rewrite key_count_snoc by done. by rewrite Hn.
  - assert (1 ≤ key_count cc ix l)%nat as Hge by lia.
    destruct (upserted_present _ _ _ _ _ Hv Hge Hu)
      as (i & c & c' & Hl & Hk & -> & Hk' & _).
    rewrite (key_count_insert _ _ _ _ c) by done. lia.
Qed.

(** **** [lights] and [handle_event] *)

Lemma add_trace_nil w : add_trace w [] = w.
Proof. destruct w. unfold add_trace. simpl. by rewrite app_nil_r. Qed.

Lemma lights_run state w :
  lights state w =
    (Ok tt, add_trace w (lights_effects (room (dev w)) (rooms w) state)).
Proof.
  unfold lights, lights_effects, emit. unfold_monad. simpl.
  destruct (room (dev w)) as [r|]; [| by rewrite add_trace_nil].
  case_decide; [by rewrite add_trace_nil|]. simpl.
  case_bool_decide; [done | by rewrite add_trace_nil].
Qed.

Lemma update_mesh_ids_run e w :
  absent_or_int (fields e !! "homeId") →
  absent_or_int (fields e !! "nodeId") →
  ∃ w0, update_mesh_ids e w = (Ok tt, w0)
    ∧ zwave_command_class_values (dev w0) = zwave_command_class_values (dev w)
    ∧ room (dev w0) = room (dev w)
    ∧ rooms w0 = rooms w
    ∧ trace w0 = trace w.
Proof.
  intros Hh Hn. unfold update_mesh_ids, update_dev. unfold_monad.
  destruct (fields e !! "homeId") as [[]|]; try done;
    destruct (fields e !! "nodeId") as [[]|]; try done;
    simpl; eexists; (split; [done|]); done.
Qed.

Lemma value_branch_run e v cc ix kwargs w :
  valueId e = Some v →
  extract_value v = (Ok (PStr cc, PInt ix), kwargs) →
  valid_kwargs kwargs →
  (cc = "COMMAND_CLASS_SENSOR_BINARY" → is_Some (kwargs !! "value")) →
  ∃ w', value_branch (w, e) = (Ok tt, (w', mkEvent (fields e) (Some kwargs)))
    ∧ upserted cc ix kwargs (zwave_command_class_values (dev w))
        (zwave_command_class_values (dev w'))
    ∧ room (dev w') = room (dev w)
    ∧ rooms w' = rooms w
    ∧ trace w' = trace w ++ value_log w' cc ix ::
        (if decide (cc = "COMMAND_CLASS_SENSOR_BINARY")
         then lights_effects (room (dev w)) (rooms w)
                (default PNone (kwargs !! "value"))
         else []).
Proof.
  intros Hv Hex Hok Hval.
  unfold value_branch. rewrite run_bind.
  unfold on_valueId at 1. simpl. rewrite Hv, Hex.
  unfold on_world, _command_class_value, populate_at, update_dev, emit, upserted.
  unfold_monad. simpl.
  destruct (find_ccv (PStr cc) (PInt ix) (zwave_command_class_values (dev w)))
    as [i|] eqn:Hf; simpl.
  - destruct (find_ccv_Some _ _ _ _ Hf) as (c & Hl & Hk). rewrite Hl.
    destruct (populate_valid kwargs c Hok) as (c' & Hp & _). rewrite Hp.
    simpl. destruct (decide (cc = "COMMAND_CLASS_SENSOR_BINARY")) as [->|Hne].
    + destruct Hval as [x Hx]; [done|].
      rewrite decide_True by done. unfold getitem. rewrite Hx.
      unfold_monad. simpl. rewrite lights_run. simpl.
      eexists. split; [done|]. simpl. rewrite <- app_assoc.
      repeat split; eauto.
    + rewrite decide_False by congruence.
      eexists. split; [done|]. simpl. repeat split; eauto.
  - set (l := zwave_command_class_values (dev w)).
    change (mkCCV (Some cc) (Some ix) PNone None None None None None None)
      with (fresh_ccv cc ix).
    rewrite list_lookup_middle by done.
    destruct (populate_valid kwargs (fresh_ccv cc ix) Hok) as (c' & Hp & _).
    rewrite Hp.
    assert (<[length l := c']> (l ++ [fresh_ccv cc ix]) = l ++ [c']) as ->.
    { rewrite <- (Nat.add_0_r (length l)). by rewrite insert_app_r. }
    simpl. destruct (decide (cc = "COMMAND_CLASS_SENSOR_BINARY")) as [->|Hne].
    + destruct Hval as [x Hx]; [done|].
      rewrite decide_True by done. unfold getitem. rewrite Hx.
      unfold_monad. simpl. rewrite lights_run. simpl.
      eexists. split; [done|]. simpl. rewrite <- app_assoc.
      repeat split; eauto.
    + rewrite decide_False by congruence.
      eexists. split; [done|]. simpl. repeat split; eauto.
Qed.

(** The value branch: the pops on the [valueId] dict, then the rest on the
    world with the dict as it was left. *)
Lemma value_branch_unfold w f v :
  value_branch (w, mkEvent f v) =
    match v with
    | None => (Raise (KeyError "valueId"), (w, mkEvent f None))
    | Some v0 =>
        match extract_value v0 with
        | (Ok (command_class, index), value) =>
            let '(r, w') :=
              (i ← _command_class_value command_class index;
               populate_at i value;;
               node ← gets (zwave_node_id ∘ dev);
               emit (Log "%s.%s[%d] <- %s"
                       [py_str (from_option PInt PNone node);
                        py_str command_class; py_str index]);;
               if decide (command_class = PStr "COMMAND_CLASS_SENSOR_BINARY")
               then x ← getitem value "value"; lights x
               else mret tt) w in
            (r, (w', mkEvent f (Some value)))
        | (Raise err, value) => (Raise err, (w, mkEvent f (Some value)))
        end
    end.
Proof.
  unfold value_branch. rewrite run_bind. unfold on_valueId at 1. simpl.
  destruct v as [v0|]; [|done].
  destruct (extract_value v0) as [[[cc ix]|err] value]; [|done].
  rewrite !run_bind. unfold on_world at 1. simpl.
  destruct (_command_class_value cc ix w) as [[i|err] w1]; [|done].
  rewrite !run_bind. unfold gets at 1. simpl.
  rewrite !run_bind. unfold on_world at 1. simpl.
  destruct (populate_at i value w1) as [[[]|err] w2]; [|done].
  rewrite !run_bind. unfold gets. simpl.
  rewrite !run_bind. unfold on_world at 1. simpl.
  match goal with |- context [mkWorld ?d ?g ?r ?t] =>
    set (w3 := mkWorld d g r t) end.
  case_decide; [|done].
  rewrite !run_bind. unfold getitem.
  destruct (value !! "value") as [x|]; [|done].
  unfold ret. unfold on_world. simpl.
  by destruct (lights x w3).
Qed.

(** [handle_event] from what the in-place version returns. *)
Lemma handle_event_world e w r w' e' :
  handle_event_in_place (w, e) = (r, (w', e')) → handle_event e w = (r, w').
Proof. intros H. unfold handle_event. by rewrite H. Qed.

(** The notification type is read, then the mesh identifiers are set, then
    the branch runs. *)
Lemma handle_event_in_place_run e w nt :
  fields e !! "notificationType" = Some nt →
  handle_event_in_place (w, e) =
    match update_mesh_ids e w with
    | (Ok _, w0) =>
        if decide (nt ∈ [PStr "ValueAdded"; PStr "ValueChanged"])
        then value_branch (w0, e)
        else if decide (nt = PStr "NodeInfoUpdate")
        then on_world (node_info_branch e) (w0, e)
        else on_world (emit (Log "Unknown event: %s" [])) (w0, e)
    | (Raise err, w0) => (Raise err, (w0, e))
    end.
Proof.
  intros Hnt. unfold handle_event_in_place, getitem.
  rewrite run_bind. unfold gets at 1. simpl. rewrite Hnt.
  rewrite run_bind. unfold ret at 1. rewrite run_bind.
  unfold on_world at 1. simpl.
  destruct (update_mesh_ids e w) as [[[]|err] w0]; [|done].
  by repeat case_decide.
Qed.

Lemma handle_event_run e w nt :
  fields e !! "notificationType" = Some nt →
  handle_event e w =
    match update_mesh_ids e w with
    | (Ok _, w0) =>
        if decide (nt ∈ [PStr "ValueAdded"; PStr "ValueChanged"])
        then let '(r, s) := value_branch (w0, e) in (r, s.1)
        else if decide (nt = PStr "NodeInfoUpdate")
        then node_info_branch e w0
        else emit (Log "Unknown event: %s" []) w0
    | (Raise err, w0) => (Raise err, w0)
    end.
Proof.
  intros Hnt. unfold handle_event.
  rewrite (handle_event_in_place_run e w nt Hnt).
  destruct (update_mesh_ids e w) as [[[]|err] w0]; [|done].
  repeat case_decide; try done; unfold on_world; simpl.
  by destruct (node_info_branch e w0).
Qed.

Lemma handle_value_changed_in_place e cc ix kwargs w :
  value_changed e cc ix kwargs →
  ∃ w', handle_event_in_place (w, e)
        = (Ok tt, (w', mkEvent (fields e) (Some kwargs)))
    ∧ upserted cc ix kwargs (zwave_command_class_values (dev w))
        (zwave_command_class_values (dev w'))
    ∧ room (dev w') = room (dev w)
    ∧ rooms w' = rooms w
    ∧ trace w' = trace w ++ value_log w' cc ix ::
        (if decide (cc = "COMMAND_CLASS_SENSOR_BINARY")
         then lights_effects (room (dev w)) (rooms w)
                (default PNone (kwargs !! "value"))
         else []).
Proof.
  intros (Hnt & Hh & Hn & (v & Hv & Hex) & Hok & Hval).
  destruct (update_mesh_ids_run e w Hh Hn) as (w0 & Hrun & Hl0 & Hr0 & Hk0 & Ht0).
  destruct (value_branch_run e v cc ix kwargs w0 Hv Hex Hok Hval)
    as (w' & Hrun' & Hu & Hr & Hk & Ht).
  exists w'. split.
  - rewrite (handle_event_in_place_run e w _ Hnt), Hrun.
    rewrite decide_True by (apply list_elem_of_further, list_elem_of_here).
    done.
  - rewrite <- Hl0, <- Hr0, <- Hk0, <- Ht0. done.
Qed.

Lemma handle_value_changed e cc ix kwargs w :
  value_changed e cc ix kwargs →
  ∃ w', handle_event e w = (Ok tt, w')
    ∧ upserted cc ix kwargs (zwave_command_class_values (dev w))
        (zwave_command_class_values (dev w'))
    ∧ room (dev w') = room (dev w)
    ∧ rooms w' = rooms w
    ∧ trace w' = trace w ++ value_log w' cc ix ::
        (if decide (cc = "COMMAND_CLASS_SENSOR_BINARY")
         then lights_effects (room (dev w)) (rooms w)
                (default PNone (kwargs !! "value"))
         else []).
Proof.
  intros He.
  destruct (handle_value_changed_in_place e cc ix kwargs w He)
    as (w' & Hrun & H).
  exists w'. split; [|done]. by apply (handle_event_world _ _ _ _ _ Hrun).
Qed.


(** **** Sample notifications *)

Lemma mesh_payload_value_changed value home node instance :
  value_changed (mesh_payload value home node instance) SENSOR_BINARY 0
    (mesh_kwargs value).
Proof.
  repeat split.
  - eexists. split; [done|]. by vm_compute.
  - apply (bool_decide_unpack _). by vm_compute.
  - intros k v Hl. unfold mesh_kwargs in Hl.
    apply lookup_insert_Some in Hl as [[<- <-]|[_ Hl]]; [done|].
    apply lookup_insert_Some in Hl as [[<- <-]|[_ Hl]]; [done|].
    apply lookup_singleton_Some in Hl as [<- <-]. done.
  - intros _. exists value. by vm_compute.
Qed.

(** **** The invariant of the attribute list

    A new device has no entry, and a value notification keeps "at most one
    entry per key" for every key. *)

Lemma key_count_insert_same_key cc ix l i c c' :
  l !! i = Some c →
  command_class c' = command_class c → index c' = index c →
  key_count cc ix (<[i := c']> l) = key_count cc ix l.
Proof.
  intros Hl Hc Hi.
  assert (has_key cc ix c' ↔ has_key cc ix c) as Hiff
    by (unfold has_key; by rewrite Hc, Hi).
  unfold key_count. revert i Hl.
  induction l as [|x l IH]; intros [|i]; simpl; try done.
  - intros [= ->]. rewrite !filter_cons.
    destruct (decide (has_key cc ix c)) as [Hk|Hk].
    + by rewrite decide_True by (by apply Hiff).
    + by rewrite decide_False by (by rewrite Hiff).
  - intros Hl. rewrite !filter_cons. case_decide; simpl; by rewrite IH.
Qed.

Lemma upserted_other_key cc ix kwargs l l' cc' ix' :
  valid_kwargs kwargs → upserted cc ix kwargs l l' →
  (cc', ix') ≠ (cc, ix) →
  key_count cc' ix' l' = key_count cc' ix' l.
Proof.
  intros Hv Hu Hne. unfold upserted in Hu.
  destruct (find_ccv _ _ l) as [i|] eqn:Hf.
  - destruct Hu as (c & c' & Hl & Hp & ->).
    destruct (populate_valid kwargs c Hv) as (c'' & Hp' & Hcc & Hix & _).
    assert (c'' = c') as -> by congruence.
    by apply (key_count_insert_same_key _ _ _ _ c).
  - destruct Hu as (c' & Hp & ->).
    destruct (populate_valid kwargs (fresh_ccv cc ix) Hv)
      as (c'' & Hp' & Hcc & Hix & _).
    assert (c'' = c') as -> by congruence.
    unfold key_count. rewrite filter_app, length_app, filter_cons.
    rewrite decide_False; [simpl; lia|].
    intros [Hk1 Hk2]. simpl in *. congruence.
Qed.

Lemma new_device_has_no_entry room cc ix :
  key_count cc ix (zwave_command_class_values (a_device room)) = 0%nat.
Proof. reflexivity. Qed.

Lemma value_changed_keeps_keys_unique e cc ix kwargs w w' :
  value_changed e cc ix kwargs →
  (∀ cc' ix',
     key_count cc' ix' (zwave_command_class_values (dev w)) ≤ 1)%nat →
  handle_event e w = (Ok tt, w') →
  ∀ cc' ix',
    (key_count cc' ix' (zwave_command_class_values (dev w')) ≤ 1)%nat.
Proof.
  intros He Hinv Hrun cc' ix'.
  destruct (handle_value_changed e cc ix kwargs w He) as (w'' & Hr & Hu & _).
  assert (w'' = w') as -> by congruence.
  assert (valid_kwargs kwargs) as Hv by apply He.
  destruct (decide ((cc', ix') = (cc, ix))) as [[= -> ->]|Hne].
  - rewrite (upserted_count _ _ _ _ _ Hv Hu). specialize (Hinv cc ix). lia.
  - rewrite (upserted_other_key _ _ _ _ _ _ _ Hv Hu Hne). apply Hinv.
Qed.

(** C1, as amended: on a device that holds at most one entry for
    [(cc, ix)], two well-formed [ValueChanged] notifications for that pair
    both succeed and leave exactly one entry keyed on [(cc, ix)].  The
    second one updates the entry where it is: the list keeps its length and
    differs only at the position of the entry, which then holds every value
    field of the second notification.  Well-formed ([value_changed]): the
    top-level [homeId] and [nodeId] are absent or integers; the [valueId]
    carries [commandClass] (a string), [index] (an integer), [readOnly],
    [id], [homeId], [nodeId] and [instance]; what is left of it once these
    are taken out and [readOnly] and [id] are renamed are value fields of
    an entry with values of their types; and for the binary sensor class
    it carries [value]. *)
Theorem value_changed_twice_one_entry (w : World) (e1 e2 : Event)
    (cc : string) (ix : Z) (kw1 kw2 : gmap string pyval) :
  value_changed e1 cc ix kw1 →
  value_changed e2 cc ix kw2 →
  (key_count cc ix (zwave_command_class_values (dev w)) ≤ 1)%nat →
  ∃ w1 w2,
    handle_event e1 w = (Ok tt, w1)
    ∧ handle_event e2 w1 = (Ok tt, w2)
    ∧ key_count cc ix (zwave_command_class_values (dev w2)) = 1%nat
    ∧ length (zwave_command_class_values (dev w2))
      = length (zwave_command_class_values (dev w1))
    ∧ ∃ i c1 c2,
        zwave_command_class_values (dev w1) !! i = Some c1
        ∧ has_key cc ix c1
        ∧ zwave_command_class_values (dev w2)
          = <[i := c2]> (zwave_command_class_values (dev w1))
        ∧ has_key cc ix c2
        ∧ ∀ name v, kw2 !! name = Some v → get_property name c2 = v.
Proof.
  intros H1 H2 Hle.
  destruct (handle_value_changed e1 cc ix kw1 w H1) as (w1 & Hr1 & Hu1 & _).
  destruct (handle_value_changed e2 cc ix kw2 w1 H2) as (w2 & Hr2 & Hu2 & _).
  assert (valid_kwargs kw1) as Hv1 by apply H1.
  assert (valid_kwargs kw2) as Hv2 by apply H2.
  pose proof (upserted_count _ _ _ _ _ Hv1 Hu1) as Hc1.
  pose proof (upserted_count _ _ _ _ _ Hv2 Hu2) as Hc2.
  assert (key_count cc ix (zwave_command_class_values (dev w1)) = 1%nat)
    as Hone by lia.
  exists w1, w2. split; [done|]. split; [done|]. split; [lia|].
  assert (1 ≤ key_count cc ix (zwave_command_class_values (dev w1)))%nat
    as Hge by lia.
  destruct (upserted_present _ _ _ _ _ Hv2 Hge Hu2)
    as (i & c1 & c2 & Hl & Hk1 & Heq & Hk2 & Hfs).
  split; [by rewrite Heq, length_insert|]. eauto 10.
Qed.

Lemma value_changed_twice_one_entry_witness :
  ∃ w1 w2,
    handle_event (mesh_payload (PBool true) (PInt 7) (PInt 3) (PInt 1))
      (mkWorld (a_device None) ∅ ∅ []) = (Ok tt, w1)
    ∧ handle_event (mesh_payload (PBool false) (PInt 7) (PInt 3) (PInt 1)) w1
      = (Ok tt, w2)
    ∧ key_count SENSOR_BINARY 0 (zwave_command_class_values (dev w2)) = 1%nat
    ∧ length (zwave_command_class_values (dev w2))
      = length (zwave_command_class_values (dev w1))
    ∧ ∃ i c1 c2,
        zwave_command_class_values (dev w1) !! i = Some c1
        ∧ has_key SENSOR_BINARY 0 c1
        ∧ zwave_command_class_values (dev w2)
          = <[i := c2]> (zwave_command_class_values (dev w1))
        ∧ has_key SENSOR_BINARY 0 c2
        ∧ ∀ name v, mesh_kwargs (PBool false) !! name = Some v →
                    get_property name c2 = v.
Proof.
  apply (value_changed_twice_one_entry (mkWorld (a_device None) ∅ ∅ [])
           _ _ SENSOR_BINARY 0 (mesh_kwargs (PBool true))
           (mesh_kwargs (PBool false))).
  - apply mesh_payload_value_changed.
  - apply mesh_payload_value_changed.
  - vm_compute. lia.
Defined.

(** C9, as amended: a well-formed [ValueChanged] notification for the
    binary sensor class (in the sense of [value_changed]: integer or absent
    top-level ids, a [valueId] with the key, [readOnly], [id] and the
    entries the normalizer deletes, [homeId], [nodeId] and [instance], and
    otherwise only value fields with values of their types, [value] among
    them), on a device placed in a stored room [R] with a non-empty id and
    holding at most one entry for the key, calls [lights] with the notified
    value, which turns the lights of [R] to that value, and leaves exactly
    one entry for the key, holding that value. *)
Theorem sensor_binary_switches_room_lights (w : World) (e : Event)
    (ix : Z) (kwargs : gmap string pyval) (v : pyval) (R : string) :
  value_changed e SENSOR_BINARY ix kwargs →
  kwargs !! "value" = Some v →
  room (dev w) = Some R → R ≠ "" → R ∈ rooms w →
  (key_count SENSOR_BINARY ix (zwave_command_class_values (dev w)) ≤ 1)%nat →
  ∃ w',
    handle_event e w = (Ok tt, w')
    ∧ trace w' = trace w ++ [value_log w' SENSOR_BINARY ix; SetLights R v]
    ∧ key_count SENSOR_BINARY ix (zwave_command_class_values (dev w')) = 1%nat
    ∧ ∃ c, c ∈ zwave_command_class_values (dev w')
           ∧ has_key SENSOR_BINARY ix c ∧ value c = v.
Proof.
  intros He Hval Hroom Hne Hin Hle.
  destruct (handle_value_changed e _ ix kwargs w He)
    as (w' & Hr & Hu & _ & _ & Ht).
  assert (valid_kwargs kwargs) as Hv by apply He.
  pose proof (upserted_count _ _ _ _ _ Hv Hu) as Hc.
  exists w'. split; [done|]. split; [|split; [lia|]].
  - rewrite Ht. rewrite decide_True by done.
    unfold lights_effects. rewrite Hroom, decide_False by done.
    rewrite bool_decide_true by done. by rewrite Hval.
  - destruct (key_count SENSOR_BINARY ix (zwave_command_class_values (dev w)))
      as [|n] eqn:Hn.
    + destruct (upserted_absent _ _ _ _ _ Hv Hn Hu) as (c & Heq & Hk & Hfs).
      exists c. rewrite Heq. split; [set_solver|]. split; [done|].
      apply (Hfs "value" v Hval).
    + assert (1 ≤ key_count SENSOR_BINARY ix
                    (zwave_command_class_values (dev w)))%nat as Hge by lia.
      destruct (upserted_present _ _ _ _ _ Hv Hge Hu)
        as (i & c0 & c & Hl & _ & Heq & Hk & Hfs).
      exists c. rewrite Heq. split; [|split; [done|]].
      * apply list_elem_of_lookup. exists i.
        apply list_lookup_insert_eq. by eapply lookup_lt_Some.
      * apply (Hfs "value" v Hval).
Qed.

Lemma sensor_binary_switches_room_lights_witness :
  ∃ w',
    handle_event (mesh_payload (PBool true) (PInt 7) (PInt 3) (PInt 1))
      (mkWorld (a_device (Some "R")) ∅ {[ "R" ]} []) = (Ok tt, w')
    ∧ trace w' = [] ++ [value_log w' SENSOR_BINARY 0; SetLights "R" (PBool true)]
    ∧ key_count SENSOR_BINARY 0 (zwave_command_class_values (dev w')) = 1%nat
    ∧ ∃ c, c ∈ zwave_command_class_values (dev w')
           ∧ has_key SENSOR_BINARY 0 c ∧ value c = PBool true.
Proof.
  apply (sensor_binary_switches_room_lights
           (mkWorld (a_device (Some "R")) ∅ {[ "R" ]} [])
           (mesh_payload (PBool true) (PInt 7) (PInt 3) (PInt 1))
           0 (mesh_kwargs (PBool true)) (PBool true) "R").
  - apply mesh_payload_value_changed.
  - by vm_compute.
  - reflexivity.
  - discriminate.
  - simpl. by apply elem_of_singleton.
  - vm_compute. lia.
Defined.

(** C9, as stated: the payload of the scenario has no [homeId] in its
    [valueId], so the normalizer raises [KeyError] before it touches the
    entries or the lights. *)
Lemma scenario_payload_is_rejected :
  let w := mkWorld (a_device (Some "R")) ∅ {[ "R" ]} [] in
  let r := handle_event scenario_payload w in
  r.1 = Raise (KeyError "homeId")
  ∧ trace r.2 = []
  ∧ zwave_command_class_values (dev r.2) = [].
Proof. by vm_compute. Qed.

(** C1, as stated: the [ValueChanged] payload of the specification carries
    the pair but has no [homeId] in its [valueId].  Handled twice on a new
    device, it raises [KeyError] both times and leaves no entry for the
    pair. *)
Lemma scenario_payload_twice_leaves_no_entry :
  let w := mkWorld (a_device None) ∅ ∅ [] in
  let r1 := handle_event scenario_payload w in
  let r2 := handle_event scenario_payload r1.2 in
  r1.1 = Raise (KeyError "homeId")
  ∧ r2.1 = Raise (KeyError "homeId")
  ∧ key_count SENSOR_BINARY 0 (zwave_command_class_values (dev r2.2)) = 0%nat.
Proof. by vm_compute. Qed.

(** Why the entries of the [valueId] have to be value fields: one that
    names [command_class] moves the entry to another key, so that two such
    notifications leave no entry for their pair and two under the other
    key. *)
Lemma rekeying_payload_twice :
  let w := mkWorld (a_device None) ∅ ∅ [] in
  let r1 := handle_event rekeying_payload w in
  let r2 := handle_event rekeying_payload r1.2 in
  r1.1 = Ok tt ∧ r2.1 = Ok tt
  ∧ key_count SENSOR_BINARY 0 (zwave_command_class_values (dev r2.2)) = 0%nat
  ∧ key_count "COMMAND_CLASS_BASIC" 0
      (zwave_command_class_values (dev r2.2)) = 2%nat.
Proof. by vm_compute. Qed.

(** Why the device has to hold at most one entry for the pair: entries that
    are there twice stay there twice. *)
Lemma twice_listed_stays_twice :
  let w := mkWorld twice_listed ∅ ∅ [] in
  let e := mesh_payload (PBool true) (PInt 7) (PInt 3) (PInt 1) in
  let r1 := handle_event e w in
  let r2 := handle_event e r1.2 in
  r1.1 = Ok tt ∧ r2.1 = Ok tt
  ∧ key_count SENSOR_BINARY 0 (zwave_command_class_values (dev r2.2)) = 2%nat.
Proof. by vm_compute. Qed.

(** **** Driver resolution *)

Lemma get_driver_unregistered m t p (reg : gmap string DriverClass) :
  reg !! driver_key m t p = None →
  get_driver m t p reg = Driver ∧ get_capabilities (get_driver m t p reg) = [].
Proof. intros H. unfold get_driver. by rewrite H. Qed.

Lemma driver_registered w cls :
  _driver (dev w) = None →
  ZWAVE_DRIVERS w !! device_key (dev w) = Some cls →
  driver w =
    (Ok cls,
     mkWorld (set_driver (Some cls) (dev w)) (ZWAVE_DRIVERS w) (rooms w)
       (trace w ++ [Log "ZWave driver for %s = %s"
                      [device_key (dev w); __name__ cls]])).
Proof.
  intros Hd Hr. unfold driver, emit, update_dev. unfold_monad. simpl.
  rewrite Hd. fold (device_key (dev w)). by rewrite Hr.
Qed.

(** C4, at the input where the code departs from it: for a device whose
    triple has no registered driver, [driver] raises [AttributeError] while
    it builds the log message, before it reaches the fallback; so does
    [get_capabilities] on the device.  Nothing is logged. *)
Theorem driver_unregistered_raises (w : World) :
  _driver (dev w) = None →
  ZWAVE_DRIVERS w !! device_key (dev w) = None →
  driver w = (Raise AttributeError, w)
  ∧ device_get_capabilities w = (Raise AttributeError, w).
Proof.
  intros Hd Hr.
  assert (driver w = (Raise AttributeError, w)) as Hrun.
  { unfold driver. unfold_monad. simpl.
    rewrite Hd. fold (device_key (dev w)). by rewrite Hr. }
  split; [done|]. unfold device_get_capabilities.
  unfold mbind, M_bind, bind. by rewrite Hrun.
Qed.

Lemma driver_unregistered_raises_witness :
  let w := mkWorld (a_device None) ∅ ∅ [] in
  driver w = (Raise AttributeError, w)
  ∧ device_get_capabilities w = (Raise AttributeError, w).
Proof.
  apply (driver_unregistered_raises (mkWorld (a_device None) ∅ ∅ [])).
  - reflexivity.
  - by vm_compute.
Defined.
End ZWaveFacts.

Module UserFacts.
Import User.
Section Fanout.
Context {payload : Type}.
Variable encode : payload → string.

Local Abbreviation size := (serialized_size encode).

(** **** The splitter *)

Lemma fill_concat max_size (batch events : list payload) :
  concat (fill encode max_size batch events) = batch ++ events.
Proof.
  revert batch. induction events as [|e events IH]; intros batch; simpl.
  - destruct batch; simpl; by rewrite ?app_nil_r.
  - case_decide.
    + rewrite IH. by rewrite <- app_assoc.
    + destruct batch as [|b batch]; simpl; by rewrite IH.
Qed.

Lemma fill_nonempty max_size (batch events : list payload) :
  Forall (λ b, b ≠ []) (fill encode max_size batch events).
Proof.
  revert batch. induction events as [|e events IH]; intros batch; simpl.
  - destruct batch; by repeat constructor.
  - case_decide; [apply IH|].
    destruct batch; constructor; try done; apply IH.
Qed.

Lemma fill_bounded max_size (batch events : list payload) :
  batch = [] ∨ size batch ≤ max_size →
  Forall (λ e, size [e] ≤ max_size) events →
  Forall (λ b, size b ≤ max_size) (fill encode max_size batch events).
Proof.
  revert batch. induction events as [|e events IH]; intros batch Hb He; simpl.
  - destruct Hb as [->|Hb]; [constructor|].
    destruct batch; by repeat constructor.
  - apply Forall_cons in He as [He Hes]. case_decide.
    + apply IH; auto.
    + destruct Hb as [->|Hb]; [by simpl in *|].
      destruct batch as [|b batch]; constructor; auto.
Qed.

Lemma size_nil : size [] = 2.
Proof. reflexivity. Qed.

(** A batch over the limit whose events fit one by one is cut in two or
    more sub-batches within the limit, which put end to end give back the
    batch. *)
Lemma limit_json_batch_splits max_size (events : list payload) :
  2 ≤ max_size →
  Forall (λ e, size [e] ≤ max_size) events →
  max_size < size events →
  let batches := limit_json_batch encode events max_size in
  (2 ≤ length batches)%nat
  ∧ Forall (λ b, b ≠ [] ∧ size b ≤ max_size) batches
  ∧ concat batches = events.
Proof.
  intros Hmax Hfit Hbig batches. subst batches. unfold limit_json_batch.
  pose proof (fill_concat max_size [] events) as Hc. simpl in Hc.
  pose proof (fill_nonempty max_size [] events) as Hn.
  pose proof (fill_bounded max_size [] events (or_introl eq_refl) Hfit) as Hb.
  split; [|split; [|done]].
  - destruct (fill encode max_size [] events) as [|b1 [|b2 bs]]; simpl in *.
    + subst events. rewrite size_nil in Hbig. lia.
    + rewrite app_nil_r in Hc. subst b1.
      apply Forall_cons in Hb as [Hb _]. lia.
    + lia.
  - apply Forall_and. done.
Qed.

(** No way of cutting delivers an event that is over the limit on its own
    in sub-batches within the limit. *)
Lemma oversize_event_cannot_fit max_size (e : payload)
    (batches : list (list payload)) :
  max_size < size [e] →
  concat batches = [e] →
  ¬ Forall (λ b, size b ≤ max_size) batches.
Proof.
  intros Hbig Hc Hall. induction batches as [|b bs IH]; simpl in Hc; [done|].
  apply Forall_cons in Hall as [Hb Hbs].
  destruct b as [|x b]; simpl in Hc; [by apply IH|].
  injection Hc as -> Hc. apply app_eq_nil in Hc as [-> _]. lia.
Qed.

(** **** The flush *)

Lemma flush_trace_nil (w : World (payload := payload)) : add_trace w [] = w.
Proof. destruct w. unfold add_trace. simpl. by rewrite app_nil_r. Qed.

Lemma deliveries_app (t1 t2 : list (effect (payload := payload))) :
  deliveries (t1 ++ t2) = deliveries t1 ++ deliveries t2.
Proof. apply omap_app. Qed.

Lemma check_all building_id (events : list (string * payload)) w :
  Forall (λ ev, ev.1 = building_id) events →
  for_each events (check building_id) w = (Ok tt, w).
Proof.
  induction 1 as [|ev events Hev _ IH]; simpl; [done|].
  rewrite run_bind.
  assert (check building_id ev w = (Ok tt, w)) as ->
    by (unfold check; by rewrite decide_True).
  apply IH.
Qed.

Lemma check_some building_id (events : list (string * payload)) w :
  Exists (λ ev, ev.1 ≠ building_id) events →
  for_each events (check building_id) w = (Raise AssertionError, w).
Proof.
  induction events as [|ev events IH]; intros Hex; [by apply Exists_nil in Hex|].
  simpl. rewrite run_bind. unfold check at 1.
  case_decide as Hd; simpl; [|done].
  apply Exists_cons in Hex as [Hev|Hex]; [done|]. by apply IH.
Qed.

Lemma deliver_all channel_id (batches : list (list payload)) w :
  ∃ es, for_each batches (deliver channel_id) w = (Ok tt, add_trace w es)
        ∧ deliveries es = (λ b, (channel_id, b)) <$> batches.
Proof.
  revert w. induction batches as [|b bs IH]; intros w; simpl.
  - exists []. by rewrite flush_trace_nil.
  - rewrite run_bind. unfold deliver at 1, emit. unfold_monad. simpl.
    match goal with |- context [for_each bs _ ?w1] =>
      destruct (IH w1) as (es & -> & Hd) end.
    eexists (_ :: _ :: es). split.
    + unfold add_trace. simpl. by rewrite <- !app_assoc.
    + simpl. by rewrite Hd.
Qed.

Lemma push_events_run (w : World (payload := payload))
    (events : list (string * payload)) :
  user_events w = Some events →
  push_events encode w =
    let w0 := mkWorld None (building w) (trace w) in
    match for_each events (check (building w)) w0 with
    | (Ok _, w1) =>
        for_each (limit_json_batch encode (events.*2) 8000)
          (deliver ("private-" +:+ building w)) w1
    | (Raise e, w1) => (Raise e, w1)
    end.
Proof.
  intros He. unfold push_events, set_user_events. unfold_monad. simpl.
  rewrite He. simpl. done.
Qed.

Lemma on_channel_batches (channel_id : string) (batches : list (list payload)) :
  ((λ b, (channel_id, b)) <$> batches).*2 = batches.
Proof. induction batches as [|b bs IH]; simpl; [done | by f_equal]. Qed.

(** C5, as amended: a flush always clears the buffer.  When every event
    carries the building of the flush, the events are delivered on
    [private-<building>], in the sub-batches of [limit_json_batch].  When
    some event carries another building the assertion fails before any
    delivery; that is the case whenever two events carry different
    buildings. *)
Theorem push_events_one_building (w : World (payload := payload))
    (events : list (string * payload)) :
  user_events w = Some events →
  let r := push_events encode w in
  let channel_id := "private-" +:+ building w in
  user_events r.2 = None
  ∧ (Forall (λ ev, ev.1 = building w) events →
     r.1 = Ok tt
     ∧ deliveries (trace r.2) =
         deliveries (trace w) ++
         ((λ b, (channel_id, b)) <$>
            limit_json_batch encode (events.*2) 8000))
  ∧ (Exists (λ ev, ev.1 ≠ building w) events →
     r.1 = Raise AssertionError
     ∧ deliveries (trace r.2) = deliveries (trace w))
  ∧ (∀ ev1 ev2, ev1 ∈ events → ev2 ∈ events → ev1.1 ≠ ev2.1 →
     r.1 = Raise AssertionError
     ∧ deliveries (trace r.2) = deliveries (trace w)).
Proof.
  intros He r channel_id. subst r channel_id.
  rewrite (push_events_run w events He).
  cbv zeta.
  assert (Exists (λ ev, ev.1 ≠ building w) events →
          let r := match for_each events (check (building w))
                           (mkWorld None (building w) (trace w)) with
                   | (Ok _, w1) =>
                       for_each (limit_json_batch encode (events.*2) 8000)
                         (deliver ("private-" +:+ building w)) w1
                   | (Raise e, w1) => (Raise e, w1)
                   end in
          r.1 = Raise AssertionError
          ∧ deliveries (trace r.2) = deliveries (trace w)) as Hbad.
  { intros Hex. by rewrite (check_some _ _ _ Hex). }
  split; [|split; [|split]].
  - destruct (decide (Forall (λ ev, ev.1 = building w) events)) as [Hall|Hn].
    + rewrite (check_all _ _ _ Hall).
      by destruct (deliver_all ("private-" +:+ building w)
                     (limit_json_batch encode (events.*2) 8000)
                     (mkWorld None (building w) (trace w))) as (es & -> & _).
    + apply not_Forall_Exists in Hn; [|apply _].
      by rewrite (check_some _ _ _ Hn).
  - intros Hall. rewrite (check_all _ _ _ Hall).
    destruct (deliver_all ("private-" +:+ building w)
                (limit_json_batch encode (events.*2) 8000)
                (mkWorld None (building w) (trace w))) as (es & -> & Hd).
    simpl. split; [done|]. by rewrite deliveries_app, Hd.
  - apply Hbad.
  - intros ev1 ev2 H1 H2 Hne. apply Hbad.
    destruct (decide (ev1.1 = building w)) as [E1|N1].
    + apply Exists_exists. exists ev2. split; [done|]. congruence.
    + apply Exists_exists. by exists ev1.
Qed.

(** C6, as amended: when each event fits the limit on its own and the
    whole batch does not, the flush makes two or more deliveries, each
    non-empty and of at most 8000 characters, which put end to end give
    back the events in their order. *)
Theorem push_events_splits_large_batches (w : World (payload := payload))
    (events : list (string * payload)) :
  user_events w = Some events →
  Forall (λ ev, ev.1 = building w) events →
  Forall (λ ev, size [ev.2] ≤ 8000) events →
  8000 < size (events.*2) →
  let r := push_events encode w in
  ∃ ds, r.1 = Ok tt
    ∧ deliveries (trace r.2) = deliveries (trace w) ++ ds
    ∧ (2 ≤ length ds)%nat
    ∧ Forall (λ d, d.1 = "private-" +:+ building w
                   ∧ d.2 ≠ [] ∧ size d.2 ≤ 8000) ds
    ∧ concat (ds.*2) = events.*2.
Proof.
  intros He Hall Hfit Hbig r.
  destruct (push_events_one_building w events He) as (_ & Hok & _).
  destruct (Hok Hall) as [Hr Hd]. clear Hok.
  assert (Forall (λ e, size [e] ≤ 8000) (events.*2)) as Hfit'
    by (by apply Forall_fmap).
  destruct (limit_json_batch_splits 8000 (events.*2) ltac:(lia) Hfit' Hbig)
    as (Hlen & Hbs & Hc).
  eexists. split; [exact Hr|]. split; [exact Hd|].
  split; [by rewrite length_fmap|]. split.
  - apply Forall_fmap. eapply Forall_impl; [exact Hbs|]. by intros b [? ?].
  - by rewrite on_channel_batches.
Qed.
End Fanout.

(** **** Samples *)

(** C5, as amended, on two events of building [b1] flushed in [b1]. *)
Lemma push_events_one_building_witness :
  let on := ("state", "on") in
  let off := ("state", "off") in
  let w := mkWorld (Some [("b1", on); ("b1", off)]) "b1" [] in
  let r := push_events sample_encode w in
  user_events r.2 = None
  ∧ r.1 = Ok tt
  ∧ deliveries (trace r.2) = [("private-b1", [on; off])].
Proof.
  intros on off w r.
  destruct (push_events_one_building sample_encode w
              [("b1", on); ("b1", off)] eq_refl) as (Hclear & Hok & _).
  split; [exact Hclear|]. apply Hok. by repeat constructor.
Defined.

(** C5, as stated: two events that share the building [b1], flushed while
    the current building is [b2], are not delivered: the assertion
    fails. *)
Lemma push_events_foreign_building_raises :
  let events := [("b1", ("state", "on")); ("b1", ("state", "off"))] in
  let w := mkWorld (Some events) "b2" [] in
  let r := push_events sample_encode w in
  Forall (λ ev, ev.1 = "b1") events
  ∧ r.1 = Raise AssertionError
  ∧ deliveries (trace r.2) = [].
Proof. split; [by repeat constructor | by vm_compute]. Qed.

(** C6, as amended, on three events of some 4000 characters. *)
Lemma push_events_splits_large_batches_witness :
  let e := ("note", letters 4000) in
  let w := mkWorld (Some [("b1", e); ("b1", e); ("b1", e)]) "b1" [] in
  let r := push_events sample_encode w in
  ∃ ds, r.1 = Ok tt
    ∧ deliveries (trace r.2) = [] ++ ds
    ∧ (2 ≤ length ds)%nat
    ∧ Forall (λ d, d.1 = "private-b1"
                   ∧ d.2 ≠ [] ∧ serialized_size sample_encode d.2 ≤ 8000) ds
    ∧ concat (ds.*2) = [e; e; e].
Proof.
  intros e w r.
  apply (push_events_splits_large_batches sample_encode w
           [("b1", e); ("b1", e); ("b1", e)]).
  - reflexivity.
  - by repeat constructor.
  - repeat constructor; by vm_compute.
  - by vm_compute.
Defined.

(** C6, as stated: a batch of one event whose text has more than 8000
    characters is over the limit, and is delivered in one piece that is
    over the limit. *)
Lemma push_events_oversize_event_not_split :
  let e := ("note", letters 4001 +:+ letters 4000) in
  let w := mkWorld (Some [("b1", e)]) "b1" [] in
  let r := push_events sample_encode w in
  8000 < serialized_size sample_encode [e]
  ∧ r.1 = Ok tt
  ∧ deliveries (trace r.2) = [("private-b1", [e])]
  ∧ ¬ (2 ≤ length (deliveries (trace r.2)))%nat
  ∧ ¬ Forall (λ d, serialized_size sample_encode d.2 ≤ 8000)
        (deliveries (trace r.2)).
Proof.
  intros e w r.
  assert (8000 < serialized_size sample_encode [e]) as Hbig by (by vm_compute).
  assert (r = (Ok tt, mkWorld None "b1"
                 [Log "Sending %d events to user on channel %s"
                    ["1"; "private-b1"];
                  Push "private-b1" [e]])) as -> by (by vm_compute).
  simpl. repeat split; try done.
  - lia.
  - intros Hall. apply Forall_cons in Hall as [Hle _]. simpl in Hle. lia.
Qed.
End UserFacts.

Module AccountFacts.
Import Account.
Section Exchange.
Context {timestamp : Type}.
Variable float_add : timestamp → Z → timestamp.
Variable urlopen : string → string → response.
Variable ACCOUNT_CLASSES : string → AccountClass (timestamp := timestamp).

Lemma exchanges_app (t1 t2 : list (effect (timestamp := timestamp))) :
  exchanges (t1 ++ t2) = exchanges t1 ++ exchanges t2.
Proof. apply omap_app. Qed.

Lemma stores_app (t1 t2 : list (effect (timestamp := timestamp))) :
  stores (t1 ++ t2) = stores t1 ++ stores t2.
Proof. apply omap_app. Qed.

(** C2, as amended: without a code, without a state, or with a state under
    which no account is stored, the callback fails with the 400 client
    error ([InvalidRequest]); no account is created or changed, no token
    is requested and nothing is stored. *)
Theorem callback_rejects_bad_request (args : gmap string string)
    (env : Env (timestamp := timestamp)) :
  args !! "code" = None ∨ args !! "state" = None
  ∨ (∃ state, args !! "state" = Some state ∧ accounts env !! state = None) →
  let r := oauth_redirect_callback float_add urlopen ACCOUNT_CLASSES args env in
  r.1 = Raise InvalidRequest
  ∧ accounts r.2 = accounts env
  ∧ exchanges (trace r.2) = exchanges (trace env)
  ∧ stores (trace r.2) = stores (trace env).
Proof.
  intros H r. subst r. unfold oauth_redirect_callback, log. unfold_monad.
  destruct (args !! "code") as [code|] eqn:Hc;
    destruct (args !! "state") as [state|] eqn:Hs; simpl;
    try (rewrite exchanges_app, stores_app; simpl; by rewrite !app_nil_r).
  destruct H as [H|[H|(s & [= <-] & Hn)]]; try done.
  rewrite Hn. simpl.
  rewrite exchanges_app, stores_app; simpl; by rewrite !app_nil_r.
Qed.

(** The request is built from the stored auth code and does not depend on
    the stored refresh token. *)
Lemma parameters_auth_code cls (self : Account (timestamp := timestamp)) :
  parameters cls self !! "auth_code" = Some (of_str (auth_code self))
  ∧ parameters cls self !! "grant_type" = Some (PStr "authorization_code")
  ∧ parameters cls self !! "refresh_token" = None
  ∧ ∀ token, parameters cls (set_refresh_token token self)
             = parameters cls self.
Proof. by vm_compute. Qed.

End Exchange.

(** **** A sample account type

    It sets the class attributes and inherits [_get_refresh_data] and
    [refresh_devices] from [Account]. *)

(** C2, as amended, on a callback with a forged state. *)
Lemma callback_rejects_bad_request_witness :
  let args : gmap string string := {[ "code" := "C"; "state" := "forged" ]} in
  let r := oauth_redirect_callback Z.add provider (λ _, sample_class)
             args sample_env in
  r.1 = Raise InvalidRequest
  ∧ accounts r.2 = accounts sample_env
  ∧ exchanges (trace r.2) = exchanges (trace sample_env)
  ∧ stores (trace r.2) = stores (trace sample_env).
Proof.
  intros args.
  apply (callback_rejects_bad_request Z.add provider (λ _, sample_class)
           args sample_env).
  right. right. exists "forged". split; by vm_compute.
Defined.

(** C2, as stated: a state under which no account is stored is answered
    with 400, not with the 404 of [NotFoundError]. *)
Lemma callback_unknown_state_is_not_404 :
  let args : gmap string string := {[ "code" := "C"; "state" := "forged" ]} in
  let r := oauth_redirect_callback Z.add provider (λ _, sample_class)
             args sample_env in
  r.1 = Raise (HTTPException 400) ∧ r.1 ≠ Raise NotFoundError.
Proof. split; [by vm_compute | vm_compute; discriminate]. Qed.


End AccountFacts.

(** * More of the code *)

(** ** [model.py] *)

Module ModelMore.
Import Model ModelFacts.

Lemma set_room_invocations room_id w :
  invocations (trace (set_room room_id w).2) = invocations (trace w).
Proof.
  unfold set_room, Room_get_by_id.
  destruct (as_id room_id) as [i|] eqn:Hi; [|done].
  unfold Room_put, Device_put, set_self, emit. unfold_monad. simpl.
  destruct (rooms w !! i); simpl; [|done].
  rewrite <- !app_assoc, invocations_app. simpl. by rewrite app_nil_r.
Qed.

Lemma invoke_invocations m kwargs w :
  invocations (trace (invoke m kwargs w).2) = invocations (trace w) ++ [m].
Proof.
  unfold invoke. rewrite run_bind. unfold emit at 1, modify.
  destruct m; simpl.
  - case_decide; simpl; by rewrite invocations_app.
  - destruct (exactly kwargs "event"); simpl; by rewrite invocations_app.
  - destruct (exactly kwargs "command"); simpl.
    + unfold emit. unfold_monad. simpl.
      rewrite !invocations_app. simpl. by rewrite app_nil_r.
    + by rewrite invocations_app.
  - destruct (exactly kwargs "room_id"); simpl.
    + rewrite set_room_invocations. simpl. by rewrite invocations_app.
    + by rewrite invocations_app.
  - case_decide; simpl; by rewrite invocations_app.
  - case_decide; simpl; by rewrite invocations_app.
Qed.

Lemma property_is_no_method d n f : property_value d n ≠ AFunc f.
Proof.
  unfold property_value, of_option.
  repeat (case_decide; [try done|]); try done.
  - by destruct (Device.name d).
  - by destruct (Device.last_update d).
  - by destruct (Device.room d).
  - by destruct (Device.state d).
Qed.

(** X1: whatever the class and the envelope, [handle_command] calls at most
    one method, and only one that the class defines under the name of the
    envelope and that carries [is_command = True]. *)
Theorem handle_command_calls_only_commands (cls : class)
    (command : gmap string pyval) (w : World) :
  let r := handle_command cls command w in
  invocations (trace r.2) = invocations (trace w)
  ∨ ∃ name f,
      command !! "command" = Some (PStr name)
      ∧ class_lookup cls name = Some f
      ∧ is_command f = Some true
      ∧ invocations (trace r.2) = invocations (trace w) ++ [im_func f].
Proof.
  intros r. subst r. unfold handle_command, emit. unfold_monad. simpl.
  assert (∀ e : list effect,
            invocations e = [] →
            invocations ((trace w ++ [LogInfo "%s"]) ++ e)
            = invocations (trace w)) as Hlog.
  { intros e He. rewrite !invocations_app, He. simpl. by rewrite !app_nil_r. }
  pose proof (Hlog [] eq_refl) as Hlog0. rewrite app_nil_r in Hlog0.
  destruct (command !! "command") as [[| | |name]|] eqn:Hc; simpl; auto.
  case_decide; simpl.
  - destruct (property_value (self w) name) as [f| |] eqn:Hp; simpl; auto.
    by destruct (property_is_no_method _ _ _ Hp).
  - destruct (class_lookup cls name) as [f|] eqn:Hf; simpl.
    + destruct (is_command f) as [[|]|] eqn:Hcmd; simpl; auto.
      right. exists name, f. repeat split; try done.
      rewrite invoke_invocations. simpl. by rewrite Hlog0.
    + destruct (inherited cls name); simpl; auto.
Qed.

Lemma handle_command_object cls command name w :
  command !! "command" = Some (PStr name) →
  getattr cls (self w) (PStr name) = Ok AObj →
  handle_command cls command w =
    (Raise AttributeError, log_to w [LogInfo "%s"]).
Proof.
  intros Hc Hg. unfold handle_command, emit. unfold_monad. simpl.
  rewrite Hc. simpl. simpl in Hg. by rewrite Hg.
Qed.

(** X2: a name that is neither a property of the entity nor a method that
    [model.py] defines for its class.  When the object does not have the
    name at all, the dispatch is answered with the 400 client error: the
    envelope is logged, the rejection is logged.  When the object has it
    from ndb or from [object] ([put], say), reading [is_command] on it
    raises [AttributeError], a server error, after the envelope has been
    logged.  In both cases nothing is called or persisted, and the device
    and the datastore are as before. *)
Theorem handle_command_unknown_name (cls : class)
    (command : gmap string pyval) (name : string) (w : World) :
  command !! "command" = Some (PStr name) →
  name ∉ properties cls →
  class_lookup cls name = None →
  handle_command cls command w =
    if inherited cls name
    then (Raise AttributeError, log_to w [LogInfo "%s"])
    else (Raise UnknownCommand,
          log_to w [LogInfo "%s";
                    LogError "Command %s does not exist or is not a command"]).
Proof.
  intros Hc Hn Hl.
  assert (getattr cls (self w) (PStr name)
          = Ok (if inherited cls name then AObj else ANone)) as Hg.
  { unfold getattr. by rewrite decide_False, Hl. }
  destruct (inherited cls name).
  - by apply (handle_command_object cls command name w Hc).
  - by apply (handle_command_absent cls command name w Hc).
Qed.

Lemma handle_command_unknown_name_witness :
  let d := Device.mk (mkKey "Device" (inl "lamp")) "me" None true None None in
  let w := mkWorld d ∅ ∅ [] in
  let cls := Device_class ndb_sample in
  handle_command cls {[ "command" := PStr "explode" ]} w
  = (Raise UnknownCommand,
     log_to w [LogInfo "%s";
               LogError "Command %s does not exist or is not a command"])
  ∧ handle_command cls {[ "command" := PStr "put" ]} w
    = (Raise AttributeError, log_to w [LogInfo "%s"]).
Proof.
  intros d w cls. split.
  - rewrite (handle_command_unknown_name cls _ "explode" w);
      [reflexivity | by vm_compute
      | apply (bool_decide_unpack _); by vm_compute | reflexivity].
  - rewrite (handle_command_unknown_name cls _ "put" w);
      [reflexivity | by vm_compute
      | apply (bool_decide_unpack _); by vm_compute | reflexivity].
Defined.

(** X3: an envelope without a [command] entry, or whose [command] is not a
    string, makes [getattr] raise [TypeError]: the answer is a server error,
    not the 400, and only the envelope has been logged. *)
Theorem handle_command_without_name (cls : class)
    (command : gmap string pyval) (w : World) :
  (∀ name, command !! "command" ≠ Some (PStr name)) →
  handle_command cls command w = (Raise TypeError, log_to w [LogInfo "%s"]).
Proof.
  intros Hc. unfold handle_command, emit. unfold_monad. simpl.
  destruct (command !! "command") as [[| | |name]|] eqn:E; simpl; try done.
  by destruct (Hc name).
Qed.

Lemma handle_command_without_name_witness :
  let d := Device.mk (mkKey "Device" (inl "lamp")) "me" None true None None in
  let w := mkWorld d ∅ ∅ [] in
  handle_command (Device_class ndb_sample) {[ "room_id" := PStr "hall" ]} w
  = (Raise TypeError, log_to w [LogInfo "%s"]).
Proof.
  intros d w.
  apply (handle_command_without_name (Device_class ndb_sample) _ w).
  intros name. by vm_compute.
Defined.

(** X4: [set_room] takes exactly the keyword [room_id].  An envelope for
    [set_room] whose other entries are not exactly [room_id] (one missing,
    one more, or one under another name such as [roomId]) raises
    [TypeError] once the method is called: no room is looked up, nothing is
    persisted, the device and the datastore are as before. *)
Theorem set_room_wrong_keywords (ndb : string → bool)
    (command : gmap string pyval) (w : World) :
  command !! "command" = Some (PStr "set_room") →
  exactly (delete "command" command) "room_id" = None →
  let r := handle_command (Device_class ndb) command w in
  r.1 = Raise TypeError
  ∧ self r.2 = self w ∧ rooms r.2 = rooms w ∧ devices r.2 = devices w
  ∧ puts (trace r.2) = puts (trace w)
  ∧ invocations (trace r.2) = invocations (trace w) ++ [set_room_m].
Proof.
  intros Hc Hk r. subst r.
  rewrite (handle_command_flagged (Device_class ndb) _ "set_room"
             (Command (def set_room_m))); [| done | by vm_compute | done].
  unfold invoke, emit. unfold_monad. simpl. rewrite Hk. simpl.
  repeat split; try done.
  - rewrite !puts_app. simpl. by rewrite !app_nil_r.
  - rewrite !invocations_app. simpl. by rewrite !app_nil_r.
Qed.

Lemma set_room_wrong_keywords_witness :
  let d := Device.mk (mkKey "Device" (inl "lamp")) "me" None true None None in
  let hall := Room.mk (mkKey "Room" (inl "hall")) "me" None [] in
  let w := mkWorld d {[ inl "hall" := hall ]} ∅ [] in
  let r := handle_command (Device_class ndb_sample)
             {[ "command" := PStr "set_room"; "roomId" := PStr "hall" ]} w in
  r.1 = Raise TypeError
  ∧ self r.2 = self w ∧ rooms r.2 = rooms w ∧ devices r.2 = devices w
  ∧ puts (trace r.2) = puts (trace w)
  ∧ invocations (trace r.2) = invocations (trace w) ++ [set_room_m].
Proof.
  intros d hall w.
  apply (set_room_wrong_keywords ndb_sample
           {[ "command" := PStr "set_room"; "roomId" := PStr "hall" ]} w).
  - by vm_compute.
  - by vm_compute.
Defined.

(** X5: [set_room] never takes the device out of a room.  After a move from
    one stored room to another the device refers to the second room only,
    while both rooms list the device. *)
Theorem set_room_keeps_old_membership (w : World) (i1 i2 : entity_id)
    (room1 room2 : Room.t) :
  rooms w !! i1 = Some room1 → rooms w !! i2 = Some room2 →
  id (Room.key room1) = i1 → id (Room.key room2) = i2 → i1 ≠ i2 →
  let r := (set_room (of_id i1);; set_room (of_id i2)) w in
  r.1 = Ok tt
  ∧ Device.room (self r.2) = Some (Room.key room2)
  ∧ ∃ room1' room2',
      rooms r.2 !! i1 = Some room1'
      ∧ Device.key (self w) ∈ Room.devices room1'
      ∧ rooms r.2 !! i2 = Some room2'
      ∧ Device.key (self w) ∈ Room.devices room2'.
Proof.
  intros H1 H2 Hk1 Hk2 Hne r. subst r.
  rewrite run_bind.
  rewrite (set_room_found _ i1 room1); [| apply as_id_of_id | done].
  cbv zeta. rewrite Hk1.
  match goal with |- context [set_room _ ?w1] => set (w1' := w1) end.
  assert (rooms w1' !! i2 = Some room2) as H2'
    by (subst w1'; simpl; by rewrite lookup_insert_ne).
  rewrite (set_room_found _ i2 room2 w1'); [| apply as_id_of_id | done].
  cbv zeta. rewrite Hk2. subst w1'. simpl.
  split; [done|]. split; [done|]. eexists _, _. split.
  - rewrite lookup_insert_ne by done. apply lookup_insert_eq.
  - split; [simpl; set_solver|]. split; [apply lookup_insert_eq|].
    simpl. set_solver.
Qed.

Lemma set_room_keeps_old_membership_witness :
  let d := Device.mk (mkKey "Device" (inl "lamp")) "me" None true None None in
  let hall := Room.mk (mkKey "Room" (inl "hall")) "me" None [] in
  let den := Room.mk (mkKey "Room" (inl "den")) "me" None [] in
  let w := mkWorld d {[ inl "hall" := hall; inl "den" := den ]} ∅ [] in
  let r := (set_room (PStr "hall");; set_room (PStr "den")) w in
  r.1 = Ok tt
  ∧ Device.room (self r.2) = Some (Room.key den)
  ∧ ∃ room1' room2',
      rooms r.2 !! inl "hall" = Some room1'
      ∧ Device.key d ∈ Room.devices room1'
      ∧ rooms r.2 !! inl "den" = Some room2'
      ∧ Device.key d ∈ Room.devices room2'.
Proof.
  intros d hall den w.
  apply (set_room_keeps_old_membership w (inl "hall") (inl "den") hall den).
  - by vm_compute.
  - by vm_compute.
  - reflexivity.
  - reflexivity.
  - discriminate.
Defined.

(** X6: on a [Switch], [turn_on] and [turn_off] are commands that do
    nothing.  Dispatched without arguments they succeed and leave the device
    and the datastore as they were, with nothing persisted; with any
    argument the call raises [TypeError]. *)
Theorem switch_commands_change_nothing (ndb : string → bool) (name : string)
    (command : gmap string pyval) (w : World) :
  name = "turn_on" ∨ name = "turn_off" →
  command !! "command" = Some (PStr name) →
  let r := handle_command (Switch_class ndb) command w in
  r.1 = (if decide (delete "command" command = ∅) then Ok tt
         else Raise TypeError)
  ∧ self r.2 = self w ∧ rooms r.2 = rooms w ∧ devices r.2 = devices w
  ∧ puts (trace r.2) = puts (trace w).
Proof.
  intros Hname Hc r. subst r.
  destruct Hname as [-> | ->].
  - rewrite (handle_command_flagged (Switch_class ndb) _ "turn_on"
               (Command (def turn_on))); [| done | by vm_compute | done].
    unfold invoke, emit. unfold_monad. simpl.
    case_decide; simpl; repeat split; try done;
      rewrite ?puts_app; simpl; by rewrite ?app_nil_r.
  - rewrite (handle_command_flagged (Switch_class ndb) _ "turn_off"
               (Command (def turn_off))); [| done | by vm_compute | done].
    unfold invoke, emit. unfold_monad. simpl.
    case_decide; simpl; repeat split; try done;
      rewrite ?puts_app; simpl; by rewrite ?app_nil_r.
Qed.

Lemma switch_commands_change_nothing_witness :
  let d := Device.mk (mkKey "Switch" (inl "plug")) "me" None true None
             (Some false) in
  let w := mkWorld d ∅ ∅ [] in
  let command : gmap string pyval := {[ "command" := PStr "turn_on" ]} in
  let r := handle_command (Switch_class ndb_sample) command w in
  r.1 = (if decide (delete "command" command = ∅) then Ok tt
         else Raise TypeError)
  ∧ self r.2 = self w ∧ rooms r.2 = rooms w ∧ devices r.2 = devices w
  ∧ puts (trace r.2) = puts (trace w).
Proof.
  intros d w command.
  apply (switch_commands_change_nothing ndb_sample "turn_on" command w).
  - by left.
  - by vm_compute.
Defined.
End ModelMore.

(** ** [devices/zwave.py] *)

Module ZWaveMore.
Import ZWave ZWaveFacts.

Local Ltac in_list :=
  repeat first [apply list_elem_of_here | apply list_elem_of_further].

(** *** The registry *)

(** X7: a driver registered under a triple is what [get_driver] returns for
    that triple; a later registration under the same triple replaces it;
    triples with another key are not affected. *)
Theorem register_then_get_driver (m t p m' t' p' : pyval)
    (cls cls' : DriverClass) (reg : gmap string DriverClass) :
  get_driver m t p (register m t p cls reg) = cls
  ∧ get_driver m t p (register m t p cls (register m t p cls' reg)) = cls
  ∧ (driver_key m' t' p' ≠ driver_key m t p →
     get_driver m' t' p' (register m t p cls reg) = get_driver m' t' p' reg).
Proof.
  unfold get_driver, register. repeat split.
  - by rewrite lookup_insert_eq.
  - by rewrite lookup_insert_eq.
  - intros Hne. by rewrite lookup_insert_ne.
Qed.

Lemma string_app_assoc (a b c : string) : (a +:+ b) +:+ c = a +:+ (b +:+ c).
Proof.
  induction a as [|x a IH]; [reflexivity|].
  change (String x ((a +:+ b) +:+ c) = String x (a +:+ (b +:+ c))).
  by rewrite IH.
Qed.

(** X8: the registry key is the three ids joined by hyphens, so it does not
    tell triples apart that join to the same text: a driver registered for
    [(a, b-c, p)] is the one resolved for [(a-b, c, p)], and a driver
    registered for the id ["None"] is the one resolved for an unset id. *)
Theorem driver_key_joins_ids (a b c : string) (t p : pyval)
    (cls : DriverClass) (reg : gmap string DriverClass) :
  get_driver (PStr (a +:+ "-" +:+ b)) (PStr c) p
    (register (PStr a) (PStr (b +:+ "-" +:+ c)) p cls reg) = cls
  ∧ get_driver PNone t p (register (PStr "None") t p cls reg) = cls.
Proof.
  unfold get_driver, register. split.
  - assert (driver_key (PStr (a +:+ "-" +:+ b)) (PStr c) p
            = driver_key (PStr a) (PStr (b +:+ "-" +:+ c)) p) as ->.
    { unfold driver_key, py_str. by rewrite !string_app_assoc. }
    by rewrite lookup_insert_eq.
  - by rewrite lookup_insert_eq.
Qed.

(** *** [driver] and [get_capabilities] *)

Lemma driver_cached w cls :
  _driver (dev w) = Some cls → driver w = (Ok cls, w).
Proof. intros H. unfold driver. unfold_monad. simpl. by rewrite H. Qed.

(** X9: for a device whose triple is registered, [driver] returns the
    registered class, logs the key and the name of the class once, and keeps
    the driver on the device: from then on [driver] and [get_capabilities]
    answer from the device without looking at the registry or logging,
    whatever the registry holds by then. *)
Theorem driver_resolves_once (w : World) (cls : DriverClass) :
  _driver (dev w) = None →
  ZWAVE_DRIVERS w !! device_key (dev w) = Some cls →
  let r := driver w in
  r.1 = Ok cls
  ∧ trace r.2 = trace w ++ [Log "ZWave driver for %s = %s"
                              [device_key (dev w); __name__ cls]]
  ∧ ∀ reg' : gmap string DriverClass,
      let w' := mkWorld (dev r.2) reg' (rooms r.2) (trace r.2) in
      driver w' = (Ok cls, w')
      ∧ device_get_capabilities w' = (Ok (get_capabilities cls), w').
Proof.
  intros Hd Hr r. subst r. rewrite (driver_registered w cls Hd Hr). simpl.
  split; [done|]. split; [done|]. intros reg'. cbv zeta.
  match goal with |- driver ?w' = _ ∧ _ =>
    assert (driver w' = (Ok cls, w')) as Hc by (by apply driver_cached) end.
  split; [done|]. unfold device_get_capabilities.
  rewrite run_bind. by rewrite Hc.
Qed.

Lemma driver_resolves_once_witness :
  let dimmer := mkDriver "Dimmer" ["dim"] in
  let w := mkWorld (a_device None) {[ "None-None-None" := dimmer ]} ∅ [] in
  let r := driver w in
  r.1 = Ok dimmer
  ∧ trace r.2 = [] ++ [Log "ZWave driver for %s = %s"
                         ["None-None-None"; "Dimmer"]]
  ∧ ∀ reg' : gmap string DriverClass,
      let w' := mkWorld (dev r.2) reg' (rooms r.2) (trace r.2) in
      driver w' = (Ok dimmer, w')
      ∧ device_get_capabilities w' = (Ok ["dim"], w').
Proof.
  intros dimmer w.
  apply (driver_resolves_once w dimmer).
  - reflexivity.
  - by vm_compute.
Defined.

(** *** Notifications *)

Import ZWaveTerms.

Lemma update_mesh_ids_device e w :
  absent_or_int (fields e !! "homeId") →
  absent_or_int (fields e !! "nodeId") →
  ∃ d', update_mesh_ids e w
        = (Ok tt, mkWorld d' (ZWAVE_DRIVERS w) (rooms w) (trace w))
    ∧ ids_updated e (dev w) d'
    ∧ same_entries (dev w) d'
    ∧ description d' = description (dev w).
Proof.
  intros Hh Hn. unfold update_mesh_ids, update_dev, ids_updated. unfold_monad.
  destruct w as [d reg rs t]. simpl.
  destruct (fields e !! "homeId") as [[]|]; try done;
    destruct (fields e !! "nodeId") as [[]|]; try done;
    simpl; eexists; (split; [reflexivity|]); by destruct d.
Qed.

Lemma validate_of_str (s : option string) : validate_string (of_str s) = Ok s.
Proof. by destruct s. Qed.

Lemma node_info_run e info w :
  node_info e info →
  ∃ d', handle_event e w
        = (Ok tt, mkWorld d' (ZWAVE_DRIVERS w) (rooms w) (trace w))
    ∧ description d' = info
    ∧ ids_updated e (dev w) d'
    ∧ same_entries (dev w) d'.
Proof.
  intros (Hnt & Hh & Hn & Hlen & Hinfo).
  destruct info as [|a1 [|a2 [|a3 [|a4 [|a5 [|a6 [|a7 [|]]]]]]]]; try done.
  injection Hinfo as H1 H2 H3 H4 H5 H6 H7.
  destruct (update_mesh_ids_device e w Hh Hn) as (d0 & Hrun & Hids & Hsame & _).
  rewrite (handle_event_run e w _ Hnt), Hrun.
  rewrite decide_False by (by apply (bool_decide_unpack _)).
  rewrite decide_True by done.
  destruct d0 as [nid hid ccv t n mn mi pn pt pi st rm drv].
  unfold node_info_branch, getitem. rewrite H1, H2, H3, H4, H5, H6, H7.
  repeat (rewrite run_bind; unfold ret, lift, update_dev, modify; simpl;
          rewrite ?validate_of_str).
  eexists. split; [reflexivity|]. split; [done|].
  split; [by destruct Hids|]. by destruct Hsame as (? & ? & ? & ?).
Qed.

(** X10: of two [NodeInfoUpdate] notifications the second one wins: after
    both, the seven descriptive fields are those of the second, whatever
    the device and the first one said.  The entries, the state, the room
    and the driver of the device are not touched, and nothing is logged.
    (Each notification carries the seven fields, as strings or [None], and
    its [homeId] and [nodeId] are absent or integers.) *)
Theorem node_info_last_update_wins (e1 e2 : Event)
    (info1 info2 : list (option string)) (w : World) :
  node_info e1 info1 → node_info e2 info2 →
  let r := (handle_event e1;; handle_event e2) w in
  r.1 = Ok tt
  ∧ description (dev r.2) = info2
  ∧ same_entries (dev w) (dev r.2)
  ∧ trace r.2 = trace w.
Proof.
  intros H1 H2 r. subst r. rewrite run_bind.
  destruct (node_info_run e1 info1 w H1) as (d1 & -> & _ & _ & Hs1).
  destruct (node_info_run e2 info2 (mkWorld d1 (ZWAVE_DRIVERS w) (rooms w)
                                      (trace w)) H2)
    as (d2 & -> & Hd2 & _ & Hs2).
  simpl in *. split; [done|]. split; [done|]. split; [|done].
  destruct Hs1 as (? & ? & ? & ?), Hs2 as (? & ? & ? & ?).
  repeat split; congruence.
Qed.

Lemma sample_info_is_node_info name :
  node_info (sample_info name)
    [Some "Binary Sensor"; Some name; Some "Aeon Labs"; Some "0086"; None;
     Some "0002"; Some "0005"].
Proof. repeat split; by vm_compute. Qed.

Lemma node_info_last_update_wins_witness :
  let w := mkWorld (a_device (Some "hall")) ∅ ∅ [] in
  let r := (handle_event (sample_info "door");;
            handle_event (sample_info "window")) w in
  r.1 = Ok tt
  ∧ description (dev r.2)
    = [Some "Binary Sensor"; Some "window"; Some "Aeon Labs"; Some "0086";
       None; Some "0002"; Some "0005"]
  ∧ same_entries (dev w) (dev r.2)
  ∧ trace r.2 = trace w.
Proof.
  intros w.
  apply (node_info_last_update_wins (sample_info "door")
           (sample_info "window")
           [Some "Binary Sensor"; Some "door"; Some "Aeon Labs"; Some "0086";
            None; Some "0002"; Some "0005"] _ w).
  - apply sample_info_is_node_info.
  - apply sample_info_is_node_info.
Defined.

(** X11: the driver kept on a device is never looked up again: after a
    [NodeInfoUpdate] has changed the manufacturer and product ids of the
    device, [driver] still answers with the driver resolved before,
    whatever is registered under the new ids.  (The notification carries
    the seven descriptive fields, as strings or [None], and its [homeId]
    and [nodeId] are absent or integers.) *)
Theorem driver_survives_node_info (e : Event) (info : list (option string))
    (cls : DriverClass) (w : World) :
  _driver (dev w) = Some cls →
  node_info e info →
  let r := (handle_event e;; driver) w in
  r.1 = Ok cls
  ∧ description (dev r.2) = info
  ∧ trace r.2 = trace w.
Proof.
  intros Hd He r. subst r. rewrite run_bind.
  destruct (node_info_run e info w He) as (d1 & -> & Hinfo & _ & Hs).
  destruct Hs as (_ & _ & _ & Hdrv).
  rewrite (driver_cached _ cls); [done|]. simpl. congruence.
Qed.

Lemma driver_survives_node_info_witness :
  let dimmer := mkDriver "Dimmer" ["dim"] in
  let sensor := mkDriver "Sensor" [] in
  let d := set_driver (Some dimmer) (a_device None) in
  let w := mkWorld d {[ "0086-0002-0005" := sensor ]} ∅ [] in
  let r := (handle_event (sample_info "door");; driver) w in
  r.1 = Ok dimmer
  ∧ description (dev r.2)
    = [Some "Binary Sensor"; Some "door"; Some "Aeon Labs"; Some "0086";
       None; Some "0002"; Some "0005"]
  ∧ trace r.2 = trace w.
Proof.
  intros dimmer sensor d w.
  apply (driver_survives_node_info (sample_info "door") _ dimmer w).
  - reflexivity.
  - apply sample_info_is_node_info.
Defined.

Lemma update_mesh_ids_any e w :
  let r := update_mesh_ids e w in
  same_entries (dev w) (dev r.2)
  ∧ description (dev r.2) = description (dev w)
  ∧ ZWAVE_DRIVERS r.2 = ZWAVE_DRIVERS w ∧ rooms r.2 = rooms w
  ∧ trace r.2 = trace w
  ∧ if id_ok (fields e !! "homeId") && id_ok (fields e !! "nodeId")
    then r.1 = Ok tt ∧ ids_updated e (dev w) (dev r.2)
    else r.1 = Raise BadValueError.
Proof.
  unfold update_mesh_ids, update_dev, ids_updated, same_entries, id_ok, mesh_id.
  unfold_monad. destruct w as [d reg rs t]. simpl.
  destruct (fields e !! "homeId") as [[]|];
    destruct (fields e !! "nodeId") as [[]|]; simpl; by destruct d.
Qed.

(** X12: a notification of any other type leaves the entries, the
    description, the state, the room and the driver of the device as they
    are.  When the [homeId] and [nodeId] it carries, if any, can be assigned
    to their integer properties, the call succeeds, sets them and logs the
    notification as unknown; otherwise it raises [BadValueError] and
    nothing is logged. *)
Theorem unknown_notification_is_dropped (e : Event) (type : pyval) (w : World) :
  fields e !! "notificationType" = Some type →
  type ∉ [PStr "ValueAdded"; PStr "ValueChanged"; PStr "NodeInfoUpdate"] →
  let r := handle_event e w in
  same_entries (dev w) (dev r.2)
  ∧ description (dev r.2) = description (dev w)
  ∧ ZWAVE_DRIVERS r.2 = ZWAVE_DRIVERS w ∧ rooms r.2 = rooms w
  ∧ if id_ok (fields e !! "homeId") && id_ok (fields e !! "nodeId")
    then r.1 = Ok tt
         ∧ trace r.2 = trace w ++ [Log "Unknown event: %s" []]
         ∧ ids_updated e (dev w) (dev r.2)
    else r.1 = Raise BadValueError ∧ trace r.2 = trace w.
Proof.
  intros Hnt Hty r. subst r.
  rewrite (handle_event_run e w _ Hnt).
  destruct (update_mesh_ids_any e w) as (Hs & Hd & Hreg & Hrooms & Ht & Hids).
  destruct (update_mesh_ids e w) as [[[]|err] w0]; simpl in *.
  - rewrite decide_False
      by (intros Hin; apply Hty;
          repeat (apply elem_of_cons in Hin as [->|Hin]; [in_list|]);
          by apply elem_of_nil in Hin).
    rewrite decide_False by (intros ->; apply Hty; in_list).
    unfold emit, modify. simpl. repeat (split; [done|]).
    destruct (id_ok _ && id_ok _); [|done].
    destruct Hids as [_ Hids]. by rewrite Ht.
  - repeat (split; [done|]).
    destruct (id_ok _ && id_ok _); [by destruct Hids|].
    by injection Hids as ->.
Qed.

Lemma unknown_notification_is_dropped_witness :
  let e := mkEvent {[ "notificationType" := PStr "DriverReady";
                      "homeId" := PInt 7 ]} None in
  let w := mkWorld (a_device None) ∅ ∅ [] in
  let r := handle_event e w in
  same_entries (dev w) (dev r.2)
  ∧ description (dev r.2) = description (dev w)
  ∧ ZWAVE_DRIVERS r.2 = ZWAVE_DRIVERS w ∧ rooms r.2 = rooms w
  ∧ r.1 = Ok tt
  ∧ trace r.2 = trace w ++ [Log "Unknown event: %s" []]
  ∧ ids_updated e (dev w) (dev r.2).
Proof.
  intros e w.
  assert (fields e !! "notificationType" = Some (PStr "DriverReady")) as Hnt
    by (by vm_compute).
  assert (PStr "DriverReady"
          ∉ [PStr "ValueAdded"; PStr "ValueChanged"; PStr "NodeInfoUpdate"])
    as Hty by (apply (bool_decide_unpack _); by vm_compute).
  exact (unknown_notification_is_dropped e (PStr "DriverReady") w Hnt Hty).
Defined.

Lemma extract_value_missing (v : gmap string pyval) (k : string) :
  k ∈ required_keys → v !! k = None →
  ∃ k' v', k' ∈ required_keys ∧ extract_value v = (Raise (KeyError k'), v').
Proof.
  intros Hk Hv. unfold extract_value.
  rewrite run_bind. unfold pop at 1.
  destruct (v !! "commandClass") eqn:E1;
    [| exists "commandClass"; eexists; split; [in_list | done]].
  rewrite run_bind. unfold pop at 1. rewrite lookup_delete_ne by done.
  destruct (v !! "index") eqn:E2;
    [| exists "index"; eexists; split; [in_list | done]].
  rewrite run_bind. unfold pop at 1. rewrite !lookup_delete_ne by done.
  destruct (v !! "readOnly") eqn:E3;
    [| exists "readOnly"; eexists; split; [in_list | done]].
  rewrite run_bind. unfold setitem at 1, modify.
  rewrite run_bind. unfold pop at 1.
  rewrite lookup_insert_ne, !lookup_delete_ne by done.
  destruct (v !! "id") eqn:E4;
    [| exists "id"; eexists; split; [in_list | done]].
  rewrite run_bind. unfold setitem at 1, modify.
  rewrite run_bind. unfold del at 1.
  rewrite lookup_insert_ne, lookup_delete_ne, lookup_insert_ne,
    !lookup_delete_ne by done.
  destruct (v !! "homeId") eqn:E5;
    [| exists "homeId"; eexists; split; [in_list | done]].
  rewrite run_bind. unfold del at 1.
  rewrite lookup_delete_ne, lookup_insert_ne, lookup_delete_ne,
    lookup_insert_ne, !lookup_delete_ne by done.
  destruct (v !! "nodeId") eqn:E6;
    [| exists "nodeId"; eexists; split; [in_list | done]].
  rewrite run_bind. unfold del at 1.
  rewrite !lookup_delete_ne, lookup_insert_ne, lookup_delete_ne,
    lookup_insert_ne, !lookup_delete_ne by done.
  destruct (v !! "instance") eqn:E7;
    [| exists "instance"; eexists; split; [in_list | done]].
  exfalso. unfold required_keys in Hk.
  repeat (apply elem_of_cons in Hk as [->|Hk]; [congruence|]).
  by apply elem_of_nil in Hk.
Qed.

(** X13: a value notification (whose top-level [homeId] and [nodeId] are
    absent or integers) whose [valueId] lacks one of [commandClass],
    [index], [readOnly], [id], [homeId], [nodeId] and [instance] raises
    [KeyError] for one of them before the entries are looked at: the
    entries, the room and the driver of the device are as before, nothing is
    logged and the lights are not touched. *)
Theorem value_notification_needs_keys (e : Event) (v : gmap string pyval)
    (k : string) (w : World) :
  value_type e →
  absent_or_int (fields e !! "homeId") →
  absent_or_int (fields e !! "nodeId") →
  valueId e = Some v →
  k ∈ required_keys → v !! k = None →
  ∃ k' d', k' ∈ required_keys
    ∧ handle_event e w
      = (Raise (KeyError k'), mkWorld d' (ZWAVE_DRIVERS w) (rooms w) (trace w))
    ∧ same_entries (dev w) d'.
Proof.
  intros Hty Hh Hn Hv Hk Hmiss.
  destruct (update_mesh_ids_device e w Hh Hn) as (d0 & Hrun & _ & Hs & _).
  destruct (extract_value_missing v k Hk Hmiss) as (k' & v' & Hk' & Hex).
  exists k', d0. split; [done|]. split; [|done].
  destruct e as [f vid]. simpl in Hv. subst vid.
  destruct Hty as [Hnt|Hnt];
    rewrite (handle_event_run _ w _ Hnt), Hrun;
    (rewrite decide_True by in_list);
    by rewrite value_branch_unfold, Hex.
Qed.

Lemma value_notification_needs_keys_witness :
  let w := mkWorld (a_device (Some "R")) ∅ {[ "R" ]} [] in
  ∃ k' d', k' ∈ required_keys
    ∧ handle_event scenario_payload w
      = (Raise (KeyError k'), mkWorld d' ∅ {[ "R" ]} [])
    ∧ same_entries (dev w) d'.
Proof.
  intros w.
  apply (value_notification_needs_keys scenario_payload
           {[ "commandClass" := PStr SENSOR_BINARY; "index" := PInt 0;
              "id" := PInt 1; "readOnly" := PBool true;
              "value" := PBool true ]} "instance" w).
  - right. by vm_compute.
  - by vm_compute.
  - by vm_compute.
  - reflexivity.
  - apply (bool_decide_unpack _). by vm_compute.
  - by vm_compute.
Defined.

(** X14: [ValueAdded] is handled exactly as [ValueChanged]: the same
    notification under the other type gives the same result and the same
    device. *)
Theorem value_added_is_value_changed (e : Event) (w : World) :
  fields e !! "notificationType" = Some (PStr "ValueAdded") →
  handle_event e w
  = handle_event
      (mkEvent (<["notificationType" := PStr "ValueChanged"]> (fields e))
         (valueId e)) w.
Proof.
  intros Hnt.
  rewrite (handle_event_run e w _ Hnt).
  rewrite (handle_event_run _ w (PStr "ValueChanged"))
    by (simpl; apply lookup_insert_eq).
  assert (update_mesh_ids
            (mkEvent (<["notificationType" := PStr "ValueChanged"]> (fields e))
               (valueId e))
          = update_mesh_ids e) as ->.
  { unfold update_mesh_ids. simpl. by rewrite !lookup_insert_ne by done. }
  destruct (update_mesh_ids e w) as [[[]|err] w0]; [|done].
  rewrite !decide_True by in_list.
  destruct e as [f v]. simpl. rewrite !value_branch_unfold.
  destruct v as [v0|]; [|done].
  destruct (extract_value v0) as [[[cc ix]|err] value]; [|done].
  match goal with |- context [let '(_, _) := ?m w0 in _] =>
    by destruct (m w0) end.
Qed.

Lemma value_added_is_value_changed_witness :
  let e := mkEvent {[ "notificationType" := PStr "ValueAdded" ]}
             (valueId (mesh_payload (PInt 21) (PInt 7) (PInt 3) (PInt 1))) in
  let w := mkWorld (a_device None) ∅ ∅ [] in
  handle_event e w
  = handle_event
      (mkEvent (<["notificationType" := PStr "ValueChanged"]> (fields e))
         (valueId e)) w.
Proof.
  intros e w. apply (value_added_is_value_changed e w). by vm_compute.
Defined.

(** *** Replaying a notification *)

Lemma assign_again {A} (validate : pyval → result (option A)) new old x :
  assign validate new old = Ok x → assign validate new x = Ok x.
Proof. destruct new; simpl; [done | by intros [= ->]]. Qed.

Lemma populate_again kwargs c c' :
  populate kwargs c = Ok c' → populate kwargs c' = Ok c'.
Proof.
  unfold populate. case_decide; [|done]. unfold_monad.
  destruct (assign validate_string (kwargs !! "command_class") _) eqn:E1;
    [|done].
  destruct (assign validate_integer (kwargs !! "index") _) eqn:E2; [|done].
  destruct (assign validate_boolean (kwargs !! "read_only") _) eqn:E3; [|done].
  destruct (assign validate_string (kwargs !! "units") _) eqn:E4; [|done].
  destruct (assign validate_string (kwargs !! "genre") _) eqn:E5; [|done].
  destruct (assign validate_string (kwargs !! "label") _) eqn:E6; [|done].
  destruct (assign validate_integer (kwargs !! "value_id") _) eqn:E7; [|done].
  destruct (assign validate_string (kwargs !! "type") _) eqn:E8; [|done].
  intros [= <-]. simpl.
  rewrite (assign_again _ _ _ _ E1), (assign_again _ _ _ _ E2),
    (assign_again _ _ _ _ E3), (assign_again _ _ _ _ E4),
    (assign_again _ _ _ _ E5), (assign_again _ _ _ _ E6),
    (assign_again _ _ _ _ E7), (assign_again _ _ _ _ E8).
  by destruct (kwargs !! "value").
Qed.

Lemma find_ccv_insert cc ix l i c' :
  find_ccv (PStr cc) (PInt ix) l = Some i → has_key cc ix c' →
  find_ccv (PStr cc) (PInt ix) (<[i := c']> l) = Some i.
Proof.
  intros Hf Hk. revert i Hf.
  induction l as [|c l IH]; intros i; simpl; [done|].
  rewrite ccv_matches_has_key. case_bool_decide as Hc.
  - intros [= <-]. simpl. rewrite ccv_matches_has_key.
    by rewrite bool_decide_true.
  - destruct (find_ccv _ _ l) as [j|] eqn:Hj; simpl; [|done].
    intros [= <-]. simpl. rewrite ccv_matches_has_key.
    rewrite bool_decide_false by done. by rewrite (IH j).
Qed.

Lemma find_ccv_snoc cc ix l c' :
  find_ccv (PStr cc) (PInt ix) l = None → has_key cc ix c' →
  find_ccv (PStr cc) (PInt ix) (l ++ [c']) = Some (length l).
Proof.
  intros Hf Hk. induction l as [|c l IH]; simpl in *.
  - rewrite ccv_matches_has_key. by rewrite bool_decide_true.
  - destruct (ccv_matches (PStr cc) (PInt ix) c); [done|].
    destruct (find_ccv _ _ l); [done|]. by rewrite IH.
Qed.

Lemma upserted_again cc ix kwargs l l' l'' :
  valid_kwargs kwargs →
  upserted cc ix kwargs l l' → upserted cc ix kwargs l' l'' → l'' = l'.
Proof.
  intros Hv Hu Hu'.
  assert (∃ i c', find_ccv (PStr cc) (PInt ix) l' = Some i
                  ∧ l' !! i = Some c' ∧ populate kwargs c' = Ok c')
    as (i & c' & Hf & Hl & Hp).
  { unfold upserted in Hu.
    destruct (find_ccv _ _ l) as [i|] eqn:Hf.
    - destruct Hu as (c & c' & Hl & Hp & ->).
      destruct (populate_valid kwargs c Hv) as (c0 & Hp0 & Hcc & Hix & _).
      assert (c0 = c') as -> by congruence.
      destruct (find_ccv_Some _ _ _ _ Hf) as (c1 & Hl1 & [Hk1 Hk2]).
      assert (c1 = c) as -> by congruence.
      exists i, c'. split; [|split].
      + apply find_ccv_insert; [done|]. split; congruence.
      + apply list_lookup_insert_eq. by eapply lookup_lt_Some.
      + by eapply populate_again.
    - destruct Hu as (c' & Hp & ->).
      destruct (populate_valid kwargs (fresh_ccv cc ix) Hv)
        as (c0 & Hp0 & Hcc & Hix & _).
      assert (c0 = c') as -> by congruence.
      exists (length l), c'. split; [|split].
      + apply find_ccv_snoc; [done|]. split; simpl in *; congruence.
      + by apply list_lookup_middle.
      + by eapply populate_again. }
  unfold upserted in Hu'. rewrite Hf in Hu'.
  destruct Hu' as (c1 & c2 & Hl1 & Hp2 & ->).
  assert (c1 = c') as -> by congruence.
  assert (c2 = c') as -> by congruence.
  by apply list_insert_id.
Qed.

Lemma set_ids_again (d : ZWaveDevice) :
  set_home_id (zwave_home_id d) d = d ∧ set_node_id (zwave_node_id d) d = d.
Proof. by destruct d. Qed.

(** The mesh identifiers of a notification that was handled are those of
    the device: setting them again changes nothing. *)
Lemma update_mesh_ids_again e w w0 w1 :
  absent_or_int (fields e !! "homeId") →
  absent_or_int (fields e !! "nodeId") →
  update_mesh_ids e w = (Ok tt, w0) →
  zwave_home_id (dev w1) = zwave_home_id (dev w0) →
  zwave_node_id (dev w1) = zwave_node_id (dev w0) →
  update_mesh_ids e w1 = (Ok tt, w1).
Proof.
  intros Hh Hn. unfold update_mesh_ids, update_dev. unfold_monad.
  destruct w1 as [d1 reg1 rs1 t1]. simpl.
  destruct (fields e !! "homeId") as [[]|]; try done;
    destruct (fields e !! "nodeId") as [[]|]; try done; simpl;
    intros [= <-]; simpl; intros H1 H2; try done.
  - rewrite <- H1. rewrite (proj1 (set_ids_again d1)).
    rewrite <- H2. by rewrite (proj2 (set_ids_again d1)).
  - rewrite <- H1. by rewrite (proj1 (set_ids_again d1)).
  - rewrite <- H2. by rewrite (proj2 (set_ids_again d1)).
Qed.

Lemma find_or_append_keeps_ids cc ix w r w' :
  _command_class_value cc ix w = (r, w') →
  zwave_home_id (dev w') = zwave_home_id (dev w)
  ∧ zwave_node_id (dev w') = zwave_node_id (dev w).
Proof.
  unfold _command_class_value, update_dev. unfold_monad. simpl.
  destruct (find_ccv _ _ _); [by intros [= <- <-]|].
  destruct (new_ccv cc ix); by intros [= <- <-].
Qed.

Lemma populate_at_keeps_ids i value w r w' :
  populate_at i value w = (r, w') →
  zwave_home_id (dev w') = zwave_home_id (dev w)
  ∧ zwave_node_id (dev w') = zwave_node_id (dev w).
Proof.
  unfold populate_at, update_dev. unfold_monad. simpl.
  destruct (_ !! i) as [c|]; [|by intros [= <- <-]].
  destruct (populate value c); by intros [= <- <-].
Qed.

Lemma value_branch_keeps_ids w e r w' e' :
  value_branch (w, e) = (r, (w', e')) →
  zwave_home_id (dev w') = zwave_home_id (dev w)
  ∧ zwave_node_id (dev w') = zwave_node_id (dev w).
Proof.
  destruct e as [f v]. rewrite value_branch_unfold.
  destruct v as [v0|]; [|by intros [= <- <- <-]].
  destruct (extract_value v0) as [[[cc ix]|err] value];
    [|by intros [= <- <- <-]].
  rewrite run_bind.
  destruct (_command_class_value cc ix w) as [[i|err] w1] eqn:H1;
    apply find_or_append_keeps_ids in H1 as [Hh1 Hn1];
    [|intros [= <- <- <-]; by rewrite Hh1, Hn1].
  rewrite run_bind.
  destruct (populate_at i value w1) as [[[]|err] w2] eqn:H2;
    apply populate_at_keeps_ids in H2 as [Hh2 Hn2];
    [|intros [= <- <- <-]; by rewrite Hh2, Hn2, Hh1, Hn1].
  rewrite run_bind. unfold gets at 1. simpl.
  rewrite run_bind. unfold emit at 1, modify. simpl.
  case_decide.
  - rewrite run_bind. unfold getitem.
    destruct (value !! "value") as [x|];
      [|unfold raise; intros [= <- <- <-]; simpl;
        by rewrite Hh2, Hn2, Hh1, Hn1].
    unfold ret. rewrite lights_run.
    intros [= <- <- <-]. simpl. by rewrite Hh2, Hn2, Hh1, Hn1.
  - intros [= <- <- <-]. simpl. by rewrite Hh2, Hn2, Hh1, Hn1.
Qed.

(** X15: [handle_event] consumes the notification it is handed.  After a
    well-formed [ValueChanged] notification has been handled, its [valueId]
    dict is left without the key and the mesh entries, so handling the same
    object again raises [KeyError] on [commandClass] and changes nothing.  A
    new notification with the same content is handled like the first, and
    leaves the entries and the room of the device exactly as the first one
    left them.  (Well-formed: the top-level [homeId] and [nodeId] are
    absent or integers, the [valueId] carries the seven entries that are
    taken out, and what is left of it are value fields of an entry with
    values of their types.) *)
Theorem value_notification_replay (e : Event) (cc : string) (ix : Z)
    (kwargs : gmap string pyval) (w : World) :
  value_changed e cc ix kwargs →
  ∃ w1 e1,
    handle_event_in_place (w, e) = (Ok tt, (w1, e1))
    ∧ fields e1 = fields e ∧ valueId e1 = Some kwargs
    ∧ handle_event_in_place (w1, e1)
      = (Raise (KeyError "commandClass"), (w1, e1))
    ∧ ∃ w2,
        handle_event e w1 = (Ok tt, w2)
        ∧ zwave_command_class_values (dev w2)
          = zwave_command_class_values (dev w1)
        ∧ room (dev w2) = room (dev w1).
Proof.
  intros He.
  destruct (handle_value_changed_in_place e cc ix kwargs w He)
    as (w1 & Hr1 & Hu1 & _).
  destruct (handle_value_changed e cc ix kwargs w1 He)
    as (w2 & Hr2 & Hu2 & Hroom & _).
  exists w1, (mkEvent (fields e) (Some kwargs)).
  split; [done|]. split; [done|]. split; [done|]. split.
  - destruct He as (Hnt & Hh & Hn & _ & Hv & _).
    pose proof Hr1 as Hrun.
    rewrite (handle_event_in_place_run e w _ Hnt) in Hrun.
    destruct (update_mesh_ids e w) as [[[]|err] w0] eqn:Hids; [|done].
    rewrite decide_True in Hrun by in_list.
    destruct (value_branch_keeps_ids _ _ _ _ _ Hrun) as [Hhome Hnode].
    rewrite (handle_event_in_place_run (mkEvent (fields e) (Some kwargs)) w1
               _ Hnt).
    assert (update_mesh_ids (mkEvent (fields e) (Some kwargs)) w1
            = (Ok tt, w1)) as ->
      by (by apply (update_mesh_ids_again e w w0 w1)).
    rewrite decide_True by in_list.
    rewrite value_branch_unfold. unfold extract_value.
    rewrite run_bind. unfold pop at 1.
    by rewrite (valid_kwargs_not_field kwargs "commandClass" Hv)
      by (apply (bool_decide_unpack _); by vm_compute).
  - exists w2. repeat split; try done.
    eapply upserted_again; [apply He | done | done].
Qed.

Lemma value_notification_replay_witness :
  let e := mesh_payload (PInt 21) (PInt 7) (PInt 3) (PInt 1) in
  let w := mkWorld (a_device None) ∅ ∅ [] in
  ∃ w1 e1,
    handle_event_in_place (w, e) = (Ok tt, (w1, e1))
    ∧ fields e1 = fields e ∧ valueId e1 = Some (mesh_kwargs (PInt 21))
    ∧ handle_event_in_place (w1, e1)
      = (Raise (KeyError "commandClass"), (w1, e1))
    ∧ ∃ w2,
        handle_event e w1 = (Ok tt, w2)
        ∧ zwave_command_class_values (dev w2)
          = zwave_command_class_values (dev w1)
        ∧ room (dev w2) = room (dev w1).
Proof.
  intros e w.
  apply (value_notification_replay e SENSOR_BINARY 0 (mesh_kwargs (PInt 21)) w).
  apply mesh_payload_value_changed.
Defined.

(** X16: a well-formed [ValueChanged] notification for the binary sensor
    class on a device that is in no room, or in a room that is not stored,
    is still recorded: the call succeeds, the entry holds the notified
    value, and only the value is logged; no lights are touched.
    (Well-formed, as [value_changed] says: the top-level [homeId] and
    [nodeId] are absent or integers; the [valueId] carries [commandClass],
    an integer [index], [readOnly], [id], [homeId], [nodeId] and
    [instance]; what is left of it once these are taken out and [readOnly]
    and [id] are renamed are value fields of an entry with values of their
    types, [value] among them.) *)
Theorem sensor_without_room_only_records (e : Event) (ix : Z)
    (kwargs : gmap string pyval) (v : pyval) (w : World) :
  value_changed e SENSOR_BINARY ix kwargs →
  kwargs !! "value" = Some v →
  room (dev w) = None ∨ room (dev w) = Some ""
  ∨ (∃ R, room (dev w) = Some R ∧ R ∉ rooms w) →
  ∃ w',
    handle_event e w = (Ok tt, w')
    ∧ trace w' = trace w ++ [value_log w' SENSOR_BINARY ix]
    ∧ ∃ c, c ∈ zwave_command_class_values (dev w')
           ∧ has_key SENSOR_BINARY ix c ∧ value c = v.
Proof.
  intros He Hval Hroom.
  destruct (handle_value_changed e _ ix kwargs w He)
    as (w' & Hr & Hu & _ & _ & Ht).
  assert (valid_kwargs kwargs) as Hv by apply He.
  exists w'. split; [done|]. split.
  - rewrite Ht. rewrite decide_True by done.
    assert (lights_effects (room (dev w)) (rooms w)
              (default PNone (kwargs !! "value")) = []) as ->; [|done].
    unfold lights_effects.
    destruct Hroom as [-> | [-> | (R & -> & HR)]]; [done | done |].
    destruct (decide (R = "")); [done|]. by rewrite bool_decide_false.
  - destruct (key_count SENSOR_BINARY ix (zwave_command_class_values (dev w)))
      as [|n] eqn:Hn.
    + destruct (upserted_absent _ _ _ _ _ Hv Hn Hu) as (c & Heq & Hk & Hfs).
      exists c. rewrite Heq. split; [|split; [done|]].
      { apply elem_of_app. right. apply list_elem_of_here. }
      apply (Hfs "value" v Hval).
    + assert (1 ≤ key_count SENSOR_BINARY ix
                    (zwave_command_class_values (dev w)))%nat as Hge by lia.
      destruct (upserted_present _ _ _ _ _ Hv Hge Hu)
        as (i & c0 & c & Hl & _ & Heq & Hk & Hfs).
      exists c. rewrite Heq. split; [|split; [done|]].
      * apply list_elem_of_lookup. exists i.
        apply list_lookup_insert_eq. by eapply lookup_lt_Some.
      * apply (Hfs "value" v Hval).
Qed.

Lemma sensor_without_room_only_records_witness :
  let e := mesh_payload (PBool true) (PInt 7) (PInt 3) (PInt 1) in
  let w := mkWorld (a_device (Some "attic")) ∅ {[ "hall" ]} [] in
  ∃ w',
    handle_event e w = (Ok tt, w')
    ∧ trace w' = [] ++ [value_log w' SENSOR_BINARY 0]
    ∧ ∃ c, c ∈ zwave_command_class_values (dev w')
           ∧ has_key SENSOR_BINARY 0 c ∧ value c = PBool true.
Proof.
  intros e w.
  apply (sensor_without_room_only_records e 0 (mesh_kwargs (PBool true))
           (PBool true) w).
  - apply mesh_payload_value_changed.
  - by vm_compute.
  - right. right. exists "attic". split; [reflexivity|].
    simpl. apply (bool_decide_unpack _). by vm_compute.
Defined.

Lemma key_count_zero_find cc ix l :
  key_count cc ix l = 0%nat → find_ccv (PStr cc) (PInt ix) l = None.
Proof.
  intros Hn. destruct (find_ccv _ _ l) as [i|] eqn:Hf; [|done].
  destruct (find_ccv_Some _ _ _ _ Hf) as (c & Hl & Hk).
  pose proof (key_count_lookup _ _ _ _ _ Hl Hk). lia.
Qed.

(** X17: the entry is appended before it is populated.  A value notification
    (whose top-level [homeId] and [nodeId] are absent or integers, and whose
    [valueId] carries the seven entries that are taken out) for a key the
    device does not hold yet, with a field that is not a property of an
    entry (and none that names the key), is rejected by [populate], and a
    new entry for the key stays in the list of the device all the same. *)
Theorem rejected_notification_leaves_entry (e : Event)
    (v kwargs : gmap string pyval) (cc : string) (ix : Z)
    (field : string) (x : pyval) (w : World) :
  value_type e →
  absent_or_int (fields e !! "homeId") →
  absent_or_int (fields e !! "nodeId") →
  valueId e = Some v →
  extract_value v = (Ok (PStr cc, PInt ix), <[field := x]> kwargs) →
  field ∉ property_names →
  kwargs !! "command_class" = None → kwargs !! "index" = None →
  key_count cc ix (zwave_command_class_values (dev w)) = 0%nat →
  ∃ err d' c,
    handle_event e w
    = (Raise err, mkWorld d' (ZWAVE_DRIVERS w) (rooms w) (trace w))
    ∧ zwave_command_class_values d'
      = zwave_command_class_values (dev w) ++ [c]
    ∧ has_key cc ix c.
Proof.
  intros Hty Hh Hn Hv Hex Hfield _ _ Hcount.
  destruct (update_mesh_ids_device e w Hh Hn)
    as (d0 & Hrun & _ & (Hl0 & _) & _).
  assert (find_ccv (PStr cc) (PInt ix) (zwave_command_class_values d0) = None)
    as Hfind by (rewrite Hl0; by apply key_count_zero_find).
  assert (populate (<[field := x]> kwargs) (fresh_ccv cc ix)
          = Raise AttributeError) as Hpop.
  { unfold populate. rewrite decide_False; [done|].
    intros Hsub. apply Hfield.
    apply (elem_of_list_to_set (C := gset string)), Hsub, elem_of_dom.
    rewrite lookup_insert_eq. eauto. }
  exists AttributeError. eexists _, (fresh_ccv cc ix).
  split; [|split; [| done]].
  - destruct e as [f vid]. simpl in Hv. subst vid.
    destruct Hty as [Hnt|Hnt];
      rewrite (handle_event_run _ w _ Hnt), Hrun;
      (rewrite decide_True by in_list);
      rewrite value_branch_unfold, Hex;
      unfold _command_class_value, populate_at, update_dev; unfold_monad;
      simpl; rewrite Hfind; simpl;
      change (mkCCV (Some cc) (Some ix) PNone None None None None None None)
        with (fresh_ccv cc ix);
      rewrite list_lookup_middle by done; rewrite Hpop; reflexivity.
  - simpl. by rewrite Hl0.
Qed.

Lemma rejected_notification_leaves_entry_witness :
  let v : gmap string pyval :=
    {[ "commandClass" := PStr "COMMAND_CLASS_SWITCH_BINARY"; "index" := PInt 0;
       "id" := PInt 1; "readOnly" := PBool false; "value" := PBool true;
       "homeId" := PInt 7; "nodeId" := PInt 3; "instance" := PInt 1;
       "min" := PInt 0 ]} in
  let e := mkEvent {[ "notificationType" := PStr "ValueAdded" ]} (Some v) in
  let w := mkWorld (a_device None) ∅ ∅ [] in
  ∃ err d' c,
    handle_event e w = (Raise err, mkWorld d' ∅ ∅ [])
    ∧ zwave_command_class_values d' = [] ++ [c]
    ∧ has_key "COMMAND_CLASS_SWITCH_BINARY" 0 c.
Proof.
  intros v e w.
  apply (rejected_notification_leaves_entry e v
           {[ "value" := PBool true; "read_only" := PBool false;
              "value_id" := PInt 1 ]}
           "COMMAND_CLASS_SWITCH_BINARY" 0 "min" (PInt 0) w).
  - left. by vm_compute.
  - by vm_compute.
  - by vm_compute.
  - reflexivity.
  - by vm_compute.
  - apply (bool_decide_unpack _). by vm_compute.
  - by vm_compute.
  - by vm_compute.
  - by vm_compute.
Defined.
End ZWaveMore.

(** ** [user.py]: the buffer *)

Module UserMore.
Import User UserFacts.
Section Fanout.
Context {payload : Type}.
Variable encode : payload → string.

Lemma send_events_run (payloads : list payload)
    (w : World (payload := payload)) :
  payloads ≠ [] →
  for_each payloads send_event w
  = (Ok tt,
     mkWorld (Some (default [] (user_events w)
                    ++ ((λ p, (building w, p)) <$> payloads)))
       (building w) (trace w)).
Proof.
  revert w. induction payloads as [|p ps IH]; intros w Hne; [done|].
  simpl. rewrite run_bind. unfold send_event at 1, set_user_events.
  unfold_monad. simpl.
  destruct ps as [|p' ps]; [done|].
  rewrite IH by done. simpl. by rewrite <- app_assoc.
Qed.

Lemma tagged_with_building (b : string) (payloads : list payload) :
  Forall (λ ev, ev.1 = b) ((λ p, (b, p)) <$> payloads)
  ∧ ((λ p, (b, p)) <$> payloads).*2 = payloads.
Proof.
  induction payloads as [|p ps [IH1 IH2]]; simpl; [done|].
  split; [by constructor | by f_equal].
Qed.

Lemma flush_tagged (b : string) (payloads : list payload)
    (t : list (effect (payload := payload))) :
  ∃ es, push_events encode
          (mkWorld (Some ((λ q, (b, q)) <$> payloads)) b t)
        = (Ok tt, mkWorld None b (t ++ es))
    ∧ deliveries es
      = (λ batch, ("private-" +:+ b, batch)) <$>
          limit_json_batch encode payloads 8000.
Proof.
  destruct (tagged_with_building b payloads) as [Hall Hsnd].
  set (evs := (λ q, (b, q)) <$> payloads) in *.
  rewrite (push_events_run encode (mkWorld (Some evs) b t) evs eq_refl).
  cbv zeta. cbn [building trace].
  rewrite (check_all _ _ _ Hall), Hsnd.
  match goal with |- context [for_each ?bs (deliver ?c) ?w1] =>
    destruct (deliver_all c bs w1) as (es & -> & Hd) end.
  by exists es.
Qed.

(** X18: the events sent during a request are flushed together.  Starting
    without a buffer, after any number of [send_event] calls in one building
    a flush succeeds, delivers the sub-batches of exactly those events, in
    the order they were sent, on the channel of the building, and leaves no
    buffer behind.  With no event sent, nothing is delivered. *)
Theorem send_then_flush (payloads : list payload)
    (w : World (payload := payload)) :
  user_events w = None →
  let r := (for_each payloads send_event;; push_events encode) w in
  r.1 = Ok tt
  ∧ user_events r.2 = None
  ∧ building r.2 = building w
  ∧ deliveries (trace r.2) =
      deliveries (trace w) ++
      ((λ b, ("private-" +:+ building w, b)) <$>
         limit_json_batch encode payloads 8000).
Proof.
  intros Hnone r. subst r. rewrite run_bind.
  destruct payloads as [|p ps].
  - simpl. unfold push_events, set_user_events. unfold_monad. simpl.
    rewrite Hnone. simpl. by rewrite app_nil_r.
  - rewrite send_events_run by done. rewrite Hnone.
    change (default [] None) with (@nil (string * payload)).
    rewrite app_nil_l.
    destruct (flush_tagged (building w) (p :: ps) (trace w))
      as (es & -> & Hd).
    cbn [fst snd user_events building trace].
    by rewrite deliveries_app, Hd.
Qed.

Lemma push_events_clears (w : World (payload := payload)) :
  user_events (push_events encode w).2 = None.
Proof.
  destruct (user_events w) as [events|] eqn:He.
  - rewrite (push_events_run encode w events He). cbv zeta.
    destruct (decide (Forall (λ ev, ev.1 = building w) events)) as [Hall|Hn].
    + rewrite (check_all _ _ _ Hall).
      by destruct (deliver_all ("private-" +:+ building w)
                     (limit_json_batch encode (events.*2) 8000)
                     (mkWorld None (building w) (trace w))) as (es & -> & _).
    + apply not_Forall_Exists in Hn; [|apply _].
      by rewrite (check_some _ _ _ Hn).
  - unfold push_events, set_user_events. unfold_monad. simpl. by rewrite He.
Qed.

(** X19: a flush empties the buffer for good, whether it delivered or
    failed on the assertion: a second flush right after it succeeds and
    changes nothing, so the events of a failed flush are never delivered. *)
Theorem push_events_twice (w : World (payload := payload)) :
  let w1 := (push_events encode w).2 in
  push_events encode w1 = (Ok tt, w1).
Proof.
  intros w1. pose proof (push_events_clears w) as Hc. fold w1 in Hc.
  unfold push_events, set_user_events. unfold_monad. simpl. rewrite Hc.
  destruct w1; simpl in *. by subst.
Qed.
End Fanout.

Lemma send_then_flush_witness :
  let on := ("state", "on") in
  let off := ("state", "off") in
  let w := mkWorld None "b1" [] in
  let r := (for_each [on; off] send_event;; push_events sample_encode) w in
  r.1 = Ok tt
  ∧ user_events r.2 = None
  ∧ building r.2 = building w
  ∧ deliveries (trace r.2) =
      deliveries (trace w) ++
      ((λ b, ("private-" +:+ building w, b)) <$>
         limit_json_batch sample_encode [on; off] 8000).
Proof.
  intros on off w.
  apply (send_then_flush sample_encode [on; off] w). reflexivity.
Defined.
End UserMore.

(** ** [user.py] and [main.py]: who is asking *)

Module PersonMore.
Import Person.

(** X20: [get_person] creates the person of the signed-in user on first use,
    with the user id as its only building, and from then on returns the
    stored person as it is: a stored person is never overwritten (not even
    when the email of the user has changed), and a second call returns the
    same person and changes nothing. *)
Theorem get_person_creates_once (w : World) (u : User.t) (e : string) :
  current_user w = Some u → User.email u = Some e → namespace w = "" →
  let r := get_person w in
  match persons w !! User.user_id u with
  | Some p => r = (Ok p, w)
  | None =>
      let new := mkPerson (Some e) [User.user_id u] in
      r = (Ok new,
           mkWorld (current_user w) (namespace w)
             (<[User.user_id u := new]> (persons w)))
  end
  ∧ get_person r.2 = r.
Proof.
  intros Hu He Hns r. subst r.
  destruct w as [cu ns ps]. simpl in *. subst cu ns.
  unfold get_person, get_or_insert. unfold_monad. simpl. rewrite He. simpl.
  destruct (ps !! User.user_id u) as [p|] eqn:Hp; simpl.
  - split; [done|]. rewrite He. simpl. by rewrite Hp.
  - split; [done|]. rewrite He. simpl. by rewrite lookup_insert_eq.
Qed.

Lemma get_person_creates_once_witness :
  let u := User.mk "1234" (Some "ann@example.org") in
  let w := mkWorld (Some u) "" ∅ in
  let r := get_person w in
  match persons w !! User.user_id u with
  | Some p => r = (Ok p, w)
  | None =>
      let new := mkPerson (Some "ann@example.org") [User.user_id u] in
      r = (Ok new,
           mkWorld (current_user w) (namespace w)
             (<[User.user_id u := new]> (persons w)))
  end
  ∧ get_person r.2 = r.
Proof.
  intros u w.
  apply (get_person_creates_once w u "ann@example.org");
    reflexivity.
Defined.

(** X21: the channel authorization never grants access.  When nobody is
    signed in, the user has no email or a namespace is set, [get_person]
    fails its assertion and nothing changes; otherwise the person is looked
    up (and stored, if new) and the call then raises [AttributeError] on
    the pattern, before the buildings of the person are consulted. *)
Theorem channel_auth_never_succeeds (form : gmap string string) (w : World) :
  let r := pusher_client_auth_callback form w in
  (r.1 = Raise AssertionError ∧ r.2 = w)
  ∨ (r.1 = Raise AttributeError
     ∧ ∃ u, current_user w = Some u ∧ namespace w = ""
            ∧ is_Some (persons r.2 !! User.user_id u)).
Proof.
  intros r. subst r.
  unfold pusher_client_auth_callback, get_person, get_or_insert.
  unfold_monad. simpl.
  destruct (current_user w) as [u|] eqn:Hu; simpl; [|by left].
  destruct (User.email u) as [e|]; simpl; [|by left].
  case_decide as Hns; simpl; [|by left].
  right. destruct (persons w !! User.user_id u) as [p|] eqn:Hp; simpl.
  - split; [done|]. exists u. rewrite Hp. eauto.
  - split; [done|]. exists u. rewrite lookup_insert_eq. eauto.
Qed.
End PersonMore.

Module MainMore.
Import Person Main.
Section Guard.
Context {Proxy : Type}.
Variable authenticate : Request → option Proxy.
Variable create_login_url : string → string.

Local Abbreviation guard := (before_request authenticate create_login_url).

(** X22: what [before_request] lets through.  A request passes only as an
    authenticated proxy (the proxy header is [true] and [authenticate]
    finds the proxy), as the cron call ([tasks.update] with the cron
    header), or for a signed-in user, whose id then becomes the namespace.
    Every other request is answered with 401 or sent to the login page.
    The namespace changes in the last of the three cases only, and the
    proxy header is looked at first: with it, neither the cron header nor
    a signed-in user is consulted. *)
Theorem before_request_lets_through (request : Request) (w : World) :
  let r := guard request w in
  let proxy := headers request !! "awesomation-proxy" = Some "true" in
  let cron := endpoint request = Some "tasks.update" in
  match r.1 with
  | Ok None =>
      (proxy ∧ is_Some (authenticate request) ∧ r.2 = w)
      ∨ (¬ proxy ∧ cron
         ∧ headers request !! "X-AppEngine-Cron" = Some "true" ∧ r.2 = w)
      ∨ (¬ proxy ∧ ¬ cron
         ∧ ∃ u, current_user w = Some u
                ∧ r.2 = mkWorld (current_user w) (User.user_id u) (persons w))
  | Ok (Some (Redirect location)) =>
      ¬ proxy ∧ ¬ cron ∧ current_user w = None
      ∧ location = create_login_url (url request) ∧ r.2 = w
  | Raise err =>
      err = HTTPException 401 ∧ r.2 = w
      ∧ ((proxy ∧ authenticate request = None)
         ∨ (¬ proxy ∧ cron
            ∧ headers request !! "X-AppEngine-Cron" ≠ Some "true"))
  end.
Proof.
  intros r proxy cron. subst r proxy cron.
  unfold before_request, set_namespace. unfold_monad.
  case_decide as Hp; simpl.
  - destruct (authenticate request) eqn:Ha; simpl; eauto 10.
  - case_decide as Hc; simpl.
    + case_decide as Hh; simpl; eauto 10.
    + destruct (current_user w) as [u|] eqn:Hu; simpl; [|done].
      right. right. split; [done|]. split; [done|]. exists u.
      by rewrite Hu.
Qed.

(** X23: under this guard [get_person] cannot succeed for a signed-in
    browser request: the guard sets the namespace to the id of the user, and
    [get_person] asserts that no namespace is set.  For an ordinary request
    (no proxy header, not the cron endpoint) of a user with a non-empty id,
    the guard followed by [get_person] raises [AssertionError] and stores
    no person. *)
Theorem get_person_fails_behind_guard (request : Request) (w : World)
    (u : User.t) :
  headers request !! "awesomation-proxy" ≠ Some "true" →
  endpoint request ≠ Some "tasks.update" →
  current_user w = Some u → User.user_id u ≠ "" →
  (guard request;; get_person) w
  = (Raise AssertionError,
     mkWorld (current_user w) (User.user_id u) (persons w)).
Proof.
  intros Hp Hc Hu Hid.
  unfold before_request, set_namespace, get_person. unfold_monad.
  rewrite decide_False by done. rewrite decide_False by done. simpl.
  rewrite Hu. simpl. rewrite Hu. simpl.
  destruct (User.email u); simpl; [|done].
  by rewrite decide_False.
Qed.
End Guard.

Lemma get_person_fails_behind_guard_witness :
  let u := User.mk "1234" (Some "ann@example.org") in
  let w := mkWorld (Some u) "" ∅ in
  let request := mkRequest ∅ (Some "user.get_user_request") "/api/user/" in
  (before_request (λ _, @None unit) (λ url, "/login?next=" +:+ url) request;;
   get_person) w
  = (Raise AssertionError, mkWorld (current_user w) (User.user_id u) (persons w)).
Proof.
  intros u w request.
  apply (get_person_fails_behind_guard (λ _, @None unit)
           (λ url, "/login?next=" +:+ url) request w u).
  - by vm_compute.
  - discriminate.
  - reflexivity.
  - discriminate.
Defined.
End MainMore.

(** ** [account.py] *)

Module AccountMore.
Import Account AccountFacts AccountTerms.
Section Exchange.
Context {timestamp : Type}.
Variable float_add : timestamp → Z → timestamp.
Variable urlopen : string → string → response.
Variable ACCOUNT_CLASSES : string → AccountClass (timestamp := timestamp).

Local Abbreviation refresh := (refresh_access_token float_add urlopen).
Local Abbreviation callback :=
  (oauth_redirect_callback float_add urlopen ACCOUNT_CLASSES).


Lemma refresh_run_failure cls (self : Account) env template url :
  ACCESS_TOKEN_URL cls = Some template →
  format template (parameters cls self) = Ok url →
  match urlopen url (_get_refresh_data cls self) with
  | Success (Object _) => True
  | Success Malformed | Failure Malformed =>
      refresh cls (self, env)
      = (Raise ValueError,
         (self, requested env url (_get_refresh_data cls self) []))
  | Failure (Object _) =>
      refresh cls (self, env)
      = (Raise HTTPError,
         (self, requested env url (_get_refresh_data cls self) [Log "%s" []]))
  end.
Proof.
  intros Ht Hf.
  unfold refresh_access_token, emit, update_self, json_load, getitem.
  rewrite Ht. unfold_monad. simpl. rewrite Hf. simpl.
  unfold requested.
  destruct (urlopen url (_get_refresh_data cls self)) as [[|o]|[|o]]; simpl;
    try done; by rewrite <- ?app_assoc, ?app_nil_r.
Qed.

Lemma callback_found args code state (a : Account) env :
  args !! "code" = Some code → args !! "state" = Some state →
  accounts env !! state = Some a →
  callback args env =
    let cls := ACCOUNT_CLASSES (class_ a) in
    match (refresh cls;; refresh_devices cls;; put)
            (set_auth_code (Some code) a, env) with
    | (Ok _, (_, env')) => (Ok "OK", env')
    | (Raise e, (_, env')) => (Raise e, env')
    end.
Proof.
  intros Hc Hs Ha. unfold oauth_redirect_callback, on_object, update_self.
  rewrite Hc, Hs. unfold_monad. simpl. rewrite Ha. simpl.
  destruct (refresh_access_token _ _ _ _) as [[[]|e] [a' env']]; [|done].
  destruct (refresh_devices _ _) as [[[]|e] [a'' env'']]; [|done].
  by destruct (put _) as [[] []].
Qed.


(** X25: when the exchange fails, the callback stores nothing.  With a code
    and the state of a stored account, an HTTP error or an answer that is
    not JSON makes the callback raise after its one request; the stored
    accounts are as before, so the code of the callback is not kept
    either. *)
Theorem callback_failed_exchange_stores_nothing (args : gmap string string)
    (code state : string) (a : Account) (env : Env)
    (template : list segment) (url : string) :
  let cls := ACCOUNT_CLASSES (class_ a) in
  let a1 := set_auth_code (Some code) a in
  let data := _get_refresh_data cls a1 in
  args !! "code" = Some code → args !! "state" = Some state →
  accounts env !! state = Some a →
  ACCESS_TOKEN_URL cls = Some template →
  format template (parameters cls a1) = Ok url →
  (∀ o, urlopen url data ≠ Success (Object o)) →
  let r := callback args env in
  (r.1 = Raise HTTPError ∨ r.1 = Raise ValueError)
  ∧ accounts r.2 = accounts env
  ∧ exchanges (trace r.2) = exchanges (trace env) ++ [(url, data)]
  ∧ stores (trace r.2) = stores (trace env).
Proof.
  intros cls a1 data Hc Hs Ha Ht Hf Hu r. subst r.
  rewrite (callback_found args code state a env Hc Hs Ha). cbv zeta.
  fold cls a1. rewrite run_bind.
  pose proof (refresh_run_failure cls a1 env template url Ht Hf) as Hrun.
  fold data in Hrun. specialize (Hu) as Hu'.
  destruct (urlopen url data) as [[|o]|[|o]]; try (by destruct (Hu' o));
    rewrite Hrun; unfold requested; simpl;
    (split; [auto|]); (split; [done|]);
    rewrite ?exchanges_app, ?stores_app; simpl; by rewrite ?app_nil_r.
Qed.

Lemma format_missing_field (template : list segment)
    (parameters : gmap string pyval) (n : string) :
  Field n ∈ template → parameters !! n = None →
  ∃ k, format template parameters = Raise (KeyError k).
Proof.
  intros Hin Hn. induction template as [|seg t IH]; [by apply elem_of_nil in Hin|].
  apply elem_of_cons in Hin as [<-|Hin]; simpl.
  - rewrite Hn. eauto.
  - destruct (IH Hin) as (k & Hk). destruct seg as [s|m]; simpl.
    + rewrite Hk. eauto.
    + destruct (parameters !! m); [|eauto]. rewrite Hk. eauto.
Qed.

(** X26: the url of the exchange can only use the four fields that
    [refresh_access_token] provides.  A url pattern with any other field,
    [%(refresh_token)s] for one, makes the refresh raise [KeyError] before
    anything is logged or requested, with the account unchanged. *)
Theorem refresh_url_takes_four_fields (cls : AccountClass) (self : Account)
    (env : Env) (template : list segment) (n : string) :
  ACCESS_TOKEN_URL cls = Some template →
  Field n ∈ template →
  n ∉ ["client_id"; "auth_code"; "client_secret"; "grant_type"] →
  ∃ k, refresh cls (self, env) = (Raise (KeyError k), (self, env)).
Proof.
  intros Ht Hin Hn.
  assert (parameters cls self !! n = None) as Hnone.
  { unfold parameters.
    rewrite !lookup_insert_ne, lookup_singleton_ne; [done|..];
      intros <-; apply Hn; set_solver. }
  destruct (format_missing_field template _ n Hin Hnone) as (k & Hk).
  exists k. unfold refresh_access_token. rewrite Ht. unfold_monad. simpl.
  by rewrite Hk.
Qed.

(** X27: the access token is set before the expiry is read.  An answer with
    an access token and no [expires_in] makes the refresh raise [KeyError],
    and the account object already holds the new access token, next to the
    old expiry and the old refresh token. *)
Theorem refresh_without_expiry_keeps_token (cls : AccountClass)
    (self : Account) (env : Env) (template : list segment) (url : string)
    (o : gmap string pyval) (token : string) :
  ACCESS_TOKEN_URL cls = Some template →
  format template (parameters cls self) = Ok url →
  urlopen url (_get_refresh_data cls self) = Success (Object o) →
  o !! "access_token" = Some (PStr token) →
  o !! "expires_in" = None →
  let r := refresh cls (self, env) in
  r.1 = Raise (KeyError "expires_in")
  ∧ r.2.1 = set_access_token (Some token) self
  ∧ accounts r.2.2 = accounts env.
Proof.
  intros Ht Hf Hu Hat Hex r. subst r.
  unfold refresh_access_token, emit, update_self, json_load, getitem.
  rewrite Ht. unfold_monad. simpl. rewrite Hf. simpl. rewrite Hu. simpl.
  rewrite Hat. simpl. by rewrite Hex.
Qed.
End Exchange.


Lemma callback_failed_exchange_stores_nothing_witness :
  let args : gmap string string := {[ "code" := "CODE"; "state" := "s1" ]} in
  let down (url data : string) := Failure Malformed in
  let r := oauth_redirect_callback Z.add down (λ _, sample_class)
             args sample_env in
  (r.1 = Raise HTTPError ∨ r.1 = Raise ValueError)
  ∧ accounts r.2 = accounts sample_env
  ∧ exchanges (trace r.2) = exchanges (trace sample_env) ++ [(sample_url, "")]
  ∧ stores (trace r.2) = stores (trace sample_env).
Proof.
  intros args down.
  apply (callback_failed_exchange_stores_nothing Z.add down
           (λ _, sample_class) args "CODE" "s1" (linked (Some "R1")) sample_env
           token_url sample_url).
  - by vm_compute.
  - by vm_compute.
  - by vm_compute.
  - reflexivity.
  - by vm_compute.
  - intros o. discriminate.
Defined.

Lemma refresh_url_takes_four_fields_witness :
  let template := [Lit "https://provider.example/token?refresh_token=";
                   Field "refresh_token"] in
  let cls := mkClass (Some "id") (Some "secret") (Some template) None
               (_get_refresh_data Account_class)
               (refresh_devices Account_class) in
  ∃ k, refresh_access_token Z.add provider cls (linked (Some "R1"), sample_env)
       = (Raise (KeyError k), (linked (Some "R1"), sample_env)).
Proof.
  intros template cls.
  apply (refresh_url_takes_four_fields Z.add provider cls
           (linked (Some "R1")) sample_env template "refresh_token").
  - reflexivity.
  - apply list_elem_of_further, list_elem_of_here.
  - apply (bool_decide_unpack _). by vm_compute.
Defined.

Lemma refresh_without_expiry_keeps_token_witness :
  let o : gmap string pyval := {[ "access_token" := PStr "T2" ]} in
  let partial (url data : string) := Success (Object o) in
  let self := linked (Some "R1") in
  let r := refresh_access_token Z.add partial sample_class (self, sample_env) in
  r.1 = Raise (KeyError "expires_in")
  ∧ r.2.1 = set_access_token (Some "T2") self
  ∧ accounts r.2.2 = accounts sample_env.
Proof.
  intros o partial self.
  apply (refresh_without_expiry_keeps_token Z.add partial sample_class self
           sample_env token_url sample_url o "T2").
  - reflexivity.
  - by vm_compute.
  - reflexivity.
  - by vm_compute.
  - by vm_compute.
Defined.
End AccountMore.

Module FlowMore.
Import Account Flow.

Section Start.
Context {timestamp : Type}.
Variable uuid4 : string.

(** X28: the flow cannot be started.  A request that names no account type
    is answered with 400; one that names a type that is not registered
    raises [AttributeError] (the source calls [flask.about]), not 400; and
    one that names a registered type raises [AttributeError] as well, on
    [user.get_user], before the account is made.  In every case nothing is
    stored and nothing is logged. *)
Theorem start_flow_never_starts
    (ACCOUNT_TYPES : gmap string (AccountClass (timestamp := timestamp)))
    (args : gmap string string) (env : Env) :
  oauth_start_flow uuid4 ACCOUNT_TYPES args env
  = (Raise match args !! "type" with
           | Some _ => AttributeError
           | None => HTTPException 400
           end,
     env).
Proof.
  unfold oauth_start_flow.
  destruct (args !! "type") as [account_type|]; [|done].
  destruct (ACCOUNT_TYPES !! account_type) as [cls|]; [|done].
  by rewrite run_bind.
Qed.
End Start.
End FlowMore.

